(** * Sittara: reservation and table allocation engine

    A shallow embedding of the Express route handlers and of the table
    status service of the Sittara backend, and the properties of the
    reservation engine checked against them.

    The persistent store (Supabase / PostgREST) is a record of row lists.
    A handler is a function from the request and the store to a response
    and the next store.  What the handlers leave to collaborators that do
    not touch the store (e-mail, push notifications, Stripe refunds, audit
    logging, console output) is not part of the embedding, and neither are
    persistence failures: a query always answers, so the [500] branches
    that only report a store error do not appear.  The anonymous and the
    service-role client read and write the same rows (row-level security
    policies are not part of the sources).  Generated values (row ids) are
    arguments of the handler.  Columns that no handler below reads (qr_code
    and the created_at / updated_at stamps) are left out of the rows.  Date
    and time columns hold the canonical text the store returns for them, so
    two texts denote the same value iff they are equal.  A status filter
    such as [.not('status', 'in', '("cancelled", "no_show")')] is read as
    the list of the statuses it names. *)

From Stdlib Require Import ZArith List String Ascii Bool Arith Lia Sorted.
Import ListNotations.

Open Scope Z_scope.
Open Scope string_scope.

(** ** JavaScript values *)

Module Js.

(** A JSON field that may be missing: [None] is [undefined]. *)

Definition truthy_string (o : option string) : bool :=
  match o with
  | Some s => negb (s =? "")
  | None => false
  end.

Definition truthy_number (o : option Z) : bool :=
  match o with
  | Some n => negb (n =? 0)%Z
  | None => false
  end.

Definition truthy_bool (o : option bool) : bool :=
  match o with
  | Some b => b
  | None => false
  end.

(** [a || b] on an optional string with a string default. *)
Definition or_string (o : option string) (d : string) : string :=
  match o with
  | Some s => if s =? "" then d else s
  | None => d
  end.

(** [xs.includes(x)] on an array of strings. *)
Definition includes (xs : list string) (x : string) : bool :=
  existsb (String.eqb x) xs.

(** [a !== b] where [b] may be undefined. *)
Definition neq_opt (a : string) (b : option string) : bool :=
  match b with
  | Some b' => negb (a =? b')
  | None => true
  end.

(** A JavaScript number as the time arithmetic meets it. *)
Inductive number : Type :=
| Num (z : Z)
| NaN.

Definition num_le (a : number) (k : Z) : bool :=
  match a with
  | Num z => (z <=? k)%Z
  | NaN => false
  end.

(** [x || 0] on an optional number: [undefined], [NaN] and [0] give [0]. *)
Definition or_zero (o : option number) : Z :=
  match o with
  | Some (Num z) => z
  | _ => 0
  end.

End Js.

(** ** Rows of the store *)

Record Table : Type := mkTable {
  t_id : string;
  t_restaurant_id : string;
  t_number : Z;
  t_capacity : Z;
  t_is_active : bool;
  t_status : string
}.

Record Reservation : Type := mkReservation {
  r_id : string;
  r_restaurant_id : string;
  r_user_id : string;
  r_table_id : string;
  r_date : string;
  r_time : string;
  r_end_time : option string;
  r_guest_count : Z;
  r_occasion : option string;
  r_special_request : option string;
  r_status : string;
  r_deposit_paid : bool;
  r_source : option string;
  r_internal_notes : option string;
  r_cancellation_reason : option string
}.

Record Holiday : Type := mkHoliday {
  h_date : string;
  h_closed : bool
}.

Record Restaurant : Type := mkRestaurant {
  rest_id : string;
  rest_holidays : option (list Holiday)
}.

Record WaitlistEntry : Type := mkWaitlistEntry {
  w_id : string;
  w_restaurant_id : string;
  w_user_id : option string;
  w_name : string;
  w_phone : string;
  w_party_size : Z;
  w_status : string;
  w_position : option Z;
  w_estimated_wait : Z
}.

Record Db : Type := mkDb {
  db_tables : list Table;
  db_reservations : list Reservation;
  db_restaurants : list Restaurant;
  db_waitlist : list WaitlistEntry
}.

Definition with_reservations (db : Db) (rs : list Reservation) : Db :=
  mkDb (db_tables db) rs (db_restaurants db) (db_waitlist db).

Definition with_tables (db : Db) (ts : list Table) : Db :=
  mkDb ts (db_reservations db) (db_restaurants db) (db_waitlist db).

Definition with_waitlist (db : Db) (ws : list WaitlistEntry) : Db :=
  mkDb (db_tables db) (db_reservations db) (db_restaurants db) ws.

(** ** The query builder *)

Module Supabase.

(** [.single()]: the data is the row when the query selects exactly one
    row; with no row, or with more than one, the request is answered with
    an error and the data is [null]. *)
Definition single {A : Type} (rows : list A) : option A :=
  match rows with
  | [x] => Some x
  | _ => None
  end.

(** [.update(f).eq(...)]: every selected row is rewritten. *)
Definition update {A : Type} (sel : A -> bool) (f : A -> A) (rows : list A)
  : list A :=
  map (fun x => if sel x then f x else x) rows.

(** [.insert(row)]. *)
Definition insert {A : Type} (row : A) (rows : list A) : list A :=
  (rows ++ [row])%list.

(** [.not('status', 'in', '(...)')]. *)
Definition not_in (xs : list string) (x : string) : bool :=
  negb (Js.includes xs x).

End Supabase.

(** ** Requests and responses *)

Record User : Type := mkUser {
  u_id : string;
  u_role : string;
  u_restaurantId : option string
}.

Record Response (A : Type) : Type := mkResponse {
  res_status : nat;
  res_data : option A
}.

Arguments mkResponse {A} _ _.
Arguments res_status {A} _.
Arguments res_data {A} _.

Definition reject {A : Type} (code : nat) : Response A :=
  mkResponse code None.
Definition ok {A : Type} (code : nat) (x : A) : Response A :=
  mkResponse code (Some x).

Definition set_table_status (tableId status : string) (db : Db) : Db :=
  with_tables db
    (Supabase.update (fun t => t_id t =? tableId)
       (fun t => mkTable (t_id t) (t_restaurant_id t) (t_number t)
                   (t_capacity t) (t_is_active t) status)
       (db_tables db)).

Definition reservation_by_id (id : string) (db : Db) : option Reservation :=
  Supabase.single (filter (fun r => r_id r =? id) (db_reservations db)).

Definition update_reservation (id : string) (f : Reservation -> Reservation)
  (db : Db) : Db :=
  with_reservations db
    (Supabase.update (fun r => r_id r =? id) f (db_reservations db)).

Definition set_status (s : string) (r : Reservation) : Reservation :=
  mkReservation (r_id r) (r_restaurant_id r) (r_user_id r) (r_table_id r)
    (r_date r) (r_time r) (r_end_time r) (r_guest_count r) (r_occasion r)
    (r_special_request r) s (r_deposit_paid r) (r_source r)
    (r_internal_notes r) (r_cancellation_reason r).

(** The rows a slot check selects: same table, date and time, status
    neither cancelled nor no_show; [exclude] is the [.neq('id', ...)] of the
    reschedule route. *)
Definition slot_rows (exclude : option string) (tableId date time : string)
  (db : Db) : list Reservation :=
  filter (fun r =>
            (r_table_id r =? tableId) && (r_date r =? date)
            && (r_time r =? time)
            && match exclude with
               | Some id => negb (r_id r =? id)
               | None => true
               end
            && Supabase.not_in ["cancelled"; "no_show"] (r_status r))
         (db_reservations db).

(** ** POST /api/reservations *)

Record CreateBody : Type := mkCreateBody {
  c_restaurantId : option string;
  c_tableId : option string;
  c_date : option string;
  c_time : option string;
  c_guestCount : option Z;
  c_occasion : option string;
  c_specialRequest : option string;
  c_depositPaid : option bool
}.

Definition opt_text (o : option string) : option string :=
  if Js.truthy_string o then o else None.

Definition createReservation (new_id : string) (u : User) (b : CreateBody)
  (db : Db) : Response Reservation * Db :=
  if negb (Js.truthy_string (c_restaurantId b))
     || negb (Js.truthy_string (c_tableId b))
     || negb (Js.truthy_string (c_date b))
     || negb (Js.truthy_string (c_time b))
     || negb (Js.truthy_number (c_guestCount b))
  then (reject 400, db)
  else
    let restaurantId := Js.or_string (c_restaurantId b) "" in
    let tableId := Js.or_string (c_tableId b) "" in
    let date := Js.or_string (c_date b) "" in
    let time := Js.or_string (c_time b) "" in
    match Supabase.single (slot_rows None tableId date time db) with
    | Some _ => (reject 409, db)
    | None =>
        let reservation :=
          mkReservation new_id restaurantId (u_id u) tableId date time None
            (match c_guestCount b with Some n => n | None => 0 end)
            (opt_text (c_occasion b))
            (opt_text (c_specialRequest b))
            (if Js.truthy_bool (c_depositPaid b) then "confirmed"
             else "pending")
            (Js.truthy_bool (c_depositPaid b))
            None None None in
        let db1 :=
          with_reservations db
            (Supabase.insert reservation (db_reservations db)) in
        (ok 201 reservation, set_table_status tableId "pending" db1)
    end.

(** ** PATCH /api/reservations/:id/status *)

Definition validStatuses : list string :=
  ["pending"; "confirmed"; "arrived"; "completed"; "cancelled"; "no_show"].

(** The switch that picks the table status going with a reservation
    status; [None] is the [null] that leaves the table alone. *)
Definition tableStatus_for (status : string) : option string :=
  if status =? "confirmed" then Some "occupied"
  else if status =? "arrived" then Some "occupied"
  else if (status =? "completed") || (status =? "cancelled")
          || (status =? "no_show") then Some "available"
  else None.

Definition updateReservationStatus (u : User) (id : string)
  (status : option string) (db : Db) : Response Reservation * Db :=
  if negb (Js.truthy_string status)
     || negb (Js.includes validStatuses (Js.or_string status ""))
  then (reject 400, db)
  else
    let status := Js.or_string status "" in
    match reservation_by_id id db with
    | None => (reject 404, db)
    | Some reservation =>
        if (u_role u =? "restaurant_admin")
           && Js.neq_opt (r_restaurant_id reservation) (u_restaurantId u)
        then (reject 403, db)
        else
          let db1 := update_reservation id (set_status status) db in
          let updatedReservation := set_status status reservation in
          match tableStatus_for status with
          | Some tableStatus =>
              (ok 200 updatedReservation,
               set_table_status (r_table_id reservation) tableStatus db1)
          | None => (ok 200 updatedReservation, db1)
          end
    end.

(** ** POST /api/reservations/:id/cancel *)

Definition newline : string := String (ascii_of_nat 10) "".

Definition cancelled_note (reason : option string) : string :=
  "[Cancelled: " ++ Js.or_string reason "No reason provided" ++ "]".

Definition cancel_update (reason : option string) (r : Reservation)
  : Reservation :=
  mkReservation (r_id r) (r_restaurant_id r) (r_user_id r) (r_table_id r)
    (r_date r) (r_time r) (r_end_time r) (r_guest_count r) (r_occasion r)
    (Some (if Js.truthy_string (r_special_request r)
           then Js.or_string (r_special_request r) "" ++ newline ++ newline
                ++ cancelled_note reason
           else cancelled_note reason))
    "cancelled" (r_deposit_paid r) (r_source r)
    (r_internal_notes r) (r_cancellation_reason r).

Definition cancelReservation (u : User) (id : string)
  (reason : option string) (db : Db) : Response unit * Db :=
  match reservation_by_id id db with
  | None => (reject 404, db)
  | Some reservation =>
      if negb (r_user_id reservation =? u_id u)
         && negb (u_role u =? "restaurant_admin")
         && negb (u_role u =? "super_admin")
      then (reject 403, db)
      else if (u_role u =? "restaurant_admin")
              && Js.neq_opt (r_restaurant_id reservation) (u_restaurantId u)
      then (reject 403, db)
      else if Js.includes ["completed"; "cancelled"; "no_show"]
                (r_status reservation)
      then (reject 400, db)
      else
        let db1 := update_reservation id (cancel_update reason) db in
        (ok 200 tt, set_table_status (r_table_id reservation) "available" db1)
  end.

(** ** PATCH /api/reservations/:id (reschedule) *)

Record RescheduleBody : Type := mkRescheduleBody {
  p_date : option string;
  p_time : option string;
  p_guestCount : option Z
}.

Definition table_by_id (id : string) (db : Db) : option Table :=
  Supabase.single (filter (fun t => t_id t =? id) (db_tables db)).

Definition restaurant_by_id (id : string) (db : Db) : option Restaurant :=
  Supabase.single (filter (fun x => rest_id x =? id) (db_restaurants db)).

(** [holidays.some(h => h.date === finalDate && h.closed)] over
    [restaurant?.holidays || []]. *)
Definition isHoliday (restaurant : option Restaurant) (finalDate : string)
  : bool :=
  let holidays :=
    match restaurant with
    | Some x => match rest_holidays x with Some hs => hs | None => [] end
    | None => []
    end in
  existsb (fun h => (h_date h =? finalDate) && h_closed h) holidays.

Definition reschedule_update (date time : string) (guests : Z)
  (r : Reservation) : Reservation :=
  mkReservation (r_id r) (r_restaurant_id r) (r_user_id r) (r_table_id r)
    date time (r_end_time r) guests (r_occasion r) (r_special_request r)
    (r_status r) (r_deposit_paid r) (r_source r) (r_internal_notes r)
    (r_cancellation_reason r).

Definition rescheduleReservation (u : User) (id : string)
  (b : RescheduleBody) (db : Db) : Response Reservation * Db :=
  if negb (Js.truthy_string (p_date b)) && negb (Js.truthy_string (p_time b))
     && negb (Js.truthy_number (p_guestCount b))
  then (reject 400, db)
  else
    match reservation_by_id id db with
    | None => (reject 404, db)
    | Some reservation =>
        if negb (r_user_id reservation =? u_id u)
           && negb (u_role u =? "super_admin")
        then (reject 403, db)
        else
          let finalGuestCount :=
            match p_guestCount b with
            | Some n => if (n =? 0)%Z then r_guest_count reservation else n
            | None => r_guest_count reservation
            end in
          let finalDate := Js.or_string (p_date b) (r_date reservation) in
          let finalTime := Js.or_string (p_time b) (r_time reservation) in
          if Js.truthy_string (p_date b)
             && isHoliday (restaurant_by_id (r_restaurant_id reservation) db)
                  finalDate
          then (reject 400, db)
          else if Js.truthy_number (p_guestCount b)
                  && match table_by_id (r_table_id reservation) db with
                     | Some table => (t_capacity table <? finalGuestCount)%Z
                     | None => false
                     end
          then (reject 400, db)
          else if (Js.truthy_string (p_date b)
                   || Js.truthy_string (p_time b))
                  && match Supabase.single
                             (slot_rows (Some id) (r_table_id reservation)
                                finalDate finalTime db) with
                     | Some _ => true
                     | None => false
                     end
          then (reject 409, db)
          else
            let f := reschedule_update finalDate finalTime finalGuestCount in
            (ok 200 (f reservation), update_reservation id f db)
    end.

(** ** The restaurant panel: PATCH /api/admin/reservas/:id/aceptar and
       PATCH /api/admin/reservas/:id/cancelar

    Both update the row selected by id and by the panel's restaurant and
    read it back with [.single()]; the id is the key of the table, so the
    update selects one row or none, and none makes the route answer 500. *)

Definition panel_row (restaurantId id : string) (db : Db)
  : option Reservation :=
  Supabase.single
    (filter (fun r => (r_id r =? id) && (r_restaurant_id r =? restaurantId))
       (db_reservations db)).

Definition acceptReservation (restaurantId id : string) (db : Db)
  : Response Reservation * Db :=
  match panel_row restaurantId id db with
  | None => (reject 500, db)
  | Some r =>
      let data := set_status "confirmed" r in
      let db1 :=
        with_reservations db
          (Supabase.update
             (fun x => (r_id x =? id) && (r_restaurant_id x =? restaurantId))
             (set_status "confirmed") (db_reservations db)) in
      (ok 200 data,
       if r_table_id data =? "" then db1
       else set_table_status (r_table_id data) "reserved" db1)
  end.

Definition panel_cancel_update (reason : option string) (r : Reservation)
  : Reservation :=
  mkReservation (r_id r) (r_restaurant_id r) (r_user_id r) (r_table_id r)
    (r_date r) (r_time r) (r_end_time r) (r_guest_count r) (r_occasion r)
    (r_special_request r) "cancelled" (r_deposit_paid r) (r_source r)
    (r_internal_notes r)
    (Some (Js.or_string reason "Cancelada por el restaurante")).

Definition panelCancelReservation (restaurantId id : string)
  (reason : option string) (db : Db) : Response Reservation * Db :=
  match panel_row restaurantId id db with
  | None => (reject 500, db)
  | Some r =>
      let data := panel_cancel_update reason r in
      let db1 :=
        with_reservations db
          (Supabase.update
             (fun x => (r_id x =? id) && (r_restaurant_id x =? restaurantId))
             (panel_cancel_update reason) (db_reservations db)) in
      (ok 200 data,
       if r_table_id data =? "" then db1
       else set_table_status (r_table_id data) "available" db1)
  end.

(** ** Clock and time texts *)

(** A JavaScript [Date] as the handlers use it: [toISOString().split('T')[0]]
    is its calendar day and [toTimeString().split(' ')[0]] its wall-clock
    time, kept as the seconds since midnight. *)
Record Date : Type := mkDate {
  iso_day : string;
  seconds : Z
}.

Definition digit (d : Z) : ascii := ascii_of_N (Z.to_N (48 + d)).

Definition pad2 (n : Z) : string :=
  String (digit (n / 10)) (String (digit (n mod 10)) "").

Definition hhmmss (h m s : Z) : string :=
  pad2 h ++ ":" ++ pad2 m ++ ":" ++ pad2 s.

Definition time_of_seconds (t : Z) : string :=
  hhmmss (t / 3600) ((t / 60) mod 60) (t mod 60).

Definition toTimeString (d : Date) : string :=
  time_of_seconds (seconds d mod 86400).

(** [new Date(now.getTime() + minutes * 60000)]. *)
Definition add_minutes (d : Date) (minutes : Z) : Date :=
  mkDate (iso_day d) ((seconds d + minutes * 60) mod 86400).

(** [s.split(':')]. *)
Fixpoint split_colon (s : string) : list string :=
  match s with
  | EmptyString => [EmptyString]
  | String c rest =>
      if Ascii.eqb c ":"%char then EmptyString :: split_colon rest
      else match split_colon rest with
           | x :: xs => String c x :: xs
           | [] => [String c EmptyString]
           end
  end.

Definition digit_value (c : ascii) : option Z :=
  let n := Z.of_N (N_of_ascii c) in
  if (48 <=? n)%Z && (n <=? 57)%Z then Some (n - 48) else None.

Fixpoint digits_value (acc : Z) (s : string) : option Z :=
  match s with
  | EmptyString => Some acc
  | String c rest =>
      match digit_value c with
      | Some d => digits_value (10 * acc + d) rest
      | None => None
      end
  end.

(** [Number(s)] on the texts a time holds: a run of decimal digits is its
    value (the empty text is 0); any other text is outside what a time
    column produces and is read as [NaN]. *)
Definition Number (s : string) : Js.number :=
  match digits_value 0 s with
  | Some z => Js.Num z
  | None => Js.NaN
  end.

(** [parts[i]] of [s.split(':').map(Number)]; a missing part is
    [undefined], which the arithmetic turns into [NaN]. *)
Definition part (s : string) (i : nat) : Js.number :=
  match nth_error (split_colon s) i with
  | Some p => Number p
  | None => Js.NaN
  end.

Definition minutes_of (s : string) : Js.number :=
  match part s 0, part s 1 with
  | Js.Num h, Js.Num m => Js.Num (h * 60 + m)
  | _, _ => Js.NaN
  end.

(** ** TableStatusService *)

Inductive TableLogicalStatus : Type :=
| FREE
| RESERVED
| OCCUPIED
| NEXT_RESERVATION
| OUT_OF_SERVICE.

Record TableStatusReport : Type := mkReport {
  tableId : string;
  number : Z;
  logicalStatus : TableLogicalStatus;
  currentReservation : option Reservation;
  nextReservation : option Reservation;
  remainingTimeMinutes : option Js.number
}.

Definition calculateRemainingMinutes (startTime endTime : string)
  : Js.number :=
  match minutes_of startTime, minutes_of endTime with
  | Js.Num startMinutes, Js.Num endMinutes =>
      let diff := endMinutes - startMinutes in
      Js.Num (if (diff <? 0)%Z then diff + 1440 else diff)
  | _, _ => Js.NaN
  end.

(** [.sort((a, b) => a.time.localeCompare(b.time))]: the sort is stable, and
    on time texts [localeCompare] orders as the comparison of the texts
    does. *)
Fixpoint insert_by_time (r : Reservation) (l : list Reservation)
  : list Reservation :=
  match l with
  | [] => [r]
  | x :: xs =>
      match String.compare (r_time r) (r_time x) with
      | Gt => x :: insert_by_time r xs
      | _ => r :: l
      end
  end.

Definition sort_by_time (l : list Reservation) : list Reservation :=
  fold_right insert_by_time [] l.

Definition is_current (currentTimeString : string) (r : Reservation) : bool :=
  ((r_status r =? "arrived") || (r_status r =? "seated"))
  || (String.leb (r_time r) currentTimeString
      && (negb (Js.truthy_string (r_end_time r))
          || String.ltb currentTimeString (Js.or_string (r_end_time r) ""))
      && (r_status r =? "confirmed")).

Definition is_next (currentTimeString : string) (r : Reservation) : bool :=
  String.ltb currentTimeString (r_time r)
  && Js.includes ["pending"; "confirmed"] (r_status r).

(** The body of [tables.map(table => ...)]. *)
Definition tableReport (reservations : list Reservation)
  (currentTimeString : string) (table : Table) : TableStatusReport :=
  let tableReservations :=
    sort_by_time
      (filter (fun r => r_table_id r =? t_id table) reservations) in
  let currentRes := find (is_current currentTimeString) tableReservations in
  let nextRes := find (is_next currentTimeString) tableReservations in
  let '(logicalStatus, remaining) :=
    if (t_status table =? "blocked") || (t_status table =? "disabled")
    then (OUT_OF_SERVICE, None)
    else
      match currentRes with
      | Some cur =>
          (OCCUPIED,
           if Js.truthy_string (r_end_time cur)
           then Some (calculateRemainingMinutes currentTimeString
                        (Js.or_string (r_end_time cur) ""))
           else None)
      | None =>
          match nextRes with
          | Some nxt =>
              let minutesUntilNext :=
                calculateRemainingMinutes currentTimeString (r_time nxt) in
              (if Js.num_le minutesUntilNext 30 then RESERVED
               else if Js.num_le minutesUntilNext 90 then NEXT_RESERVATION
               else FREE,
               Some minutesUntilNext)
          | None => (FREE, None)
          end
      end in
  mkReport (t_id table) (t_number table) logicalStatus currentRes nextRes
    remaining.

(** Today's reservations of the restaurant, as the service queries them. *)
Definition todays_reservations (restaurantId today : string) (db : Db)
  : list Reservation :=
  filter (fun r =>
            (r_restaurant_id r =? restaurantId) && (r_date r =? today)
            && Supabase.not_in ["cancelled"; "no_show"] (r_status r))
         (db_reservations db).

(** The active tables of the restaurant; the [.order('number')] clause
    fixes the order of the report only and is not modelled. *)
Definition active_tables (restaurantId : string) (db : Db) : list Table :=
  filter (fun t => (t_restaurant_id t =? restaurantId) && t_is_active t)
         (db_tables db).

Definition getRestaurantStatusReport (now : Date) (restaurantId : string)
  (db : Db) : list TableStatusReport :=
  let tables := active_tables restaurantId db in
  let today := iso_day now in
  let reservations := todays_reservations restaurantId today db in
  let currentTimeString := toTimeString now in
  map (tableReport reservations currentTimeString) tables.

(** ** POST /api/admin/mesas/:id/walk-in *)

Record WalkInBody : Type := mkWalkInBody {
  wi_guestCount : option Z;
  wi_name : option string;
  wi_phone : option string
}.

Definition walk_in_notes (b : WalkInBody) : string :=
  "Walk-in registrado para: " ++ Js.or_string (wi_name b) "Sin nombre"
  ++ " (" ++ Js.or_string (wi_phone b) "Sin tel" ++ ")".

(** [restaurantId] and [userId] are the panel user's restaurant and id;
    the service and the route read the clock at the same instant [now]. *)
Definition assignWalkIn (new_id : string) (now : Date)
  (restaurantId userId id : string) (b : WalkInBody) (db : Db)
  : Response Reservation * Db :=
  if negb (Js.truthy_number (wi_guestCount b)) then (reject 400, db)
  else
    let report := getRestaurantStatusReport now restaurantId db in
    match find (fun t => tableId t =? id) report with
    | None => (reject 404, db)
    | Some tableStatus =>
        if match logicalStatus tableStatus with
           | FREE | NEXT_RESERVATION => false
           | _ => true
           end
        then (reject 409, db)
        else if match nextReservation tableStatus with
                | Some _ =>
                    (Js.or_zero (remainingTimeMinutes tableStatus) <? 60)%Z
                | None => false
                end
        then (reject 409, db)
        else
          let reservation :=
            mkReservation new_id restaurantId userId id (iso_day now)
              (toTimeString now) (Some (toTimeString (add_minutes now 90)))
              (match wi_guestCount b with Some n => n | None => 0 end)
              None None "seated" false (Some "walk_in")
              (Some (walk_in_notes b)) None in
          let db1 :=
            with_reservations db
              (Supabase.insert reservation (db_reservations db)) in
          (ok 201 reservation, set_table_status id "occupied" db1)
    end.

(** ** GET /api/restaurants/:id/tables/available *)

(** [parseInt(guests)], with no radix given.  A text is the list of its
    characters, each a code unit below 256; of the white space JavaScript
    skips these are TAB, LF, VT, FF, CR, SP and NBSP. *)
Definition is_white_space (c : ascii) : bool :=
  let n := Z.of_N (N_of_ascii c) in
  ((9 <=? n)%Z && (n <=? 13)%Z) || (n =? 32)%Z || (n =? 160)%Z.

Fixpoint trim_start (s : string) : string :=
  match s with
  | EmptyString => EmptyString
  | String c rest => if is_white_space c then trim_start rest else s
  end.

(** The value of [c] as a digit of the radix: 0-9, then a-z or A-Z from
    10 on, as far as the radix goes. *)
Definition radix_digit_value (radix : Z) (c : ascii) : option Z :=
  let n := Z.of_N (N_of_ascii c) in
  let v :=
    if (48 <=? n)%Z && (n <=? 57)%Z then Some (n - 48)
    else if (97 <=? n)%Z && (n <=? 122)%Z then Some (n - 87)
    else if (65 <=? n)%Z && (n <=? 90)%Z then Some (n - 55)
    else None in
  match v with
  | Some d => if (d <? radix)%Z then Some d else None
  | None => None
  end.

(** The digits of the leading run of radix digits of [s]. *)
Fixpoint leading_digits (radix : Z) (s : string) : list Z :=
  match s with
  | EmptyString => []
  | String c rest =>
      match radix_digit_value radix c with
      | Some d => d :: leading_digits radix rest
      | None => []
      end
  end.

Definition radix_value (radix : Z) (digits : list Z) : Z :=
  fold_left (fun acc d => radix * acc + d) digits 0.

(** Leading white space is skipped, a sign is kept, a 0x or 0X prefix
    makes the radix 16 (10 otherwise), and the leading run of digits of
    the radix is read; without a digit the result is [NaN].  The result is
    the integer read, which is the JavaScript number as long as it is a
    safe integer (at most 2^53 - 1 in absolute value): beyond that
    JavaScript rounds. *)
Definition parseInt (s : string) : Js.number :=
  let s1 := trim_start s in
  let '(sign, s2) :=
    match s1 with
    | String "-"%char rest => (-1, rest)
    | String "+"%char rest => (1, rest)
    | _ => (1, s1)
    end in
  let '(radix, s3) :=
    match s2 with
    | String "0"%char (String "x"%char rest) => (16, rest)
    | String "0"%char (String "X"%char rest) => (16, rest)
    | _ => (10, s2)
    end in
  match leading_digits radix s3 with
  | [] => Js.NaN
  | digits => Js.Num (sign * radix_value radix digits)
  end.

(** A [NaN] party size makes the tables query fail on the integer
    capacity column, which the route reports as 500. *)
Definition availableTables (id : string) (date time guests : option string)
  (db : Db) : Response (list Table) * Db :=
  if negb (Js.truthy_string date) || negb (Js.truthy_string time)
     || negb (Js.truthy_string guests)
  then (reject 400, db)
  else
    match parseInt (Js.or_string guests "") with
    | Js.NaN => (reject 500, db)
    | Js.Num guestCount =>
        let tables :=
          filter (fun t =>
                    (t_restaurant_id t =? id)
                    && (guestCount <=? t_capacity t)%Z
                    && t_is_active t)
                 (db_tables db) in
        let reservationDate := Js.or_string date "" in
        let reservationTime := Js.or_string time "" in
        let reservations :=
          filter (fun r =>
                    (r_restaurant_id r =? id)
                    && (r_date r =? reservationDate)
                    && (r_time r =? reservationTime)
                    && Supabase.not_in ["cancelled"; "no_show"] (r_status r))
                 (db_reservations db) in
        let reservedTableIds := map r_table_id reservations in
        let availableTables :=
          filter (fun table => negb (Js.includes reservedTableIds (t_id table)))
                 tables in
        (ok 200 availableTables, db)
    end.

(** ** POST /api/waitlist/join *)

Record JoinBody : Type := mkJoinBody {
  j_restaurantId : option string;
  j_name : option string;
  j_phone : option string;
  j_partySize : option Z
}.

Section Waitlist.

(** The insert of the join route sets no status: the new row takes the
    default of the column, which the schema (not part of the sources)
    fixes. *)
Variable waitlist_default_status : string.

Definition joinWaitlist (new_id : string) (user : option User)
  (b : JoinBody) (db : Db) : Response WaitlistEntry * Db :=
  if negb (Js.truthy_string (j_restaurantId b))
     || negb (Js.truthy_string (j_name b))
     || negb (Js.truthy_string (j_phone b))
     || negb (Js.truthy_number (j_partySize b))
  then (reject 400, db)
  else
    let restaurantId := Js.or_string (j_restaurantId b) "" in
    let name := Js.or_string (j_name b) "" in
    let phone := Js.or_string (j_phone b) "" in
    match restaurant_by_id restaurantId db with
    | None => (reject 404, db)
    | Some _ =>
        match Supabase.single
                (filter (fun w =>
                           (w_restaurant_id w =? restaurantId)
                           && (w_phone w =? phone)
                           && Js.includes
                                ["waiting"; "notified"; "confirmed"]
                                (w_status w))
                        (db_waitlist db)) with
        | Some _ => (reject 400, db)
        | None =>
            let count :=
              Z.of_nat
                (List.length
                   (filter (fun w =>
                              (w_restaurant_id w =? restaurantId)
                              && Js.includes ["waiting"; "notified"]
                                   (w_status w))
                           (db_waitlist db))) in
            let position := count + 1 in
            let entry :=
              mkWaitlistEntry new_id restaurantId
                (match user with Some u => Some (u_id u) | None => None end)
                name phone
                (match j_partySize b with Some n => n | None => 0 end)
                waitlist_default_status (Some position) (position * 15) in
            (ok 201 entry,
             with_waitlist db (Supabase.insert entry (db_waitlist db)))
        end
    end.

End Waitlist.

(** ** The label derivation in the words of the specification

    A second definition of the logical status, over clock readings in
    seconds since midnight instead of time texts, without the sort and the
    searches of the service.  [label] is the derivation as the
    specification states it; [amended_label] differs from it in the two
    places where the service does: a confirmed reservation without an
    end-time stays current from its start on, and the remaining minutes of
    an occupied table are reported only when the current reservation has an
    end-time. *)

Module Spec.

(** The clock reading of a time text, in seconds since midnight. *)
Definition time_value (s : string) : Z :=
  match part s 0, part s 1, part s 2 with
  | Js.Num h, Js.Num m, Js.Num x => h * 3600 + m * 60 + x
  | _, _, _ => 0
  end.

(** Minutes from one clock reading to another, a negative difference
    wrapping past midnight. *)
Definition minutes_between (from to : Z) : Z :=
  let d := to / 60 - from / 60 in
  if (d <? 0)%Z then d + 1440 else d.

Definition end_time_value (r : Reservation) : option Z :=
  if Js.truthy_string (r_end_time r)
  then Some (time_value (Js.or_string (r_end_time r) ""))
  else None.

(** End-time, defaulting to the start plus the service duration
    (in minutes). *)
Definition end_or_default (duration : Z) (r : Reservation) : Z :=
  match end_time_value r with
  | Some e => e
  | None => time_value (r_time r) + duration * 60
  end.

Definition current (duration now : Z) (r : Reservation) : bool :=
  Js.includes ["arrived"; "seated"] (r_status r)
  || ((r_status r =? "confirmed")
      && (time_value (r_time r) <=? now)%Z
      && (now <? end_or_default duration r)%Z).

Definition amended_current (now : Z) (r : Reservation) : bool :=
  Js.includes ["arrived"; "seated"] (r_status r)
  || ((r_status r =? "confirmed")
      && (time_value (r_time r) <=? now)%Z
      && match end_time_value r with
         | Some e => (now <? e)%Z
         | None => true
         end).

Definition upcoming (now : Z) (r : Reservation) : bool :=
  (now <? time_value (r_time r))%Z
  && Js.includes ["pending"; "confirmed"] (r_status r).

(** The reservation that starts first; among equal starts, the one the
    store lists first. *)
Fixpoint earliest (l : list Reservation) : option Reservation :=
  match l with
  | [] => None
  | r :: rest =>
      match earliest rest with
      | Some y =>
          if (time_value (r_time y) <? time_value (r_time r))%Z
          then Some y else Some r
      | None => Some r
      end
  end.

Definition out_of_service (table : Table) : bool :=
  Js.includes ["blocked"; "disabled"] (t_status table).

(** The label and, for an occupied table, the remaining minutes. *)
Definition derive (cur : Reservation -> bool)
  (end_of : Reservation -> option Z) (table : Table)
  (reservations : list Reservation) (now : Z)
  : TableLogicalStatus * option Z :=
  let mine := filter (fun r => r_table_id r =? t_id table) reservations in
  if out_of_service table then (OUT_OF_SERVICE, None)
  else
    match earliest (filter cur mine) with
    | Some c => (OCCUPIED, option_map (minutes_between now) (end_of c))
    | None =>
        match earliest (filter (upcoming now) mine) with
        | Some n =>
            let m := minutes_between now (time_value (r_time n)) in
            (if (m <=? 30)%Z then RESERVED
             else if (m <=? 90)%Z then NEXT_RESERVATION
             else FREE, None)
        | None => (FREE, None)
        end
    end.

Definition label (duration : Z) (table : Table)
  (reservations : list Reservation) (now : Z)
  : TableLogicalStatus * option Z :=
  derive (current duration now)
    (fun r => Some (end_or_default duration r)) table reservations now.

Definition amended_label (table : Table)
  (reservations : list Reservation) (now : Z)
  : TableLogicalStatus * option Z :=
  derive (amended_current now) end_time_value table reservations now.

End Spec.

(** A time text is well formed when it is the [HH:MM:SS] text of a clock
    reading of the day. *)
Definition well_formed_time (s : string) : bool :=
  (0 <=? Spec.time_value s)%Z && (Spec.time_value s <? 86400)%Z
  && (s =? time_of_seconds (Spec.time_value s)).

Definition well_formed_reservation (r : Reservation) : bool :=
  well_formed_time (r_time r)
  && (negb (Js.truthy_string (r_end_time r))
      || well_formed_time (Js.or_string (r_end_time r) "")).

Definition well_formed (r : Reservation) : Prop :=
  well_formed_reservation r = true.

Definition timed (r : Reservation) : Prop :=
  well_formed_time (r_time r) = true.

Definition start_of (r : Reservation) : Z := Spec.time_value (r_time r).

Definition ordered_by_time : list Reservation -> Prop :=
  StronglySorted (fun a b => start_of a <= start_of b).

(** ** Checks by evaluation over a bounded range *)

Fixpoint all_below (n : nat) (p : Z -> bool) : bool :=
  match n with
  | O => true
  | S k => p (Z.of_nat k) && all_below k p
  end.

Definition cmp_eqb (a b : comparison) : bool :=
  match a, b with
  | Eq, Eq | Lt, Lt | Gt, Gt => true
  | _, _ => false
  end.

Definition number_eqb (a : Js.number) (z : Z) : bool :=
  match a with
  | Js.Num x => (x =? z)%Z
  | Js.NaN => false
  end.

Definition lex3 (a b c : comparison) : comparison :=
  match a with
  | Eq => match b with Eq => c | x => x end
  | x => x
  end.

(** ** Request predicates used in the statements *)

Definition required_create_fields (b : CreateBody) : bool :=
  Js.truthy_string (c_restaurantId b) && Js.truthy_string (c_tableId b)
  && Js.truthy_string (c_date b) && Js.truthy_string (c_time b)
  && Js.truthy_number (c_guestCount b).

Definition required_join_fields (b : JoinBody) : bool :=
  Js.truthy_string (j_restaurantId b) && Js.truthy_string (j_name b)
  && Js.truthy_string (j_phone b) && Js.truthy_number (j_partySize b).

(** The caller passes the two permission checks of the cancel route. *)
Definition may_cancel (u : User) (r : Reservation) : bool :=
  negb (negb (r_user_id r =? u_id u)
        && negb (u_role u =? "restaurant_admin")
        && negb (u_role u =? "super_admin"))
  && negb ((u_role u =? "restaurant_admin")
           && Js.neq_opt (r_restaurant_id r) (u_restaurantId u)).

Definition terminal (status : string) : bool :=
  Js.includes ["completed"; "cancelled"; "no_show"] status.

(** The caller passes the ownership check of the reschedule route. *)
Definition may_reschedule (u : User) (r : Reservation) : bool :=
  negb (negb (r_user_id r =? u_id u) && negb (u_role u =? "super_admin")).

(** [Number.isSafeInteger]: the integers a JavaScript number holds
    exactly, which is where [parseInt] above is the JavaScript one. *)
Definition safe_integer (n : Z) : Prop :=
  Z.abs n <= 9007199254740991.

(** The walk-in is permitted on a table whose label is FREE, or
    NEXT_RESERVATION with at least 60 minutes to the next reservation. *)
Definition walk_in_permitted (ts : TableStatusReport) : Prop :=
  logicalStatus ts = FREE
  \/ (logicalStatus ts = NEXT_RESERVATION
      /\ exists m, remainingTimeMinutes ts = Some (Js.Num m) /\ 60 <= m).

(** The entries that make the join route refuse a phone, and the length of
    the queue it counts. *)
Definition active_entries (restaurantId phone : string) (db : Db)
  : list WaitlistEntry :=
  filter (fun w =>
            (w_restaurant_id w =? restaurantId) && (w_phone w =? phone)
            && Js.includes ["waiting"; "notified"; "confirmed"] (w_status w))
         (db_waitlist db).

Definition queue_length (restaurantId : string) (db : Db) : Z :=
  Z.of_nat
    (List.length
       (filter (fun w =>
                  (w_restaurant_id w =? restaurantId)
                  && Js.includes ["waiting"; "notified"] (w_status w))
               (db_waitlist db))).

(** ** Sample data *)

Module Sample.

Definition guest : User := mkUser "u1" "customer" None.

Definition table4 : Table := mkTable "t1" "rx" 1 4 true "available".

Definition booking (id time : string) (end_time : option string)
  (status : string) (request : option string) : Reservation :=
  mkReservation id "rx" "u1" "t1" "2024-06-01" time end_time 2 None
    request status false None None None.

Definition store (rs : list Reservation) : Db :=
  mkDb [table4] rs [mkRestaurant "rx" None] [].

Definition create_body (time : string) (guests : Z) : CreateBody :=
  mkCreateBody (Some "rx") (Some "t1") (Some "2024-06-01") (Some time)
    (Some guests) None None None.

Definition waiting (id phone status : string) : WaitlistEntry :=
  mkWaitlistEntry id "rx" None "Ana" phone 2 status (Some 1) 15.

Definition queue (ws : list WaitlistEntry) : Db :=
  mkDb [table4] [] [mkRestaurant "rx" None] ws.

Definition join_body (phone : string) : JoinBody :=
  mkJoinBody (Some "rx") (Some "Ana") (Some phone) (Some 2).

Definition evening : Date := mkDate "2024-06-01" 73200.

End Sample.

(** * The routes around the engine

    The other routes of the reservation, restaurant, panel, staff and
    waitlist routers, over the same store. *)

(** ** Who may act for a restaurant

    The staff routes read the restaurant_staff table and the owner_id
    column of the restaurants rows.  Neither is written by a route below,
    so both are kept beside the store: the staff rows as a list, the
    owner_id column as a function of the restaurant id. *)

Record StaffRecord : Type := mkStaffRecord {
  s_user_id : string;
  s_restaurant_id : string;
  s_is_active : bool
}.

Record Directory : Type := mkDirectory {
  dir_staff : list StaffRecord;
  dir_owner_id : string -> option string
}.

(** The [staffRecord] of the security check. *)
Definition staffRecord (dir : Directory) (userId restaurantId : string)
  : option StaffRecord :=
  Supabase.single
    (filter (fun s =>
               (s_user_id s =? userId) && (s_restaurant_id s =? restaurantId)
               && s_is_active s)
            (dir_staff dir)).

(** [restaurant?.owner_id] of the same check. *)
Definition owner_id (dir : Directory) (restaurantId : string) (db : Db)
  : option string :=
  match restaurant_by_id restaurantId db with
  | Some _ => dir_owner_id dir restaurantId
  | None => None
  end.

(** The check itself: [true] when the route goes on, [false] when it
    answers 403. *)
Definition may_manage (dir : Directory) (u : User) (restaurantId : string)
  (db : Db) : bool :=
  if u_role u =? "super_admin" then true
  else
    negb (match staffRecord dir (u_id u) restaurantId with
          | Some _ => false
          | None => true
          end
          && match owner_id dir restaurantId db with
             | Some o => negb (o =? u_id u)
             | None => true
             end).

(** ** POST /api/reservations/:id/arrive *)

Definition arriveReservation (dir : Directory) (u : User) (id : string)
  (db : Db) : Response Reservation * Db :=
  match reservation_by_id id db with
  | None => (reject 404, db)
  | Some reservation =>
      if negb (may_manage dir u (r_restaurant_id reservation) db)
      then (reject 403, db)
      else
        let updatedReservation := set_status "arrived" reservation in
        (ok 200 updatedReservation,
         set_table_status (r_table_id updatedReservation) "occupied"
           (update_reservation id (set_status "arrived") db))
  end.

(** ** POST and PATCH /api/reservations/:id/complete *)

Definition completeReservationHandler (dir : Directory) (u : User)
  (id : string) (db : Db) : Response Reservation * Db :=
  match reservation_by_id id db with
  | None => (reject 404, db)
  | Some reservation =>
      if negb (may_manage dir u (r_restaurant_id reservation) db)
      then (reject 403, db)
      else
        let db1 := update_reservation id (set_status "completed") db in
        (ok 200 (set_status "completed" reservation),
         if r_table_id reservation =? "" then db1
         else set_table_status (r_table_id reservation) "available" db1)
  end.

(** ** PATCH /api/reservations/:id/no-show *)

Definition noShowReservationHandler (dir : Directory) (u : User)
  (id : string) (db : Db) : Response Reservation * Db :=
  match reservation_by_id id db with
  | None => (reject 404, db)
  | Some reservation =>
      if negb (may_manage dir u (r_restaurant_id reservation) db)
      then (reject 403, db)
      else
        let db1 := update_reservation id (set_status "no_show") db in
        (ok 200 (set_status "no_show" reservation),
         if r_table_id reservation =? "" then db1
         else set_table_status (r_table_id reservation) "available" db1)
  end.

(** ** POST /api/reservations/repeat/:id *)

Definition repeatReservation (new_id : string) (u : User) (id : string)
  (date time : option string) (db : Db) : Response Reservation * Db :=
  if negb (Js.truthy_string date) || negb (Js.truthy_string time)
  then (reject 400, db)
  else
    let date := Js.or_string date "" in
    let time := Js.or_string time "" in
    match Supabase.single
            (filter (fun r => (r_id r =? id) && (r_user_id r =? u_id u))
               (db_reservations db)) with
    | None => (reject 404, db)
    | Some original =>
        match Supabase.single
                (slot_rows None (r_table_id original) date time db) with
        | Some _ => (reject 409, db)
        | None =>
            let newReservation :=
              mkReservation new_id (r_restaurant_id original) (u_id u)
                (r_table_id original) date time None
                (r_guest_count original) (r_occasion original)
                (r_special_request original) "pending" false None None
                None in
            (ok 201 newReservation,
             with_reservations db
               (Supabase.insert newReservation (db_reservations db)))
        end
    end.

(** ** PATCH /api/admin/reservas/:id/checkin and /sentar

    As the two other panel routes, they update the row selected by id and
    by the panel's restaurant. *)

Definition panel_transition (status tableStatus : string)
  (restaurantId id : string) (db : Db) : Response Reservation * Db :=
  match panel_row restaurantId id db with
  | None => (reject 500, db)
  | Some r =>
      let data := set_status status r in
      let db1 :=
        with_reservations db
          (Supabase.update
             (fun x => (r_id x =? id) && (r_restaurant_id x =? restaurantId))
             (set_status status) (db_reservations db)) in
      (ok 200 data,
       if r_table_id data =? "" then db1
       else set_table_status (r_table_id data) tableStatus db1)
  end.

Definition checkinReservation : string -> string -> Db ->
                                Response Reservation * Db :=
  panel_transition "arrived" "occupied".

Definition seatReservation : string -> string -> Db ->
                             Response Reservation * Db :=
  panel_transition "seated" "occupied".
(** ** GET /api/restaurants/:id/timeslots *)

Definition allTimeSlots : list string :=
  ["13:00"; "13:30"; "14:00"; "14:30"; "15:00"; "15:30"; "16:00";
   "19:00"; "19:30"; "20:00"; "20:30"; "21:00"; "21:30"; "22:00"].

(** The error of the tables query is not read: with a [NaN] party size the
    data is [null] and the route answers the empty list. *)
Definition timeslots (id : string) (date guests : option string) (db : Db)
  : Response (list string) * Db :=
  if negb (Js.truthy_string date) || negb (Js.truthy_string guests)
  then (reject 400, db)
  else
    match parseInt (Js.or_string guests "") with
    | Js.NaN => (ok 200 [], db)
    | Js.Num guestCount =>
        let tables :=
          filter (fun t =>
                    (t_restaurant_id t =? id)
                    && (guestCount <=? t_capacity t)%Z
                    && t_is_active t)
                 (db_tables db) in
        match tables with
        | [] => (ok 200 [], db)
        | _ =>
            let tableIds := map t_id tables in
            let reservations :=
              filter (fun r =>
                        (r_restaurant_id r =? id)
                        && (r_date r =? Js.or_string date "")
                        && Supabase.not_in ["cancelled"; "no_show"]
                             (r_status r))
                     (db_reservations db) in
            let availableSlots :=
              filter (fun slot =>
                        let reservationsAtSlot :=
                          filter (fun r => r_time r =? slot) reservations in
                        let reservedTableIds :=
                          map r_table_id reservationsAtSlot in
                        existsb
                          (fun id => negb (Js.includes reservedTableIds id))
                          tableIds)
                     allTimeSlots in
            (ok 200 availableSlots, db)
        end
    end.

(** ** GET /api/waitlist/:id/status *)

Record WaitlistStatus : Type := mkWaitlistStatus {
  ws_entry : WaitlistEntry;
  ws_currentPosition : Z;
  ws_estimatedWait : Z
}.

Definition waitlist_by_id (id : string) (db : Db) : option WaitlistEntry :=
  Supabase.single (filter (fun w => w_id w =? id) (db_waitlist db)).

(** [.lt('position', entry.position)]: a row without position, or a
    comparison with no position, selects nothing. *)
Definition position_lt (w : WaitlistEntry) (p : option Z) : bool :=
  match w_position w, p with
  | Some a, Some b => (a <? b)%Z
  | _, _ => false
  end.

(** The entry is read with [.maybeSingle()]: no row is answered 404, more
    than one is the error the route answers with 500. *)
Definition waitlistStatus (id : string) (db : Db)
  : Response WaitlistStatus * Db :=
  match filter (fun w => w_id w =? id) (db_waitlist db) with
  | [] => (reject 404, db)
  | _ :: _ :: _ => (reject 500, db)
  | [entry] =>
      let count :=
        Z.of_nat
          (List.length
             (filter (fun w =>
                        (w_restaurant_id w =? w_restaurant_id entry)
                        && Js.includes ["waiting"; "notified"] (w_status w)
                        && position_lt w (w_position entry))
                     (db_waitlist db))) in
      let currentPosition := count + 1 in
      (ok 200 (mkWaitlistStatus entry currentPosition (currentPosition * 15)),
       db)
  end.

(** ** DELETE /api/waitlist/:id *)

Definition set_waitlist_status (status : string) (position : option Z)
  (w : WaitlistEntry) : WaitlistEntry :=
  mkWaitlistEntry (w_id w) (w_restaurant_id w) (w_user_id w) (w_name w)
    (w_phone w) (w_party_size w) status position (w_estimated_wait w).

Definition update_waitlist (id : string) (f : WaitlistEntry -> WaitlistEntry)
  (db : Db) : Db :=
  with_waitlist db
    (Supabase.update (fun w => w_id w =? id) f (db_waitlist db)).

(** The update of the leave route: the entry is kept, with status
    cancelled. *)
Definition leave_update (w : WaitlistEntry) : WaitlistEntry :=
  set_waitlist_status "cancelled" (w_position w) w.

Definition leaveWaitlist (user : option User) (id : string)
  (phone : option string) (db : Db) : Response unit * Db :=
  match waitlist_by_id id db with
  | None => (reject 404, db)
  | Some entry =>
      let cancelled := (ok 200 tt, update_waitlist id leave_update db) in
      match user with
      | Some u =>
          if Js.neq_opt (u_id u) (w_user_id entry) then (reject 403, db)
          else cancelled
      | None =>
          if Js.truthy_string phone then
            if negb (w_phone entry =? Js.or_string phone "")
            then (reject 403, db)
            else cancelled
          else (reject 400, db)
      end
  end.

(** ** PATCH /api/waitlist/admin/:id/status *)

Definition allowedAdminStatuses : list string :=
  ["notified"; "seated"; "cancelled"; "no_show"; "confirmed"].

Definition updateWaitlistStatus (dir : Directory) (u : User) (id : string)
  (status tableId : option string) (db : Db)
  : Response WaitlistEntry * Db :=
  match waitlist_by_id id db with
  | None => (reject 404, db)
  | Some currentEntry =>
      if negb (may_manage dir u (w_restaurant_id currentEntry) db)
      then (reject 403, db)
      else
        match status with
        | None => (reject 400, db)
        | Some status =>
            if negb (Js.includes allowedAdminStatuses status)
            then (reject 400, db)
            else
              let updates w :=
                set_waitlist_status status
                  (if status =? "seated" then None else w_position w) w in
              let db1 := update_waitlist id updates db in
              (ok 200 (updates currentEntry),
               if (status =? "seated") && Js.truthy_string tableId
               then set_table_status (Js.or_string tableId "") "occupied" db1
               else db1)
        end
  end.

(** ** POST /api/admin/mesas

    The body gives the number and the capacity as numbers; the columns of
    the floor plan (shape, position, zone, is_vip) are left out of the
    rows. *)

Definition createTable (new_id restaurantId : string) (number capacity : Z)
  (db : Db) : Response Table * Db :=
  let data := mkTable new_id restaurantId number capacity true "available" in
  (ok 201 data, with_tables db (Supabase.insert data (db_tables db))).

(** ** GET /api/admin/mesas/estado *)

Definition tableStatusReportRoute (now : Date) (restaurantId : option string)
  (db : Db) : Response (list TableStatusReport) * Db :=
  if negb (Js.truthy_string restaurantId) then (reject 400, db)
  else
    (ok 200 (getRestaurantStatusReport now (Js.or_string restaurantId "") db),
     db).

(** ** PATCH /api/staff/tables/:id/status

    The search of the active reservation is ordered and read with
    [.maybeSingle()]: with more than one row the data is [null] whatever
    the order, so the order is not modelled.  Dates are ISO days, whose
    order is the order of their texts. *)




(** ** Predicates used in the statements about these routes *)

(** The slot of a create request. *)
Definition create_slot (b : CreateBody) : string * string * string :=
  (Js.or_string (c_tableId b) "", Js.or_string (c_date b) "",
   Js.or_string (c_time b) "").

(** No reservation of the store has the id. *)
Definition fresh_reservation_id (id : string) (db : Db) : Prop :=
  forall x, In x (db_reservations db) -> r_id x <> id.

(** A table the route counts for a party: active, of the restaurant, with
    room for the party. *)
Definition fits (id : string) (n : Z) (db : Db) (t : Table) : Prop :=
  In t (db_tables db) /\ t_restaurant_id t = id /\ t_is_active t = true
  /\ n <= t_capacity t.

(** A reservation that takes table [t] on [date] at the time text
    [slot]. *)
Definition takes (id date slot : string) (db : Db) (t : Table)
  (r : Reservation) : Prop :=
  In r (db_reservations db) /\ r_restaurant_id r = id /\ r_date r = date
  /\ r_time r = slot /\ r_table_id r = t_id t
  /\ r_status r <> "cancelled" /\ r_status r <> "no_show".

(** No entry of the waitlist has the id. *)
Definition fresh_waitlist_id (id : string) (db : Db) : Prop :=
  forall w, In w (db_waitlist db) -> w_id w <> id.

(** The caller passes the ownership check of the leave route. *)
Definition may_leave (user : option User) (phone : option string)
  (e : WaitlistEntry) : bool :=
  match user with
  | Some u => negb (Js.neq_opt (u_id u) (w_user_id e))
  | None => Js.truthy_string phone && (w_phone e =? Js.or_string phone "")
  end.

(** The current position the status route computes for an entry. *)
Definition current_position (id : string) (db : Db) : option Z :=
  option_map ws_currentPosition (res_data (fst (waitlistStatus id db))).

(** * Properties *)

(** ** The query builder *)

Lemma single_Some {A : Type} (rows : list A) (x : A) :
  Supabase.single rows = Some x <-> rows = [x].
Proof.
  destruct rows as [|a [|b rest]]; simpl; split; intros H;
    try discriminate; congruence.
Qed.

Lemma filter_update_same {A : Type} (sel : A -> bool) (f : A -> A)
  (rows : list A) :
  (forall x, sel (f x) = sel x) ->
  filter sel (Supabase.update sel f rows) = map f (filter sel rows).
Proof.
  intros Hsel. unfold Supabase.update.
  induction rows as [|x xs IH]; simpl; [reflexivity|].
  destruct (sel x) eqn:Ex.
  - rewrite Hsel, Ex. simpl. rewrite IH. reflexivity.
  - rewrite Ex. exact IH.
Qed.

Lemma reservation_by_id_update (id : string) (f : Reservation -> Reservation)
  (db : Db) (r : Reservation) :
  (forall x, r_id (f x) = r_id x) ->
  reservation_by_id id db = Some r ->
  reservation_by_id id (update_reservation id f db) = Some (f r).
Proof.
  unfold reservation_by_id, update_reservation. intros Hid H.
  apply single_Some in H. cbn [db_reservations with_reservations].
  rewrite filter_update_same
    by (intros x; cbv beta; rewrite Hid; reflexivity).
  rewrite H. reflexivity.
Qed.

Lemma set_table_status_sets (tableId status : string) (db : Db) (t : Table) :
  In t (db_tables (set_table_status tableId status db)) ->
  t_id t = tableId -> t_status t = status.
Proof.
  unfold set_table_status, Supabase.update. cbn [db_tables with_tables].
  intros Hin Hid. apply in_map_iff in Hin as (x & Hx & _).
  destruct (String.eqb_spec (t_id x) tableId) as [E|NE].
  - subst t. reflexivity.
  - subst t. contradiction.
Qed.

Lemma includes_true (xs : list string) (x : string) :
  Js.includes xs x = true <-> In x xs.
Proof.
  unfold Js.includes. rewrite existsb_exists. split.
  - intros (y & Hy & E). apply String.eqb_eq in E. subst. exact Hy.
  - intros H. exists x. split; [exact H|apply String.eqb_refl].
Qed.

(** ** The status route *)

(** C10: a request to PATCH /reservations/:id/status whose status is
    seated is answered 400 whatever the caller, the id and the store, and
    the store (reservations and tables) is left as it was; and whatever
    status a request carries, the route seats no reservation: a seated
    reservation of the store it leaves was already in the store it
    found. *)
Theorem C10_status_route_rejects_seated (u : User) (id : string) (db : Db) :
  updateReservationStatus u id (Some "seated") db = (reject 400, db)
  /\
  forall (status : option string) (r : Reservation),
    In r (db_reservations (snd (updateReservationStatus u id status db))) ->
    r_status r = "seated" ->
    In r (db_reservations db).
Proof.
  split; [reflexivity|].
  intros status r. unfold updateReservationStatus.
  destruct (negb (Js.truthy_string status)) eqn:Et; cbn [orb]; [auto|].
  destruct (Js.includes validStatuses (Js.or_string status "")) eqn:Ev;
    cbn [negb]; [|auto].
  destruct (reservation_by_id id db) as [x|]; [|auto].
  destruct ((u_role u =? "restaurant_admin")
            && Js.neq_opt (r_restaurant_id x) (u_restaurantId u)); [auto|].
  assert (Hupd : In r (db_reservations
                         (update_reservation id
                            (set_status (Js.or_string status "")) db)) ->
                 r_status r = "seated" -> In r (db_reservations db)).
  { unfold update_reservation, Supabase.update.
    cbn [db_reservations with_reservations].
    intros Hin Hs. apply in_map_iff in Hin as (y & Ey & Hy).
    destruct (r_id y =? id); [|subst; exact Hy].
    subst r. cbn [set_status r_status] in Hs.
    rewrite Hs in Ev. vm_compute in Ev. discriminate. }
  destruct (tableStatus_for (Js.or_string status "")); exact Hupd.
Qed.

Lemma C10_status_route_rejects_seated_witness :
  updateReservationStatus Sample.guest "r2" (Some "seated")
    (Sample.store
       [Sample.booking "r1" "19:00:00" None "seated" None;
        Sample.booking "r2" "20:00:00" None "arrived" None]) =
  (reject 400,
   Sample.store
     [Sample.booking "r1" "19:00:00" None "seated" None;
      Sample.booking "r2" "20:00:00" None "arrived" None])
  /\
  In (Sample.booking "r1" "19:00:00" None "seated" None)
     (db_reservations
        (Sample.store
           [Sample.booking "r1" "19:00:00" None "seated" None;
            Sample.booking "r2" "20:00:00" None "arrived" None])).
Proof.
  split.
  - exact (proj1 (C10_status_route_rejects_seated Sample.guest "r2"
                    (Sample.store
                       [Sample.booking "r1" "19:00:00" None "seated" None;
                        Sample.booking "r2" "20:00:00" None "arrived"
                          None]))).
  - apply (proj2 (C10_status_route_rejects_seated Sample.guest "r2"
                    (Sample.store
                       [Sample.booking "r1" "19:00:00" None "seated" None;
                        Sample.booking "r2" "20:00:00" None "arrived"
                          None]))
             (Some "completed")).
    + left. reflexivity.
    + reflexivity.
Defined.

(** Every status the route accepts is written over the current one,
    whatever that is: the route never reads [r_status]. *)
Lemma status_route_overwrites (u : User) (id status : string) (db : Db)
  (r : Reservation) :
  Js.includes validStatuses status = true ->
  reservation_by_id id db = Some r ->
  (u_role u =? "restaurant_admin")
  && Js.neq_opt (r_restaurant_id r) (u_restaurantId u) = false ->
  let '(res, db') := updateReservationStatus u id (Some status) db in
  res = ok 200 (set_status status r) /\
  reservation_by_id id db' = Some (set_status status r).
Proof.
  intros Hv Hr Hu. unfold updateReservationStatus.
  assert (Hs : status <> "").
  { intros ->. vm_compute in Hv. discriminate. }
  apply String.eqb_neq in Hs.
  cbn [Js.truthy_string Js.or_string]. rewrite Hs. cbn [negb orb].
  rewrite Hv, Hr, Hu. cbn [negb].
  pose proof (reservation_by_id_update id (set_status status) db r
                (fun x => eq_refl) Hr) as Hupd.
  destruct (tableStatus_for status); split; try reflexivity; exact Hupd.
Qed.

(** The cancel route refuses a reservation whose status is completed,
    cancelled or no_show, and leaves the store as it was. *)
Lemma cancel_route_refuses_terminal (u : User) (id : string)
  (reason : option string) (db : Db) (r : Reservation) :
  reservation_by_id id db = Some r ->
  may_cancel u r = true ->
  terminal (r_status r) = true ->
  cancelReservation u id reason db = (reject 400, db).
Proof.
  intros Hr Hm Ht. unfold cancelReservation. rewrite Hr.
  unfold may_cancel in Hm. apply andb_true_iff in Hm as [H1 H2].
  apply negb_true_iff in H1. apply negb_true_iff in H2.
  rewrite H1, H2. unfold terminal in Ht. rewrite Ht. reflexivity.
Qed.

(** C2: on a store whose reservation r1 is cancelled, PATCH
    /reservations/r1/status with status confirmed is answered 200, the
    reservation becomes confirmed and its table occupied; the claim asks
    for a 400 and an unchanged status. *)
Theorem C2_status_route_revives_cancelled :
  let db :=
    Sample.store [Sample.booking "r1" "19:00:00" None "cancelled" None] in
  let '(res, db') :=
    updateReservationStatus Sample.guest "r1" (Some "confirmed") db in
  res_status res = 200%nat /\
  map r_status (db_reservations db') = ["confirmed"] /\
  map t_status (db_tables db') = ["occupied"].
Proof. vm_compute. auto. Qed.

(** C4: confirming the pending reservation r1 through PATCH
    /reservations/r1/status leaves its table with status occupied, where
    the claim asks for reserved. *)
Theorem C4_confirm_sets_table_occupied :
  let db :=
    Sample.store [Sample.booking "r1" "19:00:00" None "pending" None] in
  let '(res, db') :=
    updateReservationStatus Sample.guest "r1" (Some "confirmed") db in
  res_status res = 200%nat /\
  map r_status (db_reservations db') = ["confirmed"] /\
  map t_status (db_tables db') = ["occupied"].
Proof. vm_compute. auto. Qed.

(** The switch of the status route maps confirmed to occupied, so every
    confirmation the route accepts leaves the table occupied. *)
Lemma tableStatus_for_confirmed :
  tableStatus_for "confirmed" = Some "occupied".
Proof. reflexivity. Qed.

Lemma status_route_confirm_sets_occupied (u : User) (id : string) (db : Db)
  (r : Reservation) (t : Table) :
  reservation_by_id id db = Some r ->
  (u_role u =? "restaurant_admin")
  && Js.neq_opt (r_restaurant_id r) (u_restaurantId u) = false ->
  In t (db_tables (snd (updateReservationStatus u id (Some "confirmed") db)))
  -> t_id t = r_table_id r -> t_status t = "occupied".
Proof.
  intros Hr Hu. unfold updateReservationStatus.
  change (negb (Js.truthy_string (Some "confirmed"))
          || negb (Js.includes validStatuses
                     (Js.or_string (Some "confirmed") ""))) with false.
  cbv iota. rewrite Hr, Hu.
  change (Js.or_string (Some "confirmed") "") with "confirmed".
  rewrite tableStatus_for_confirmed. cbn [snd].
  apply set_table_status_sets.
Qed.

(** The panel route that accepts a reservation sets the table reserved. *)
Lemma panel_accept_sets_table_reserved (restaurantId id : string) (db : Db)
  (r : Reservation) (t : Table) :
  panel_row restaurantId id db = Some r ->
  r_table_id r <> "" ->
  In t (db_tables (snd (acceptReservation restaurantId id db))) ->
  t_id t = r_table_id r -> t_status t = "reserved".
Proof.
  intros Hr Hne. unfold acceptReservation. rewrite Hr.
  cbn [snd set_status r_table_id].
  apply String.eqb_neq in Hne. rewrite Hne.
  apply set_table_status_sets.
Qed.

(** ** The cancel route *)

Lemma append_length (a b : string) :
  String.length (a ++ b) = (String.length a + String.length b)%nat.
Proof.
  induction a as [|c a IH]; simpl; [reflexivity|].
  rewrite IH. reflexivity.
Qed.

(** The update of the cancel route always rewrites the special request:
    the note with the reason is appended to it (or becomes it). *)
Lemma cancel_update_rewrites_special_request (reason : option string)
  (r : Reservation) :
  r_special_request (cancel_update reason r) <> r_special_request r.
Proof.
  unfold cancel_update. cbn [r_special_request].
  destruct (r_special_request r) as [s|]; [|discriminate].
  cbn [Js.truthy_string Js.or_string].
  destruct (String.eqb_spec s "") as [->|Hne]; cbn [negb].
  - unfold cancelled_note. discriminate.
  - intros H. injection H as H.
    apply (f_equal String.length) in H.
    rewrite !append_length in H. unfold cancelled_note in H.
    cbn [String.length newline String.append] in H. lia.
Qed.

(** C8: cancelling r1, whose special request is "Window seat", with the
    reason "Plans changed" is answered 200 and leaves the special request
    with the reason appended; the claim asks for the field to be
    unchanged. *)
Theorem C8_cancel_appends_reason :
  let db :=
    Sample.store
      [Sample.booking "r1" "19:00:00" None "confirmed"
         (Some "Window seat")] in
  let '(res, db') :=
    cancelReservation Sample.guest "r1" (Some "Plans changed") db in
  res_status res = 200%nat /\
  map r_special_request (db_reservations db') =
    [Some ("Window seat" ++ newline ++ newline
           ++ "[Cancelled: Plans changed]")] /\
  map r_cancellation_reason (db_reservations db') = [None].
Proof. vm_compute. auto. Qed.

(** The panel's cancel route keeps the special request and records the
    reason in its own column. *)
Lemma panel_cancel_keeps_special_request (reason : option string)
  (r : Reservation) :
  r_special_request (panel_cancel_update reason r) = r_special_request r /\
  r_cancellation_reason (panel_cancel_update reason r) =
    Some (Js.or_string reason "Cancelada por el restaurante").
Proof. split; reflexivity. Qed.

(** ** Create and reschedule *)

(** The create route never reads the tables: its answer and the
    reservations it leaves are the same whatever the tables are. *)
Lemma create_ignores_tables (new_id : string) (u : User) (b : CreateBody)
  (db : Db) (ts : list Table) :
  fst (createReservation new_id u b (with_tables db ts)) =
  fst (createReservation new_id u b db) /\
  db_reservations (snd (createReservation new_id u b (with_tables db ts))) =
  db_reservations (snd (createReservation new_id u b db)).
Proof.
  unfold createReservation.
  destruct (negb (Js.truthy_string (c_restaurantId b))
            || negb (Js.truthy_string (c_tableId b))
            || negb (Js.truthy_string (c_date b))
            || negb (Js.truthy_string (c_time b))
            || negb (Js.truthy_number (c_guestCount b)));
    [split; reflexivity|].
  change (slot_rows None (Js.or_string (c_tableId b) "")
            (Js.or_string (c_date b) "") (Js.or_string (c_time b) "")
            (with_tables db ts))
    with (slot_rows None (Js.or_string (c_tableId b) "")
            (Js.or_string (c_date b) "") (Js.or_string (c_time b) "") db).
  destruct (Supabase.single _); split; reflexivity.
Qed.

(** C3: a create request for ten guests on the free slot of a table of
    capacity four is answered 201 and the reservation is inserted with its
    ten guests; the claim asks for a 400 and no insert. *)
Theorem C3_create_accepts_party_over_capacity :
  let db := Sample.store [] in
  let '(res, db') := createReservation "r9" Sample.guest
                       (Sample.create_body "19:00:00" 10) db in
  map t_capacity (db_tables db) = [4] /\
  res_status res = 201%nat /\
  map r_guest_count (db_reservations db') = [10] /\
  map r_table_id (db_reservations db') = ["t1"].
Proof. vm_compute. auto. Qed.

(** The reschedule route does refuse a party over the capacity of the
    table, before it looks at the slot. *)
Lemma reschedule_refuses_party_over_capacity (u : User) (id : string)
  (b : RescheduleBody) (db : Db) (r : Reservation) (t : Table) (n : Z) :
  reservation_by_id id db = Some r ->
  may_reschedule u r = true ->
  table_by_id (r_table_id r) db = Some t ->
  p_guestCount b = Some n ->
  0 < n ->
  t_capacity t < n ->
  rescheduleReservation u id b db = (reject 400, db).
Proof.
  intros Hr Hm Ht Hn Hpos Hcap. unfold rescheduleReservation.
  assert (Hn0 : (n =? 0)%Z = false) by (apply Z.eqb_neq; lia).
  rewrite Hn. cbn [Js.truthy_number]. rewrite Hn0. cbn [negb].
  rewrite !andb_false_r. rewrite Hr.
  unfold may_reschedule in Hm. apply negb_true_iff in Hm. rewrite Hm.
  destruct (Js.truthy_string (p_date b)
            && isHoliday (restaurant_by_id (r_restaurant_id r) db)
                 (Js.or_string (p_date b) (r_date r))); [reflexivity|].
  rewrite Ht. cbn [andb].
  destruct (Z.ltb_spec (t_capacity t) n); [reflexivity|lia].
Qed.




(** The slot check reads its row with [.single()]: when two reservations
    of the slot block it, the data is [null] and the request is accepted. *)
Lemma create_with_two_blocking_rows :
  let db := Sample.store
              [Sample.booking "r1" "19:00:00" None "pending" None;
               Sample.booking "r2" "19:00:00" None "confirmed" None] in
  res_status
    (fst (createReservation "r3" Sample.guest
            (Sample.create_body "19:00:00" 2) db)) = 201%nat.
Proof. reflexivity. Qed.



(** ** Time texts *)

Lemma all_below_spec (n : nat) (p : Z -> bool) :
  all_below n p = true ->
  forall z, 0 <= z < Z.of_nat n -> p z = true.
Proof.
  induction n as [|k IH]; simpl; intros H z Hz; [lia|].
  apply andb_true_iff in H as [Hk Hrest].
  destruct (Z.eq_dec z (Z.of_nat k)) as [->|Hne]; [exact Hk|].
  apply IH; [exact Hrest|lia].
Qed.

Lemma cmp_eqb_eq a b : cmp_eqb a b = true -> a = b.
Proof. destruct a, b; simpl; congruence. Qed.

Lemma pad2_compare (a b : Z) :
  0 <= a < 100 -> 0 <= b < 100 ->
  String.compare (pad2 a) (pad2 b) = Z.compare a b.
Proof.
  intros Ha Hb.
  assert (H : all_below 100
                (fun x => all_below 100
                   (fun y => cmp_eqb (String.compare (pad2 x) (pad2 y))
                               (Z.compare x y))) = true)
    by (vm_compute; reflexivity).
  apply cmp_eqb_eq.
  apply (all_below_spec 100 _ (all_below_spec 100 _ H a Ha) b Hb).
Qed.

Lemma compare_app (s1 s2 t1 t2 : string) :
  String.length s1 = String.length s2 ->
  String.compare (s1 ++ t1) (s2 ++ t2) =
  match String.compare s1 s2 with
  | Eq => String.compare t1 t2
  | c => c
  end.
Proof.
  revert s2; induction s1 as [|c s1 IH]; intros [|c' s2]; simpl;
    try discriminate.
  - reflexivity.
  - intros H. injection H as H.
    destruct (Ascii.compare c c'); auto.
Qed.

Lemma pad2_length n : String.length (pad2 n) = 2%nat.
Proof. reflexivity. Qed.

Lemma hhmmss_compare h m s h' m' s' :
  0 <= h < 100 -> 0 <= m < 100 -> 0 <= s < 100 ->
  0 <= h' < 100 -> 0 <= m' < 100 -> 0 <= s' < 100 ->
  String.compare (hhmmss h m s) (hhmmss h' m' s') =
  lex3 (h ?= h')%Z (m ?= m')%Z (s ?= s')%Z.
Proof.
  intros. unfold hhmmss, lex3.
  rewrite compare_app by reflexivity.
  rewrite pad2_compare by assumption.
  destruct (h ?= h')%Z; try reflexivity.
  change (":" ++ pad2 m ++ ":" ++ pad2 s)
    with (String ":" (pad2 m ++ ":" ++ pad2 s)).
  change (":" ++ pad2 m' ++ ":" ++ pad2 s')
    with (String ":" (pad2 m' ++ ":" ++ pad2 s')).
  cbn [String.compare].
  change (Ascii.compare ":" ":") with Eq. cbv iota.
  rewrite compare_app by reflexivity.
  rewrite pad2_compare by assumption.
  destruct (m ?= m')%Z; try reflexivity.
  change (":" ++ pad2 s) with (String ":" (pad2 s)).
  change (":" ++ pad2 s') with (String ":" (pad2 s')).
  cbn [String.compare].
  change (Ascii.compare ":" ":") with Eq. cbv iota.
  apply pad2_compare; assumption.
Qed.

Lemma clock_parts t :
  0 <= t < 86400 ->
  0 <= t / 3600 < 24 /\ 0 <= (t / 60) mod 60 < 60 /\ 0 <= t mod 60 < 60
  /\ t = t / 3600 * 3600 + (t / 60) mod 60 * 60 + t mod 60.
Proof.
  intros Ht. Z.div_mod_to_equations. lia.
Qed.

Lemma time_of_seconds_compare a b :
  0 <= a < 86400 -> 0 <= b < 86400 ->
  String.compare (time_of_seconds a) (time_of_seconds b) = (a ?= b)%Z.
Proof.
  intros Ha Hb. unfold time_of_seconds.
  destruct (clock_parts a Ha) as (Ha1 & Ha2 & Ha3 & Ea).
  destruct (clock_parts b Hb) as (Hb1 & Hb2 & Hb3 & Eb).
  rewrite hhmmss_compare by lia.
  unfold lex3.
  destruct (Z.compare_spec (a / 3600) (b / 3600)) as [E1|L1|L1];
    [ destruct (Z.compare_spec ((a / 60) mod 60) ((b / 60) mod 60))
        as [E2|L2|L2];
      [ destruct (Z.compare_spec (a mod 60) (b mod 60)) as [E3|L3|L3]
      | | ]
    | | ];
    symmetry;
    first [ apply Z.compare_eq_iff
          | apply Z.compare_lt_iff
          | apply Z.compare_gt_iff ];
    lia.
Qed.

Lemma digit_not_colon d :
  0 <= d < 10 -> Ascii.eqb (digit d) ":"%char = false.
Proof.
  intros Hd.
  assert (H : all_below 10
                (fun x => negb (Ascii.eqb (digit x) ":"%char)) = true)
    by (vm_compute; reflexivity).
  apply negb_true_iff. exact (all_below_spec 10 _ H d Hd).
Qed.

Lemma split_colon_nonempty s : split_colon s <> [].
Proof.
  destruct s as [|c s]; simpl; [discriminate|].
  destruct (Ascii.eqb c ":"%char); [discriminate|].
  destruct (split_colon s); discriminate.
Qed.

Lemma split_colon_pad2 n :
  0 <= n < 100 -> split_colon (pad2 n) = [pad2 n].
Proof.
  intros Hn. unfold pad2. cbn [split_colon].
  rewrite !digit_not_colon by (Z.div_mod_to_equations; lia).
  reflexivity.
Qed.

Lemma split_colon_pad2_colon n rest :
  0 <= n < 100 ->
  split_colon (pad2 n ++ ":" ++ rest) = pad2 n :: split_colon rest.
Proof.
  intros Hn. unfold pad2. cbn [split_colon String.append].
  rewrite !digit_not_colon by (Z.div_mod_to_equations; lia).
  change (Ascii.eqb ":" ":") with true. cbv iota.
  reflexivity.
Qed.

Lemma split_colon_hhmmss h m s :
  0 <= h < 100 -> 0 <= m < 100 -> 0 <= s < 100 ->
  split_colon (hhmmss h m s) = [pad2 h; pad2 m; pad2 s].
Proof.
  intros Hh Hm Hs. unfold hhmmss.
  rewrite split_colon_pad2_colon by assumption.
  rewrite split_colon_pad2_colon by assumption.
  rewrite split_colon_pad2 by assumption.
  reflexivity.
Qed.

Lemma Number_pad2 n : 0 <= n < 100 -> Number (pad2 n) = Js.Num n.
Proof.
  intros Hn.
  assert (H : all_below 100 (fun x => number_eqb (Number (pad2 x)) x) = true)
    by (vm_compute; reflexivity).
  pose proof (all_below_spec 100 _ H n Hn) as E. cbv beta in E.
  destruct (Number (pad2 n)); simpl in E; [|discriminate].
  apply Z.eqb_eq in E. congruence.
Qed.

Lemma part_hhmmss h m s :
  0 <= h < 100 -> 0 <= m < 100 -> 0 <= s < 100 ->
  part (hhmmss h m s) 0 = Js.Num h /\
  part (hhmmss h m s) 1 = Js.Num m /\
  part (hhmmss h m s) 2 = Js.Num s.
Proof.
  intros Hh Hm Hs. unfold part.
  rewrite split_colon_hhmmss by assumption. cbn [nth_error].
  rewrite !Number_pad2 by assumption. auto.
Qed.

Lemma minutes_of_time_of_seconds t :
  0 <= t < 86400 -> minutes_of (time_of_seconds t) = Js.Num (t / 60).
Proof.
  intros Ht. destruct (clock_parts t Ht) as (H1 & H2 & H3 & E).
  unfold minutes_of, time_of_seconds.
  destruct (part_hhmmss (t / 3600) ((t / 60) mod 60) (t mod 60))
    as (-> & -> & _); try lia.
  f_equal. Z.div_mod_to_equations. lia.
Qed.

Lemma time_value_time_of_seconds t :
  0 <= t < 86400 -> Spec.time_value (time_of_seconds t) = t.
Proof.
  intros Ht. destruct (clock_parts t Ht) as (H1 & H2 & H3 & E).
  unfold Spec.time_value, time_of_seconds.
  destruct (part_hhmmss (t / 3600) ((t / 60) mod 60) (t mod 60))
    as (-> & -> & ->); try lia.
Qed.

Lemma well_formed_time_spec s :
  well_formed_time s = true ->
  0 <= Spec.time_value s < 86400 /\ s = time_of_seconds (Spec.time_value s).
Proof.
  unfold well_formed_time. rewrite !andb_true_iff.
  intros [[H1 H2] H3].
  apply Z.leb_le in H1. apply Z.ltb_lt in H2. apply String.eqb_eq in H3.
  auto.
Qed.

Lemma compare_times a b :
  well_formed_time a = true -> well_formed_time b = true ->
  String.compare a b = (Spec.time_value a ?= Spec.time_value b)%Z.
Proof.
  intros Ha Hb.
  destruct (well_formed_time_spec a Ha) as [Ra Ea].
  destruct (well_formed_time_spec b Hb) as [Rb Eb].
  rewrite Ea at 1. rewrite Eb at 1.
  apply time_of_seconds_compare; assumption.
Qed.

Lemma leb_times a b :
  well_formed_time a = true -> well_formed_time b = true ->
  String.leb a b = (Spec.time_value a <=? Spec.time_value b)%Z.
Proof.
  intros Ha Hb. unfold String.leb, Z.leb.
  rewrite compare_times by assumption. reflexivity.
Qed.

Lemma ltb_times a b :
  well_formed_time a = true -> well_formed_time b = true ->
  String.ltb a b = (Spec.time_value a <? Spec.time_value b)%Z.
Proof.
  intros Ha Hb. unfold String.ltb, Z.ltb.
  rewrite compare_times by assumption. reflexivity.
Qed.

Lemma well_formed_time_of_seconds t :
  0 <= t < 86400 -> well_formed_time (time_of_seconds t) = true.
Proof.
  intros Ht. unfold well_formed_time.
  rewrite time_value_time_of_seconds by assumption.
  rewrite String.eqb_refl.
  destruct (Z.leb_spec 0 t); [|lia]. destruct (Z.ltb_spec t 86400); [|lia].
  reflexivity.
Qed.

Lemma insert_by_time_Forall (P : Reservation -> Prop) r l :
  P r -> Forall P l -> Forall P (insert_by_time r l).
Proof.
  intros Hr Hl. induction Hl as [|x xs Hx Hxs IH]; simpl.
  - constructor; [assumption|constructor].
  - destruct (String.compare (r_time r) (r_time x));
      repeat (constructor; try assumption).
Qed.

Lemma sort_by_time_Forall (P : Reservation -> Prop) l :
  Forall P l -> Forall P (sort_by_time l).
Proof.
  induction 1 as [|x xs Hx Hxs IH]; simpl; [constructor|].
  apply insert_by_time_Forall; assumption.
Qed.

Lemma insert_by_time_ordered r l :
  timed r -> Forall timed l -> ordered_by_time l ->
  ordered_by_time (insert_by_time r l).
Proof.
  intros Hr Hl Hs. induction Hs as [|x xs Hxs IH Hx]; simpl.
  - constructor; constructor.
  - inversion Hl as [|? ? Tx Txs]; subst.
    rewrite (compare_times _ _ Hr Tx).
    fold (start_of r) (start_of x).
    destruct (Z.compare_spec (start_of r) (start_of x)) as [E|L|G].
    + constructor; [constructor; assumption|].
      constructor; [lia|].
      eapply Forall_impl; [|exact Hx]. cbv beta. intros; lia.
    + constructor; [constructor; assumption|].
      constructor; [lia|].
      eapply Forall_impl; [|exact Hx]. cbv beta. intros; lia.
    + constructor; [apply IH; assumption|].
      apply insert_by_time_Forall; [lia|assumption].
Qed.

Lemma sort_by_time_ordered l :
  Forall timed l -> ordered_by_time (sort_by_time l).
Proof.
  induction 1 as [|x xs Hx Hxs IH]; simpl; [constructor|].
  apply insert_by_time_ordered;
    [assumption|apply sort_by_time_Forall; assumption|assumption].
Qed.

Lemma find_insert_by_time (p : Reservation -> bool) r l :
  timed r -> Forall timed l -> ordered_by_time l ->
  find p (insert_by_time r l) =
  if p r then
    match find p l with
    | Some y => if (start_of y <? start_of r)%Z then Some y else Some r
    | None => Some r
    end
  else find p l.
Proof.
  intros Hr Hl Hs. induction Hs as [|x xs Hxs IH Hx]; simpl.
  - destruct (p r); reflexivity.
  - inversion Hl as [|? ? Tx Txs]; subst.
    rewrite (compare_times _ _ Hr Tx).
    fold (start_of r) (start_of x).
    destruct (Z.compare_spec (start_of r) (start_of x)) as [E|L|G].
    + cbn [find]. destruct (p r); [|reflexivity].
      destruct (p x).
      * destruct (Z.ltb_spec (start_of x) (start_of r)); [lia|reflexivity].
      * destruct (find p xs) as [y|] eqn:Fy; [|reflexivity].
        apply find_some in Fy as [Iy _].
        rewrite Forall_forall in Hx. specialize (Hx y Iy).
        destruct (Z.ltb_spec (start_of y) (start_of r)); [lia|reflexivity].
    + cbn [find]. destruct (p r); [|reflexivity].
      destruct (p x).
      * destruct (Z.ltb_spec (start_of x) (start_of r)); [lia|reflexivity].
      * destruct (find p xs) as [y|] eqn:Fy; [|reflexivity].
        apply find_some in Fy as [Iy _].
        rewrite Forall_forall in Hx. specialize (Hx y Iy).
        destruct (Z.ltb_spec (start_of y) (start_of r)); [lia|reflexivity].
    + cbn [find]. destruct (p x).
      * destruct (p r); [|reflexivity].
        destruct (Z.ltb_spec (start_of x) (start_of r)); [reflexivity|lia].
      * apply IH; assumption.
Qed.

Lemma find_sort_by_time (p : Reservation -> bool) l :
  Forall timed l ->
  find p (sort_by_time l) = Spec.earliest (filter p l).
Proof.
  induction 1 as [|x xs Hx Hxs IH]; [reflexivity|].
  cbn [sort_by_time fold_right]. fold (sort_by_time xs).
  rewrite find_insert_by_time;
    [ | assumption | apply sort_by_time_Forall; assumption
      | apply sort_by_time_ordered; assumption ].
  cbn [filter]. destruct (p x); [|exact IH].
  cbn [Spec.earliest]. rewrite IH. reflexivity.
Qed.


Lemma well_formed_timed r : well_formed r -> timed r.
Proof.
  unfold well_formed, well_formed_reservation, timed.
  intros H. apply andb_true_iff in H. tauto.
Qed.

Lemma well_formed_end r e :
  well_formed r -> r_end_time r = Some e -> e <> "" ->
  well_formed_time e = true.
Proof.
  unfold well_formed, well_formed_reservation. intros H He Hne.
  apply andb_true_iff in H as [_ H]. rewrite He in H. simpl in H.
  apply String.eqb_neq in Hne. rewrite Hne in H. simpl in H. exact H.
Qed.

(** Case analysis on the status tests and on the start test of a
    reservation. *)
Ltac status_cases r :=
  destruct (r_status r =? "arrived"), (r_status r =? "seated"),
    (r_status r =? "confirmed");
  try reflexivity;
  match goal with
  | |- context [(Spec.time_value (r_time r) <=? ?n)%Z] =>
      destruct (Spec.time_value (r_time r) <=? n)%Z; reflexivity
  end.

Lemma is_current_amended now r :
  0 <= now < 86400 -> well_formed r ->
  is_current (time_of_seconds now) r = Spec.amended_current now r.
Proof.
  intros Hn Hr. unfold is_current, Spec.amended_current, Spec.end_time_value.
  pose proof (well_formed_time_of_seconds now Hn) as Wn.
  rewrite (leb_times _ _ (well_formed_timed r Hr) Wn).
  rewrite time_value_time_of_seconds by assumption.
  cbn [Js.includes existsb].
  destruct (r_end_time r) as [e|] eqn:He; cbn [Js.truthy_string Js.or_string].
  - destruct (String.eqb_spec e "") as [->|Hne]; cbn [negb orb].
    + status_cases r.
    + rewrite (ltb_times _ _ Wn (well_formed_end r e Hr He Hne)).
      rewrite time_value_time_of_seconds by assumption.
      destruct (now <? Spec.time_value e)%Z; status_cases r.
  - status_cases r.
Qed.

Lemma is_next_upcoming now r :
  0 <= now < 86400 -> well_formed r ->
  is_next (time_of_seconds now) r = Spec.upcoming now r.
Proof.
  intros Hn Hr. unfold is_next, Spec.upcoming.
  rewrite (ltb_times _ _ (well_formed_time_of_seconds now Hn)
             (well_formed_timed r Hr)).
  rewrite time_value_time_of_seconds by assumption. reflexivity.
Qed.

Lemma calculateRemainingMinutes_times now e :
  0 <= now < 86400 -> well_formed_time e = true ->
  calculateRemainingMinutes (time_of_seconds now) e =
  Js.Num (Spec.minutes_between now (Spec.time_value e)).
Proof.
  intros Hn He. destruct (well_formed_time_spec e He) as [Re Ee].
  assert (Me : minutes_of e = Js.Num (Spec.time_value e / 60)).
  { rewrite Ee at 1. apply minutes_of_time_of_seconds; assumption. }
  unfold calculateRemainingMinutes, Spec.minutes_between.
  rewrite Me, minutes_of_time_of_seconds by assumption. reflexivity.
Qed.

Lemma filter_Forall {A} (P : A -> Prop) (f : A -> bool) l :
  Forall P l -> Forall P (filter f l).
Proof.
  induction 1 as [|x xs Hx Hxs IH]; simpl; [constructor|].
  destruct (f x); [constructor|]; assumption.
Qed.

Lemma filter_agree {A} (P : A -> Prop) (f g : A -> bool) l :
  Forall P l -> (forall x, P x -> f x = g x) -> filter f l = filter g l.
Proof.
  intros Hl Hfg. induction Hl as [|x xs Hx Hxs IH]; simpl; [reflexivity|].
  rewrite (Hfg x Hx), IH. reflexivity.
Qed.

Lemma earliest_In l r : Spec.earliest l = Some r -> In r l.
Proof.
  revert r; induction l as [|x xs IH]; simpl; intros r H; [discriminate|].
  destruct (Spec.earliest xs) as [y|].
  - destruct (Spec.time_value (r_time y) <? Spec.time_value (r_time x))%Z;
      injection H as <-; auto.
  - injection H as <-; auto.
Qed.

Lemma tableReport_amended table reservations now :
  0 <= now < 86400 ->
  Forall well_formed reservations ->
  let report := tableReport reservations (time_of_seconds now) table in
  let derived := Spec.amended_label table reservations now in
  logicalStatus report = fst derived /\
  (logicalStatus report = OCCUPIED ->
   remainingTimeMinutes report = option_map Js.Num (snd derived)).
Proof.
  intros Hn Hl. cbv zeta.
  unfold tableReport, Spec.amended_label, Spec.derive, Spec.out_of_service.
  set (mine := filter (fun r => r_table_id r =? t_id table) reservations).
  assert (Hm : Forall well_formed mine) by (apply filter_Forall; exact Hl).
  assert (Tm : Forall timed mine)
    by (eapply Forall_impl; [exact well_formed_timed|exact Hm]).
  rewrite !find_sort_by_time by exact Tm.
  rewrite (filter_agree well_formed (is_current (time_of_seconds now))
             (Spec.amended_current now) mine Hm
             (fun r => is_current_amended now r Hn)).
  rewrite (filter_agree well_formed (is_next (time_of_seconds now))
             (Spec.upcoming now) mine Hm
             (fun r => is_next_upcoming now r Hn)).
  cbn [Js.includes existsb]. rewrite orb_false_r.
  destruct ((t_status table =? "blocked") || (t_status table =? "disabled"));
    cbn [logicalStatus remainingTimeMinutes fst snd];
    [split; [reflexivity|discriminate]|].
  destruct (Spec.earliest (filter (Spec.amended_current now) mine))
    as [c|] eqn:Ec; cbn [logicalStatus remainingTimeMinutes fst snd].
  - split; [reflexivity|intros _].
    assert (Wc : well_formed c).
    { apply earliest_In in Ec. apply filter_In in Ec as [Ic _].
      rewrite Forall_forall in Hm. auto. }
    unfold Spec.end_time_value.
    destruct (r_end_time c) as [e|] eqn:He;
      cbn [Js.truthy_string Js.or_string option_map]; [|reflexivity].
    destruct (String.eqb_spec e "") as [->|Hne];
      cbn [negb option_map]; [reflexivity|].
    rewrite calculateRemainingMinutes_times;
      [reflexivity|assumption|exact (well_formed_end c e Wc He Hne)].
  - destruct (Spec.earliest (filter (Spec.upcoming now) mine))
      as [n|] eqn:En; cbn [logicalStatus remainingTimeMinutes fst snd].
    + assert (Wn : well_formed n).
      { apply earliest_In in En. apply filter_In in En as [In_ _].
        rewrite Forall_forall in Hm. auto. }
      rewrite calculateRemainingMinutes_times;
        [|assumption|exact (well_formed_timed n Wn)].
      cbn [Js.num_le].
      set (m := Spec.minutes_between now (Spec.time_value (r_time n))).
      destruct (m <=? 30)%Z; [split; [reflexivity|discriminate]|].
      destruct (m <=? 90)%Z; split; first [reflexivity|discriminate].
    + split; [reflexivity|discriminate].
Qed.

(** ** The logical status engine *)

Lemma clock_reading_range (now : Date) : 0 <= seconds now mod 86400 < 86400.
Proof. apply Z.mod_pos_bound. lia. Qed.

Lemma tableReport_tableId reservations time table :
  tableId (tableReport reservations time table) = t_id table.
Proof.
  unfold tableReport.
  match goal with
  | |- tableId (let '(_, _) := ?e in _) = _ => destruct e
  end.
  reflexivity.
Qed.

(** C5 (as stated) fails twice.  A confirmed reservation of 10:00 without
    an end-time is still current at 23:00 for the service, which labels the
    table OCCUPIED, while with a service duration of 90 minutes the
    derivation of the claim ends it at 11:30 and labels the table FREE.
    And for an arrived reservation of 20:00 without an end-time the service
    reports no remaining minutes at 20:45, where the claim counts the 45
    minutes to the default end-time. *)
Lemma C5_no_default_end_time :
  (logicalStatus
     (tableReport [Sample.booking "r1" "10:00:00" None "confirmed" None]
        (time_of_seconds 82800) Sample.table4) = OCCUPIED
   /\ fst (Spec.label 90 Sample.table4
             [Sample.booking "r1" "10:00:00" None "confirmed" None] 82800)
      = FREE)
  /\
  (remainingTimeMinutes
     (tableReport [Sample.booking "r1" "20:00:00" None "arrived" None]
        (time_of_seconds 74700) Sample.table4) = None
   /\ Spec.label 90 Sample.table4
        [Sample.booking "r1" "20:00:00" None "arrived" None] 74700
      = (OCCUPIED, Some 45)).
Proof. vm_compute. auto. Qed.

(** C5 (amended): for every active table of the restaurant, the label of
    the report is OUT_OF_SERVICE when the table is blocked or disabled;
    otherwise OCCUPIED when one of today's reservations of the table is
    current, a reservation being current iff it is arrived or seated, or
    confirmed with time <= now and, when it has an end-time, now < end-time
    (no default end-time is taken); the remaining minutes are then those
    from now to the end-time of the earliest current reservation, and are
    reported only when it has one; otherwise the label follows the earliest
    future pending or confirmed reservation: RESERVED when it is at most 30
    minutes away, NEXT_RESERVATION when at most 90, FREE beyond that or
    when there is none; negative minute differences wrap by 1440. *)
Theorem C5_status_report_amended (now : Date) (restaurantId : string)
  (db : Db) :
  Forall well_formed (db_reservations db) ->
  let reading := seconds now mod 86400 in
  let reservations := todays_reservations restaurantId (iso_day now) db in
  Forall2
    (fun table report =>
       tableId report = t_id table /\
       logicalStatus report =
         fst (Spec.amended_label table reservations reading) /\
       (logicalStatus report = OCCUPIED ->
        remainingTimeMinutes report =
          option_map Js.Num
            (snd (Spec.amended_label table reservations reading))))
    (active_tables restaurantId db)
    (getRestaurantStatusReport now restaurantId db).
Proof.
  intros Hwf reading reservations.
  unfold getRestaurantStatusReport, toTimeString.
  fold reading reservations.
  assert (Hres : Forall well_formed reservations)
    by (apply filter_Forall; exact Hwf).
  induction (active_tables restaurantId db) as [|t ts IH]; simpl;
    constructor; [|exact IH].
  split; [apply tableReport_tableId|].
  exact (tableReport_amended t reservations reading
           (clock_reading_range now) Hres).
Qed.

Lemma C5_status_report_amended_witness :
  Forall2
    (fun table report =>
       tableId report = t_id table /\
       logicalStatus report =
         fst (Spec.amended_label table
                (todays_reservations "rx" "2024-06-01"
                   (Sample.store
                      [Sample.booking "r1" "20:00:00" (Some "21:30:00")
                         "arrived" None]))
                (74700 mod 86400)) /\
       (logicalStatus report = OCCUPIED ->
        remainingTimeMinutes report =
          option_map Js.Num
            (snd (Spec.amended_label table
                    (todays_reservations "rx" "2024-06-01"
                       (Sample.store
                          [Sample.booking "r1" "20:00:00" (Some "21:30:00")
                             "arrived" None]))
                    (74700 mod 86400)))))
    [Sample.table4]
    (getRestaurantStatusReport (mkDate "2024-06-01" 74700) "rx"
       (Sample.store
          [Sample.booking "r1" "20:00:00" (Some "21:30:00") "arrived" None]))
  /\ map (fun report => (logicalStatus report, remainingTimeMinutes report))
       (getRestaurantStatusReport (mkDate "2024-06-01" 74700) "rx"
          (Sample.store
             [Sample.booking "r1" "20:00:00" (Some "21:30:00") "arrived"
                None]))
     = [(OCCUPIED, Some (Js.Num 45))].
Proof.
  split.
  - apply (C5_status_report_amended (mkDate "2024-06-01" 74700) "rx"
             (Sample.store
                [Sample.booking "r1" "20:00:00" (Some "21:30:00") "arrived"
                   None])).
    repeat constructor.
  - vm_compute. reflexivity.
Defined.

(** ** Walk-in seating *)

Lemma find_report (id : string) (reservations : list Reservation)
  (time : string) (tables : list Table) (ts : TableStatusReport) :
  find (fun t => tableId t =? id) (map (tableReport reservations time) tables)
  = Some ts ->
  exists table, In table tables /\ ts = tableReport reservations time table.
Proof.
  intros H. apply find_some in H as [Hin _].
  apply in_map_iff in Hin as (table & E & Hin). eauto.
Qed.

(** What the report says about the next reservation of a table it labels
    FREE or NEXT_RESERVATION. *)
Lemma tableReport_next (reservations : list Reservation) (reading : Z)
  (table : Table) :
  0 <= reading < 86400 ->
  Forall timed reservations ->
  let report := tableReport reservations (time_of_seconds reading) table in
  match logicalStatus report with
  | FREE =>
      nextReservation report = None
      \/ exists m, remainingTimeMinutes report = Some (Js.Num m) /\ 90 < m
  | NEXT_RESERVATION =>
      nextReservation report <> None
      /\ exists m, remainingTimeMinutes report = Some (Js.Num m)
                   /\ 30 < m <= 90
  | _ => True
  end.
Proof.
  intros Hr Ht. cbv zeta. unfold tableReport.
  set (mine := sort_by_time
                 (filter (fun r => r_table_id r =? t_id table) reservations)).
  assert (Tm : Forall timed mine)
    by (apply sort_by_time_Forall, filter_Forall; exact Ht).
  destruct ((t_status table =? "blocked") || (t_status table =? "disabled"));
    cbn [logicalStatus]; [exact I|].
  destruct (find (is_current (time_of_seconds reading)) mine);
    cbn [logicalStatus]; [exact I|].
  destruct (find (is_next (time_of_seconds reading)) mine) as [n|] eqn:En;
    cbn [logicalStatus nextReservation remainingTimeMinutes];
    [|left; reflexivity].
  assert (Tn : timed n).
  { apply find_some in En as [Hin _]. rewrite Forall_forall in Tm. auto. }
  rewrite calculateRemainingMinutes_times by assumption.
  cbn [Js.num_le].
  set (m := Spec.minutes_between reading (Spec.time_value (r_time n))).
  destruct (Z.leb_spec m 30); [exact I|].
  destruct (Z.leb_spec m 90).
  - split; [discriminate|]. exists m. split; [reflexivity|lia].
  - right. exists m. split; [reflexivity|lia].
Qed.

(** Closes the goal of a walk-in that passed both checks. *)
Ltac walk_in_created :=
  eexists; split; [reflexivity|];
  cbn [r_status r_source r_date r_time r_table_id snd];
  repeat split; intros t; apply set_table_status_sets.

(** For a walk-in request that gives its party size, on a table the
    status report of the restaurant lists, the route creates the
    reservation exactly when the label of the table is FREE, or
    NEXT_RESERVATION with at least 60 minutes to the next reservation;
    otherwise it answers 409 and leaves the store as it was. *)
Lemma walk_in_on_reported_table (new_id : string) (now : Date)
  (restaurantId userId id : string) (b : WalkInBody) (db : Db)
  (ts : TableStatusReport) :
  Js.truthy_number (wi_guestCount b) = true ->
  Forall timed (db_reservations db) ->
  find (fun t => tableId t =? id)
       (getRestaurantStatusReport now restaurantId db) = Some ts ->
  (walk_in_permitted ts ->
   exists r,
     assignWalkIn new_id now restaurantId userId id b db =
     (ok 201 r,
      set_table_status id "occupied"
        (with_reservations db (db_reservations db ++ [r])%list))
     /\ r_status r = "seated" /\ r_source r = Some "walk_in"
     /\ r_date r = iso_day now /\ r_time r = toTimeString now
     /\ r_table_id r = id
     /\ forall t, In t (db_tables
                          (snd (assignWalkIn new_id now restaurantId userId
                                  id b db))) ->
                  t_id t = id -> t_status t = "occupied")
  /\
  (~ walk_in_permitted ts ->
   assignWalkIn new_id now restaurantId userId id b db = (reject 409, db)).
Proof.
  intros Hg Ht Hfind.
  pose proof Hfind as Hrep. unfold getRestaurantStatusReport in Hrep.
  apply find_report in Hrep as (table & _ & Ets).
  pose proof (tableReport_next
                (todays_reservations restaurantId (iso_day now) db)
                (seconds now mod 86400) table (clock_reading_range now)
                (filter_Forall _ _ _ Ht)) as Hnext.
  cbv zeta in Hnext. fold (toTimeString now) in Hnext. rewrite <- Ets in Hnext.
  unfold assignWalkIn. rewrite Hg, Hfind. cbn [negb].
  unfold walk_in_permitted. split.
  - intros [Hfree | (Hnxt & m & Hm & Hge)].
    + rewrite Hfree in *.
      destruct Hnext as [-> | (m & -> & Hm)].
      * walk_in_created.
      * destruct (nextReservation ts); [|walk_in_created].
        cbn [Js.or_zero]. destruct (Z.ltb_spec m 60); [lia|].
        walk_in_created.
    + rewrite Hnxt in *. rewrite Hm.
      destruct (nextReservation ts); [|walk_in_created].
      cbn [Js.or_zero]. destruct (Z.ltb_spec m 60); [lia|].
      walk_in_created.
  - intros Hno.
    destruct (logicalStatus ts) eqn:El; try reflexivity.
    + exfalso. apply Hno. left. reflexivity.
    + destruct Hnext as (Hsome & m & Hm & Hrange).
      destruct (nextReservation ts); [|contradiction].
      rewrite Hm. cbn [Js.or_zero].
      destruct (Z.ltb_spec m 60); [reflexivity|].
      exfalso. apply Hno. right. split; [reflexivity|].
      exists m. split; [exact Hm|lia].
Qed.

(** C6 (as stated) fails: the label of the table does not settle the
    answer.  A request without a party size is answered 400 whatever the
    label, so on an OCCUPIED table it is not answered 409, and on a FREE
    table it does not succeed; and a table that is not an active table of
    the panel's restaurant is answered 404.  None of them changes the
    store. *)
Lemma C6_walk_in_answers_400_and_404 :
  (option_map logicalStatus
     (find (fun t => tableId t =? "t1")
        (getRestaurantStatusReport Sample.evening "rx"
           (Sample.store
              [Sample.booking "r1" "20:00:00" None "seated" None])))
   = Some OCCUPIED
   /\ assignWalkIn "w1" Sample.evening "rx" "u9" "t1"
        (mkWalkInBody None (Some "Ana") None)
        (Sample.store [Sample.booking "r1" "20:00:00" None "seated" None])
      = (reject 400,
         Sample.store [Sample.booking "r1" "20:00:00" None "seated" None]))
  /\
  (option_map logicalStatus
     (find (fun t => tableId t =? "t1")
        (getRestaurantStatusReport Sample.evening "rx" (Sample.store [])))
   = Some FREE
   /\ assignWalkIn "w1" Sample.evening "rx" "u9" "t1"
        (mkWalkInBody None (Some "Ana") None) (Sample.store [])
      = (reject 400, Sample.store []))
  /\
  assignWalkIn "w1" Sample.evening "rx" "u9" "t9"
    (mkWalkInBody (Some 2) None None) (Sample.store [])
  = (reject 404, Sample.store []).
Proof. repeat split. Qed.

(** C6 (amended): a walk-in request without a party size is answered 400,
    and one on a table that is not an active table of the panel's
    restaurant is answered 404, both leaving the store as it was.
    Otherwise, the stored times being HH:MM:SS times of the day, the
    route succeeds exactly when the derived label of the table is FREE,
    or NEXT_RESERVATION with at least 60 minutes to the next reservation,
    and in every other case answers 409 and leaves the store as it was.  On success it answers 201, adds one reservation,
    seated, of source walk_in, for today at the current time on that
    table, and sets the table to occupied; nothing else changes. *)
Theorem C6_walk_in_amended (new_id : string) (now : Date)
  (restaurantId userId id : string) (b : WalkInBody) (db : Db) :
  Forall timed (db_reservations db) ->
  (Js.truthy_number (wi_guestCount b) = false ->
   assignWalkIn new_id now restaurantId userId id b db = (reject 400, db))
  /\
  (Js.truthy_number (wi_guestCount b) = true ->
   find (fun t => tableId t =? id)
        (getRestaurantStatusReport now restaurantId db) = None ->
   assignWalkIn new_id now restaurantId userId id b db = (reject 404, db))
  /\
  (forall ts,
     Js.truthy_number (wi_guestCount b) = true ->
     find (fun t => tableId t =? id)
          (getRestaurantStatusReport now restaurantId db) = Some ts ->
     (walk_in_permitted ts ->
      exists r,
        assignWalkIn new_id now restaurantId userId id b db =
        (ok 201 r,
         set_table_status id "occupied"
           (with_reservations db (db_reservations db ++ [r])%list))
        /\ r_status r = "seated" /\ r_source r = Some "walk_in"
        /\ r_date r = iso_day now /\ r_time r = toTimeString now
        /\ r_table_id r = id
        /\ forall t, In t (db_tables
                             (snd (assignWalkIn new_id now restaurantId
                                     userId id b db))) ->
                     t_id t = id -> t_status t = "occupied")
     /\
     (~ walk_in_permitted ts ->
      assignWalkIn new_id now restaurantId userId id b db
      = (reject 409, db))).
Proof.
  intros Ht. split; [|split].
  - intros Hg. unfold assignWalkIn. rewrite Hg. reflexivity.
  - intros Hg Hfind. unfold assignWalkIn. rewrite Hg, Hfind. reflexivity.
  - intros ts Hg Hfind.
    exact (walk_in_on_reported_table new_id now restaurantId userId id b db
             ts Hg Ht Hfind).
Qed.

Lemma C6_walk_in_amended_witness :
  assignWalkIn "w1" Sample.evening "rx" "u9" "t1"
    (mkWalkInBody None None None) (Sample.store []) =
  (reject 400, Sample.store [])
  /\
  assignWalkIn "w1" Sample.evening "rx" "u9" "t9"
    (mkWalkInBody (Some 2) None None) (Sample.store []) =
  (reject 404, Sample.store [])
  /\
  (exists r,
     assignWalkIn "w1" Sample.evening "rx" "u9" "t1"
       (mkWalkInBody (Some 2) None None) (Sample.store []) =
     (ok 201 r,
      set_table_status "t1" "occupied"
        (with_reservations (Sample.store []) [r]))
     /\ r_status r = "seated" /\ r_source r = Some "walk_in"
     /\ r_time r = "20:20:00")
  /\
  assignWalkIn "w1" Sample.evening "rx" "u9" "t1"
    (mkWalkInBody (Some 2) None None)
    (Sample.store [Sample.booking "r1" "21:00:00" None "pending" None]) =
  (reject 409,
   Sample.store [Sample.booking "r1" "21:00:00" None "pending" None]).
Proof.
  split; [|split; [|split]].
  - exact (proj1 (C6_walk_in_amended "w1" Sample.evening "rx" "u9" "t1"
                    (mkWalkInBody None None None) (Sample.store [])
                    (Forall_nil _)) eq_refl).
  - exact (proj1 (proj2 (C6_walk_in_amended "w1" Sample.evening "rx" "u9"
                           "t9" (mkWalkInBody (Some 2) None None)
                           (Sample.store []) (Forall_nil _)))
             eq_refl eq_refl).
  - destruct (proj1 (proj2 (proj2 (C6_walk_in_amended "w1" Sample.evening
                                     "rx" "u9" "t1"
                                     (mkWalkInBody (Some 2) None None)
                                     (Sample.store []) (Forall_nil _)))
                       (tableReport [] "20:20:00" Sample.table4)
                       eq_refl eq_refl))
      as (r & E & S1 & S2 & _ & S3 & _).
    + left. reflexivity.
    + exists r. repeat split; assumption.
  - refine (proj2 (proj2 (proj2 (C6_walk_in_amended "w1" Sample.evening "rx"
                                   "u9" "t1"
                                   (mkWalkInBody (Some 2) None None)
                                   (Sample.store
                                      [Sample.booking "r1" "21:00:00" None
                                         "pending" None]) _))
                     (tableReport
                        [Sample.booking "r1" "21:00:00" None "pending" None]
                        "20:20:00" Sample.table4)
                     eq_refl eq_refl) _).
    + repeat constructor.
    + intros [H | (_ & m & Hm & Hge)].
      * vm_compute in H. discriminate.
      * vm_compute in Hm. injection Hm as <-. lia.
Defined.

(** ** Available tables *)

(** What parseInt reads: a hexadecimal numeral after 0x, a numeral after
    blanks and a sign, the digits before other text; and no number when no
    digit leads. *)
Lemma parseInt_reads :
  map parseInt ["16"; "0x10"; " 42"; "-5"; "+7"; "12abc"; "3.7"; "010"]
  = map Js.Num [16; 16; 42; -5; 7; 12; 3; 10]
  /\ map parseInt ["abc"; "0x"; "-"; "- 5"; "x10"]
     = [Js.NaN; Js.NaN; Js.NaN; Js.NaN; Js.NaN].
Proof. split; reflexivity. Qed.

(** C7 (as stated) fails twice.  A restaurant without any table is
    answered 200 with an empty list, not NotFound; and a table whose only
    reservation of the slot is completed is left out of the answer. *)
Lemma C7_no_not_found_and_completed_blocks :
  fst (availableTables "rx" (Some "2024-06-01") (Some "19:00:00") (Some "2")
         (mkDb [] [] [mkRestaurant "rx" None] [])) = ok 200 []
  /\
  fst (availableTables "rx" (Some "2024-06-01") (Some "19:00:00") (Some "2")
         (Sample.store
            [Sample.booking "r1" "19:00:00" None "completed" None]))
  = ok 200 [].
Proof. split; reflexivity. Qed.

(** C7 (amended): for a request with date, time and a party size that
    parseInt reads as the safe integer partySize (a decimal numeral, or
    what else parseInt accepts: leading blanks, a sign, a 0x numeral,
    text after the digits), the route answers 200 with exactly the active
    tables of the restaurant of capacity >= partySize for which the
    restaurant has no reservation at exactly (date, time) with a status
    other than cancelled and no_show (a completed reservation keeps the
    table out); it never answers NotFound: with no matching table the
    answer is the empty list. *)
Theorem C7_available_tables_amended (id date time guests : string)
  (n : Z) (db : Db) :
  date <> "" -> time <> "" -> guests <> "" ->
  parseInt guests = Js.Num n -> safe_integer n ->
  exists tables,
    availableTables id (Some date) (Some time) (Some guests) db =
    (ok 200 tables, db)
    /\ forall t,
         In t tables <->
         (In t (db_tables db) /\ t_restaurant_id t = id
          /\ t_is_active t = true /\ n <= t_capacity t
          /\ ~ exists r,
                 In r (db_reservations db) /\ r_restaurant_id r = id
                 /\ r_table_id r = t_id t /\ r_date r = date
                 /\ r_time r = time /\ r_status r <> "cancelled"
                 /\ r_status r <> "no_show").
Proof.
  intros Hd Ht Hg Hn _. unfold availableTables.
  apply String.eqb_neq in Hd, Ht, Hg.
  cbn [Js.truthy_string Js.or_string]. rewrite Hd, Ht, Hg. cbn [negb orb].
  rewrite Hn. eexists. split; [reflexivity|].
  intros t. rewrite filter_In, filter_In, negb_true_iff.
  rewrite !andb_true_iff, String.eqb_eq, Z.leb_le.
  split.
  - intros [(Hin & (Hr & Hc) & Ha) Hres]. repeat split; try assumption.
    intros (r & Hrin & R1 & R2 & R3 & R4 & R5 & R6).
    assert (Hinc : Js.includes
                     (map r_table_id
                        (filter (fun r =>
                                   (r_restaurant_id r =? id)
                                   && (r_date r =? date)
                                   && (r_time r =? time)
                                   && Supabase.not_in ["cancelled"; "no_show"]
                                        (r_status r))
                                (db_reservations db)))
                     (t_id t) = true).
    { apply includes_true. apply in_map_iff. exists r. split; [exact R2|].
      apply filter_In. split; [exact Hrin|].
      unfold Supabase.not_in. cbn [Js.includes existsb].
      apply String.eqb_neq in R5, R6. rewrite R5, R6.
      rewrite R1, R3, R4, !String.eqb_refl. reflexivity. }
    congruence.
  - intros (Hin & Hr & Ha & Hc & Hres). repeat split; try assumption.
    destruct (Js.includes _ (t_id t)) eqn:Hinc; [exfalso|reflexivity].
    apply includes_true in Hinc. apply in_map_iff in Hinc as (r & R2 & Hf).
    apply filter_In in Hf as [Hrin Hp].
    unfold Supabase.not_in in Hp. cbn [Js.includes existsb] in Hp.
    rewrite !andb_true_iff, negb_true_iff, !orb_false_iff in Hp.
    rewrite !String.eqb_eq, !String.eqb_neq in Hp.
    apply Hres. exists r. tauto.
Qed.

Lemma C7_available_tables_amended_witness :
  exists tables,
    availableTables "rx" (Some "2024-06-01") (Some "19:30:00") (Some "2")
      (Sample.store [Sample.booking "r1" "19:00:00" None "confirmed" None]) =
    (ok 200 tables,
     Sample.store [Sample.booking "r1" "19:00:00" None "confirmed" None])
    /\ In Sample.table4 tables.
Proof.
  destruct (C7_available_tables_amended "rx" "2024-06-01" "19:30:00" "2" 2
              (Sample.store
                 [Sample.booking "r1" "19:00:00" None "confirmed" None]))
    as (tables & E & Hin);
    try (unfold safe_integer; lia); try discriminate; try reflexivity.
  exists tables. split; [exact E|].
  apply Hin. repeat split; try reflexivity.
  - left. reflexivity.
  - discriminate.
  - intros (r & [<-|[]] & _ & _ & _ & T & _). discriminate.
Defined.

(** ** The waitlist *)

Lemma active_entries_nil (restaurantId phone : string) (db : Db) :
  (forall w, In w (db_waitlist db) -> w_restaurant_id w = restaurantId ->
             w_phone w = phone ->
             ~ In (w_status w) ["waiting"; "notified"; "confirmed"]) ->
  active_entries restaurantId phone db = [].
Proof.
  intros H. unfold active_entries.
  destruct (filter _ (db_waitlist db)) as [|w rest] eqn:E;
    [reflexivity|exfalso].
  assert (Hin : In w (w :: rest)) by (left; reflexivity).
  rewrite <- E in Hin. apply filter_In in Hin as [Hw Hp].
  rewrite !andb_true_iff, !String.eqb_eq in Hp.
  destruct Hp as [[Hr Hph] Hs]. apply includes_true in Hs.
  exact (H w Hw Hr Hph Hs).
Qed.

(** C9 (as stated) fails: the join of a phone that already has a waiting
    entry at the restaurant is answered 400, not 409. *)
Lemma C9_duplicate_join_answers_400 :
  joinWaitlist "waiting" "w2" None (Sample.join_body "555-0100")
    (Sample.queue [Sample.waiting "w1" "555-0100" "waiting"]) =
  (reject 400, Sample.queue [Sample.waiting "w1" "555-0100" "waiting"]).
Proof. reflexivity. Qed.

(** The duplicate check reads its row with [.single()] too: a phone with
    two such entries is let in. *)
Lemma join_with_two_active_entries :
  let db := Sample.queue
              [Sample.waiting "w1" "555-0100" "waiting";
               Sample.waiting "w2" "555-0100" "confirmed"] in
  res_status
    (fst (joinWaitlist "waiting" "w3" None (Sample.join_body "555-0100") db))
  = 201%nat.
Proof. reflexivity. Qed.

(** C9 (amended): a join request with its required fields, for a
    restaurant that exists, is answered 400 (not 409) and creates no entry
    when the phone has exactly one waiting, notified or confirmed entry at
    the restaurant; when it has none, the route creates an entry whose
    position is the count of the restaurant's waiting and notified entries
    plus one and whose estimated wait is position x 15 minutes. *)
Theorem C9_join_amended (default_status new_id : string)
  (user : option User) (b : JoinBody) (db : Db) :
  required_join_fields b = true ->
  let restaurantId := Js.or_string (j_restaurantId b) "" in
  let phone := Js.or_string (j_phone b) "" in
  restaurant_by_id restaurantId db <> None ->
  ((exists w, active_entries restaurantId phone db = [w]) ->
   joinWaitlist default_status new_id user b db = (reject 400, db))
  /\
  ((forall w, In w (db_waitlist db) -> w_restaurant_id w = restaurantId ->
              w_phone w = phone ->
              ~ In (w_status w) ["waiting"; "notified"; "confirmed"]) ->
   exists e,
     joinWaitlist default_status new_id user b db =
     (ok 201 e, with_waitlist db (db_waitlist db ++ [e])%list)
     /\ w_restaurant_id e = restaurantId /\ w_phone e = phone
     /\ w_position e = Some (queue_length restaurantId db + 1)
     /\ w_estimated_wait e = (queue_length restaurantId db + 1) * 15).
Proof.
  intros Hreq restaurantId phone Hrest.
  unfold required_join_fields in Hreq. rewrite !andb_true_iff in Hreq.
  destruct Hreq as [[[H1 H2] H3] H4].
  unfold joinWaitlist. rewrite H1, H2, H3, H4. cbn [negb orb].
  fold restaurantId phone.
  destruct (restaurant_by_id restaurantId db); [|contradiction].
  fold (active_entries restaurantId phone db). split.
  - intros [w ->]. reflexivity.
  - intros Hnone. rewrite (active_entries_nil restaurantId phone db Hnone).
    cbn [Supabase.single]. eexists. split; [reflexivity|].
    cbn [w_restaurant_id w_phone w_position w_estimated_wait].
    repeat split.
Qed.

Lemma C9_join_amended_witness :
  joinWaitlist "waiting" "w2" None (Sample.join_body "555-0100")
    (Sample.queue [Sample.waiting "w1" "555-0100" "waiting"]) =
  (reject 400, Sample.queue [Sample.waiting "w1" "555-0100" "waiting"])
  /\
  exists e,
    fst (joinWaitlist "waiting" "w2" None (Sample.join_body "555-0199")
           (Sample.queue [Sample.waiting "w1" "555-0100" "waiting"])) =
    ok 201 e
    /\ w_position e = Some 2 /\ w_estimated_wait e = 30.
Proof.
  split.
  - refine (proj1 (C9_join_amended "waiting" "w2" None
                     (Sample.join_body "555-0100")
                     (Sample.queue [Sample.waiting "w1" "555-0100" "waiting"])
                     eq_refl _) _).
    + discriminate.
    + eexists. reflexivity.
  - destruct (proj2 (C9_join_amended "waiting" "w2" None
                       (Sample.join_body "555-0199")
                       (Sample.queue
                          [Sample.waiting "w1" "555-0100" "waiting"])
                       eq_refl ltac:(discriminate)))
      as (e & E & _ & _ & P & W).
    + intros w [<-|[]] _ Hp. discriminate.
    + exists e. rewrite E. repeat split; assumption.
Defined.

(** * The routes around the engine: properties *)

(** ** Reschedule *)

Lemma reschedule_refuses_party_over_capacity_witness :
  rescheduleReservation Sample.guest "r1"
    (mkRescheduleBody None None (Some 6))
    (Sample.store [Sample.booking "r1" "19:00:00" None "pending" None]) =
  (reject 400,
   Sample.store [Sample.booking "r1" "19:00:00" None "pending" None]).
Proof.
  apply (reschedule_refuses_party_over_capacity Sample.guest "r1"
           (mkRescheduleBody None None (Some 6))
           (Sample.store [Sample.booking "r1" "19:00:00" None "pending" None])
           (Sample.booking "r1" "19:00:00" None "pending" None)
           Sample.table4 6);
    first [reflexivity | lia].
Defined.

Lemma update_map_keeps {A B : Type} (sel : A -> bool) (f : A -> A)
  (g : A -> B) (rows : list A) :
  (forall x, g (f x) = g x) ->
  map g (Supabase.update sel f rows) = map g rows.
Proof.
  intros H. unfold Supabase.update. rewrite map_map.
  apply map_ext. intros x. destruct (sel x); auto.
Qed.

(** Whatever the request, the reschedule route leaves the tables as they
    are and keeps the id, the status, the table, the owner and the special
    request of every reservation; and unless it answers 200 it leaves the
    whole store as it is. *)
Theorem reschedule_frame (u : User) (id : string) (b : RescheduleBody)
  (db : Db) :
  let '(res, db') := rescheduleReservation u id b db in
  db_tables db' = db_tables db
  /\ map r_id (db_reservations db') = map r_id (db_reservations db)
  /\ map r_status (db_reservations db') = map r_status (db_reservations db)
  /\ map r_table_id (db_reservations db')
     = map r_table_id (db_reservations db)
  /\ map r_user_id (db_reservations db') = map r_user_id (db_reservations db)
  /\ map r_special_request (db_reservations db')
     = map r_special_request (db_reservations db)
  /\ (res_status res = 200%nat \/ db' = db).
Proof.
  unfold rescheduleReservation.
  repeat match goal with
         | |- context [if ?c then _ else _] => destruct c
         | |- context [match reservation_by_id ?i ?d with _ => _ end] =>
             destruct (reservation_by_id i d)
         end;
    cbn [res_status reject ok db_tables db_reservations update_reservation
         with_reservations];
    try (repeat split; auto; fail);
    (repeat split;
     [ apply update_map_keeps; reflexivity
     | apply update_map_keeps; reflexivity
     | apply update_map_keeps; reflexivity
     | apply update_map_keeps; reflexivity
     | apply update_map_keeps; reflexivity
     | left; reflexivity ]).
Qed.

Lemma update_unique_fixed {A : Type} (sel : A -> bool) (f : A -> A)
  (rows : list A) (r : A) :
  filter sel rows = [r] -> f r = r -> Supabase.update sel f rows = rows.
Proof.
  intros Hf Hr. unfold Supabase.update.
  assert (H : forall x, In x rows -> sel x = true -> x = r).
  { intros x Hin Hs.
    assert (Hx : In x (filter sel rows)) by (apply filter_In; auto).
    rewrite Hf in Hx. destruct Hx as [E|[]]. auto. }
  clear Hf. induction rows as [|x xs IH]; simpl; [reflexivity|].
  rewrite IH by (intros y Hy; apply H; right; exact Hy).
  destruct (sel x) eqn:Es; [|reflexivity].
  rewrite (H x (or_introl eq_refl) Es), Hr. reflexivity.
Qed.

Lemma reservation_by_id_id (id : string) (db : Db) (r : Reservation) :
  reservation_by_id id db = Some r -> r_id r = id.
Proof.
  unfold reservation_by_id. intros H. apply single_Some in H.
  assert (Hin : In r (filter (fun x => r_id x =? id) (db_reservations db)))
    by (rewrite H; left; reflexivity).
  apply filter_In in Hin as [_ E]. apply String.eqb_eq. exact E.
Qed.

(** The slot check of the reschedule route is the slot check of the create
    route without the rows of the reservation itself. *)
Lemma slot_rows_exclude (id tableId date time : string) (db : Db) :
  slot_rows (Some id) tableId date time db =
  filter (fun x => negb (r_id x =? id)) (slot_rows None tableId date time db).
Proof.
  unfold slot_rows. induction (db_reservations db) as [|x xs IH];
    [reflexivity|].
  cbn [filter].
  destruct (r_table_id x =? tableId), (r_date x =? date),
    (r_time x =? time),
    (Supabase.not_in ["cancelled"; "no_show"] (r_status x)),
    (r_id x =? id) eqn:E;
    cbn [andb negb filter]; rewrite ?E; cbn [negb]; rewrite IH;
    reflexivity.
Qed.

(** Resubmitting the date and the time a reservation already has is
    answered 200 and leaves the store as it is, when the reservation is the
    only row blocking its slot and the day is not a closed holiday: the
    slot check leaves the reservation itself out. *)
Theorem reschedule_to_own_slot (u : User) (id : string) (db : Db)
  (r : Reservation) :
  reservation_by_id id db = Some r ->
  may_reschedule u r = true ->
  r_date r <> "" -> r_time r <> "" ->
  isHoliday (restaurant_by_id (r_restaurant_id r) db) (r_date r) = false ->
  slot_rows None (r_table_id r) (r_date r) (r_time r) db = [r] ->
  rescheduleReservation u id
    (mkRescheduleBody (Some (r_date r)) (Some (r_time r)) None) db =
  (ok 200 r, db).
Proof.
  intros Hr Hm Hd Ht Hh Hslot. unfold rescheduleReservation.
  apply String.eqb_neq in Hd, Ht.
  cbn [p_date p_time p_guestCount Js.truthy_string Js.truthy_number
       Js.or_string].
  rewrite Hd, Ht. cbn [negb andb orb]. rewrite Hr.
  unfold may_reschedule in Hm. apply negb_true_iff in Hm. rewrite Hm.
  rewrite Hh. rewrite slot_rows_exclude, Hslot.
  cbn [filter]. rewrite (reservation_by_id_id id db r Hr), String.eqb_refl.
  cbn [negb Supabase.single].
  assert (Er : reschedule_update (r_date r) (r_time r) (r_guest_count r) r
               = r) by (destruct r; reflexivity).
  rewrite Er. f_equal.
  unfold update_reservation.
  unfold reservation_by_id in Hr. apply single_Some in Hr.
  rewrite (update_unique_fixed _ _ _ r Hr Er).
  destruct db; reflexivity.
Qed.

Lemma reschedule_to_own_slot_witness :
  rescheduleReservation Sample.guest "r1"
    (mkRescheduleBody (Some "2024-06-01") (Some "19:00:00") None)
    (Sample.store [Sample.booking "r1" "19:00:00" None "pending" None]) =
  (ok 200 (Sample.booking "r1" "19:00:00" None "pending" None),
   Sample.store [Sample.booking "r1" "19:00:00" None "pending" None]).
Proof.
  apply (reschedule_to_own_slot Sample.guest "r1"
           (Sample.store [Sample.booking "r1" "19:00:00" None "pending" None])
           (Sample.booking "r1" "19:00:00" None "pending" None));
    first [reflexivity | discriminate].
Defined.

(** A reschedule to a day the restaurant lists as a closed holiday is
    answered 400 and changes nothing, whatever the party size and the
    slot. *)
Theorem reschedule_refuses_closed_holiday (u : User) (id date : string)
  (b : RescheduleBody) (db : Db) (r : Reservation) (x : Restaurant)
  (hs : list Holiday) :
  reservation_by_id id db = Some r ->
  may_reschedule u r = true ->
  p_date b = Some date -> date <> "" ->
  restaurant_by_id (r_restaurant_id r) db = Some x ->
  rest_holidays x = Some hs ->
  In (mkHoliday date true) hs ->
  rescheduleReservation u id b db = (reject 400, db).
Proof.
  intros Hr Hm Hb Hd Hx Hhs Hin. unfold rescheduleReservation.
  apply String.eqb_neq in Hd.
  rewrite Hb. cbn [Js.truthy_string Js.or_string]. rewrite Hd.
  cbn [negb andb]. rewrite Hr.
  unfold may_reschedule in Hm. apply negb_true_iff in Hm. rewrite Hm.
  rewrite Hx. unfold isHoliday. rewrite Hhs.
  assert (E : existsb (fun h => (h_date h =? date) && h_closed h) hs = true).
  { apply existsb_exists. exists (mkHoliday date true).
    split; [exact Hin|]. cbn. rewrite String.eqb_refl. reflexivity. }
  rewrite E. reflexivity.
Qed.

Lemma reschedule_refuses_closed_holiday_witness :
  rescheduleReservation Sample.guest "r1"
    (mkRescheduleBody (Some "2024-12-25") None None)
    (mkDb [Sample.table4]
       [Sample.booking "r1" "19:00:00" None "pending" None]
       [mkRestaurant "rx" (Some [mkHoliday "2024-12-25" true])] []) =
  (reject 400,
   mkDb [Sample.table4]
     [Sample.booking "r1" "19:00:00" None "pending" None]
     [mkRestaurant "rx" (Some [mkHoliday "2024-12-25" true])] []).
Proof.
  apply (reschedule_refuses_closed_holiday Sample.guest "r1" "2024-12-25"
           (mkRescheduleBody (Some "2024-12-25") None None)
           (mkDb [Sample.table4]
              [Sample.booking "r1" "19:00:00" None "pending" None]
              [mkRestaurant "rx" (Some [mkHoliday "2024-12-25" true])] [])
           (Sample.booking "r1" "19:00:00" None "pending" None)
           (mkRestaurant "rx" (Some [mkHoliday "2024-12-25" true]))
           [mkHoliday "2024-12-25" true]);
    first [reflexivity | discriminate | (left; reflexivity)].
Defined.

(** ** Create, cancel and repeat, one after the other *)

Lemma create_on_free_slot (new_id : string) (u : User) (b : CreateBody)
  (db : Db) :
  required_create_fields b = true ->
  slot_rows None (Js.or_string (c_tableId b) "")
    (Js.or_string (c_date b) "") (Js.or_string (c_time b) "") db = [] ->
  exists r,
    createReservation new_id u b db =
    (ok 201 r,
     set_table_status (Js.or_string (c_tableId b) "") "pending"
       (with_reservations db (db_reservations db ++ [r])%list))
    /\ r_id r = new_id /\ r_user_id r = u_id u
    /\ r_restaurant_id r = Js.or_string (c_restaurantId b) ""
    /\ r_table_id r = Js.or_string (c_tableId b) ""
    /\ r_date r = Js.or_string (c_date b) ""
    /\ r_time r = Js.or_string (c_time b) ""
    /\ (r_status r = "pending" \/ r_status r = "confirmed").
Proof.
  intros Hreq Hfree. unfold required_create_fields in Hreq.
  rewrite !andb_true_iff in Hreq.
  destruct Hreq as [[[[H1 H2] H3] H4] H5].
  unfold createReservation. rewrite H1, H2, H3, H4, H5. cbn [negb orb].
  rewrite Hfree. cbn [Supabase.single]. eexists. split; [reflexivity|].
  cbn [r_id r_user_id r_restaurant_id r_table_id r_date r_time r_status].
  repeat split.
  destruct (Js.truthy_bool (c_depositPaid b)); auto.
Qed.

Lemma slot_rows_insert (tableId date time : string) (db : Db)
  (r : Reservation) (ts : string) :
  slot_rows None tableId date time
    (set_table_status ts "pending"
       (with_reservations db (db_reservations db ++ [r])%list)) =
  (slot_rows None tableId date time db
   ++ slot_rows None tableId date time (mkDb [] [r] [] []))%list.
Proof.
  unfold slot_rows. cbn [db_reservations set_table_status with_tables
                         with_reservations].
  apply filter_app.
Qed.

(** No double booking in sequence: after a create request is accepted on
    a slot that no reservation blocked, every further create request for
    the same table, date and time is answered 409 and changes nothing. *)
Theorem create_then_create_conflicts (id1 id2 : string) (u1 u2 : User)
  (b1 b2 : CreateBody) (db : Db) :
  required_create_fields b1 = true ->
  required_create_fields b2 = true ->
  create_slot b2 = create_slot b1 ->
  slot_rows None (Js.or_string (c_tableId b1) "")
    (Js.or_string (c_date b1) "") (Js.or_string (c_time b1) "") db = [] ->
  let '(res1, db1) := createReservation id1 u1 b1 db in
  res_status res1 = 201%nat
  /\ createReservation id2 u2 b2 db1 = (reject 409, db1).
Proof.
  intros Hb1 Hb2 Hslot Hfree.
  destruct (create_on_free_slot id1 u1 b1 db Hb1 Hfree)
    as (r & E & _ & _ & _ & Ht & Hd & Htm & Hs).
  rewrite E. split; [reflexivity|].
  unfold create_slot in Hslot. injection Hslot as S1 S2 S3.
  unfold required_create_fields in Hb2. rewrite !andb_true_iff in Hb2.
  destruct Hb2 as [[[[H1 H2] H3] H4] H5].
  unfold createReservation at 1. rewrite H1, H2, H3, H4, H5.
  cbn [negb orb]. rewrite S1, S2, S3, slot_rows_insert, Hfree.
  unfold slot_rows. cbn [db_reservations filter app].
  rewrite Ht, Hd, Htm, !String.eqb_refl.
  destruct Hs as [-> | ->]; reflexivity.
Qed.

Lemma create_then_create_conflicts_witness :
  let '(res1, db1) :=
    createReservation "r1" Sample.guest (Sample.create_body "19:00:00" 2)
      (Sample.store []) in
  res_status res1 = 201%nat
  /\ createReservation "r2" Sample.guest (Sample.create_body "19:00:00" 4)
       db1 = (reject 409, db1).
Proof.
  exact (create_then_create_conflicts "r1" "r2" Sample.guest Sample.guest
           (Sample.create_body "19:00:00" 2)
           (Sample.create_body "19:00:00" 4) (Sample.store [])
           eq_refl eq_refl eq_refl eq_refl).
Defined.

Lemma may_cancel_cancel_update (u : User) (reason : option string)
  (r : Reservation) :
  may_cancel u (cancel_update reason r) = may_cancel u r.
Proof. reflexivity. Qed.

Lemma cancel_accepted (u : User) (id : string) (reason : option string)
  (db : Db) (r : Reservation) :
  reservation_by_id id db = Some r ->
  may_cancel u r = true ->
  terminal (r_status r) = false ->
  cancelReservation u id reason db =
  (ok 200 tt,
   set_table_status (r_table_id r) "available"
     (update_reservation id (cancel_update reason) db)).
Proof.
  intros Hr Hm Ht. unfold cancelReservation. rewrite Hr.
  unfold may_cancel in Hm. apply andb_true_iff in Hm as [H1 H2].
  apply negb_true_iff in H1. apply negb_true_iff in H2.
  rewrite H1, H2. unfold terminal in Ht. rewrite Ht. reflexivity.
Qed.

(** Cancelling twice: the first request on a reservation that is not
    terminal is answered 200, marks it cancelled and sets its table
    available; the second is answered 400 and changes nothing. *)
Theorem cancel_then_cancel (u : User) (id : string)
  (reason reason' : option string) (db : Db) (r : Reservation) :
  reservation_by_id id db = Some r ->
  may_cancel u r = true ->
  terminal (r_status r) = false ->
  let '(res1, db1) := cancelReservation u id reason db in
  res1 = ok 200 tt
  /\ reservation_by_id id db1 = Some (cancel_update reason r)
  /\ (forall t, In t (db_tables db1) -> t_id t = r_table_id r ->
                t_status t = "available")
  /\ cancelReservation u id reason' db1 = (reject 400, db1).
Proof.
  intros Hr Hm Ht. rewrite (cancel_accepted u id reason db r Hr Hm Ht).
  assert (Hr1 : reservation_by_id id
                  (set_table_status (r_table_id r) "available"
                     (update_reservation id (cancel_update reason) db))
                = Some (cancel_update reason r)).
  { exact (reservation_by_id_update id (cancel_update reason) db r
             (fun x => eq_refl) Hr). }
  repeat split.
  - exact Hr1.
  - intros t. apply set_table_status_sets.
  - apply (cancel_route_refuses_terminal u id reason' _ _ Hr1);
      [exact Hm|reflexivity].
Qed.

Lemma cancel_then_cancel_witness :
  let '(res1, db1) :=
    cancelReservation Sample.guest "r1" None
      (Sample.store [Sample.booking "r1" "19:00:00" None "confirmed" None]) in
  res1 = ok 200 tt
  /\ cancelReservation Sample.guest "r1" (Some "again") db1
     = (reject 400, db1).
Proof.
  pose proof (cancel_then_cancel Sample.guest "r1" None (Some "again")
                (Sample.store
                   [Sample.booking "r1" "19:00:00" None "confirmed" None])
                (Sample.booking "r1" "19:00:00" None "confirmed" None)
                eq_refl eq_refl eq_refl) as H.
  destruct (cancelReservation Sample.guest "r1" None
              (Sample.store
                 [Sample.booking "r1" "19:00:00" None "confirmed" None]))
    as [res1 db1].
  destruct H as (H1 & _ & _ & H4). split; assumption.
Defined.

Lemma filter_nil_iff {A : Type} (p : A -> bool) (l : list A) :
  filter p l = [] <-> forall x, In x l -> p x = false.
Proof.
  induction l as [|y ys IH]; simpl; [tauto|].
  destruct (p y) eqn:E; split.
  - discriminate.
  - intros H. specialize (H y (or_introl eq_refl)). congruence.
  - intros H x [<-|Hx]; [exact E|]. apply IH; assumption.
  - intros H. apply IH. intros x Hx. apply H. right. exact Hx.
Qed.

Lemma reservation_by_id_insert (id ts st : string) (db : Db)
  (r : Reservation) :
  fresh_reservation_id id db -> r_id r = id ->
  reservation_by_id id
    (set_table_status ts st
       (with_reservations db (db_reservations db ++ [r])%list)) = Some r.
Proof.
  intros Hfresh Hid. unfold reservation_by_id.
  cbn [db_reservations set_table_status with_tables with_reservations].
  rewrite filter_app.
  assert (E : filter (fun x => r_id x =? id) (db_reservations db) = []).
  { apply filter_nil_iff. intros x Hx. apply String.eqb_neq.
    exact (Hfresh x Hx). }
  rewrite E. cbn [filter app]. rewrite Hid, String.eqb_refl. reflexivity.
Qed.

Lemma update_app {A : Type} (sel : A -> bool) (f : A -> A) (l1 l2 : list A) :
  Supabase.update sel f (l1 ++ l2)%list =
  (Supabase.update sel f l1 ++ Supabase.update sel f l2)%list.
Proof. unfold Supabase.update. apply map_app. Qed.

Lemma update_none {A : Type} (sel : A -> bool) (f : A -> A) (l : list A) :
  filter sel l = [] -> Supabase.update sel f l = l.
Proof.
  intros H. unfold Supabase.update.
  rewrite <- (map_id l) at 2. apply map_ext_in. intros x Hx.
  rewrite (proj1 (filter_nil_iff sel l) H x Hx). reflexivity.
Qed.

(** A cancellation frees the slot: when a create request is accepted on a
    slot that no reservation blocked and its reservation is then cancelled
    by its owner, a further create request for the same slot is accepted
    again. *)
Theorem create_cancel_create (id1 id2 : string) (u u2 : User)
  (b1 b2 : CreateBody) (reason : option string) (db : Db) :
  required_create_fields b1 = true ->
  required_create_fields b2 = true ->
  create_slot b2 = create_slot b1 ->
  slot_rows None (Js.or_string (c_tableId b1) "")
    (Js.or_string (c_date b1) "") (Js.or_string (c_time b1) "") db = [] ->
  fresh_reservation_id id1 db ->
  (u_role u =? "restaurant_admin") = false ->
  let db1 := snd (createReservation id1 u b1 db) in
  let '(res2, db2) := cancelReservation u id1 reason db1 in
  res2 = ok 200 tt
  /\ res_status (fst (createReservation id2 u2 b2 db2)) = 201%nat.
Proof.
  intros Hb1 Hb2 Hslot Hfree Hfresh Hrole.
  destruct (create_on_free_slot id1 u b1 db Hb1 Hfree)
    as (r & E & Hid & Hu & _ & Ht & Hd & Htm & Hs).
  rewrite E. cbn [snd].
  pose proof (reservation_by_id_insert id1
                (Js.or_string (c_tableId b1) "") "pending" db r Hfresh Hid)
    as Hr.
  assert (Hm : may_cancel u r = true).
  { unfold may_cancel. rewrite Hu, String.eqb_refl, Hrole. reflexivity. }
  assert (Hterm : terminal (r_status r) = false)
    by (destruct Hs as [-> | ->]; reflexivity).
  rewrite (cancel_accepted u id1 reason _ r Hr Hm Hterm).
  split; [reflexivity|].
  unfold create_slot in Hslot. injection Hslot as S1 S2 S3.
  assert (Hfree2 :
    slot_rows None (Js.or_string (c_tableId b2) "")
      (Js.or_string (c_date b2) "") (Js.or_string (c_time b2) "")
      (set_table_status (r_table_id r) "available"
         (update_reservation id1 (cancel_update reason)
            (set_table_status (Js.or_string (c_tableId b1) "") "pending"
               (with_reservations db (db_reservations db ++ [r])%list))))
    = []).
  { rewrite S1, S2, S3. unfold slot_rows.
    cbn [db_reservations set_table_status with_tables with_reservations
         update_reservation].
    rewrite update_app, filter_app.
    rewrite update_none
      by (apply filter_nil_iff; intros x Hx; apply String.eqb_neq;
          exact (Hfresh x Hx)).
    fold (slot_rows None (Js.or_string (c_tableId b1) "")
            (Js.or_string (c_date b1) "") (Js.or_string (c_time b1) "") db).
    rewrite Hfree. cbn [Supabase.update map app filter].
    rewrite Hid, String.eqb_refl.
    cbn [cancel_update r_table_id r_date r_time r_status].
    rewrite Ht, Hd, Htm, !String.eqb_refl. reflexivity. }
  destruct (create_on_free_slot id2 u2 b2 _ Hb2 Hfree2) as (r2 & E2 & _).
  rewrite E2. reflexivity.
Qed.

Lemma create_cancel_create_witness :
  let db1 :=
    snd (createReservation "r1" Sample.guest
           (Sample.create_body "19:00:00" 2) (Sample.store [])) in
  let '(res2, db2) := cancelReservation Sample.guest "r1" None db1 in
  res2 = ok 200 tt
  /\ res_status
       (fst (createReservation "r2" Sample.guest
               (Sample.create_body "19:00:00" 3) db2)) = 201%nat.
Proof.
  refine (create_cancel_create "r1" "r2" Sample.guest Sample.guest
            (Sample.create_body "19:00:00" 2)
            (Sample.create_body "19:00:00" 3) None (Sample.store [])
            eq_refl eq_refl eq_refl eq_refl _ eq_refl).
  intros x [].
Defined.

Lemma filter_and {A : Type} (p q : A -> bool) (l : list A) :
  filter (fun x => p x && q x) l = filter q (filter p l).
Proof.
  induction l as [|x xs IH]; simpl; [reflexivity|].
  destruct (p x); simpl; [destruct (q x)|]; rewrite IH; reflexivity.
Qed.

Lemma owned_original (u : User) (id : string) (db : Db) (r : Reservation) :
  reservation_by_id id db = Some r ->
  r_user_id r = u_id u ->
  Supabase.single
    (filter (fun x => (r_id x =? id) && (r_user_id x =? u_id u))
       (db_reservations db)) = Some r.
Proof.
  unfold reservation_by_id. intros Hr Hu. apply single_Some in Hr.
  rewrite filter_and, Hr. cbn [filter]. rewrite Hu, String.eqb_refl.
  reflexivity.
Qed.

(** The repeat route never touches the tables (where the create route sets
    the table pending) nor the rows the store already has: either it
    answers 400, 404 or 409 and the store is as it was, or it answers 201
    and the store is the one before with exactly one reservation added,
    the pending one the answer carries. *)
Theorem repeat_frame (new_id : string) (u : User) (id : string)
  (date time : option string) (db : Db) :
  let '(res, db') := repeatReservation new_id u id date time db in
  (In res [reject 400; reject 404; reject 409] /\ db' = db)
  \/ exists n,
       res = ok 201 n
       /\ db' = with_reservations db (db_reservations db ++ [n])%list
       /\ r_id n = new_id /\ r_status n = "pending".
Proof.
  unfold repeatReservation.
  destruct (negb (Js.truthy_string date) || negb (Js.truthy_string time)).
  { left. split; [left; reflexivity|reflexivity]. }
  destruct (Supabase.single (filter _ (db_reservations db))) as [o|].
  2:{ left. split; [right; left; reflexivity|reflexivity]. }
  destruct (Supabase.single (slot_rows _ _ _ _ db)).
  { left. split; [right; right; left; reflexivity|reflexivity]. }
  right. eexists. repeat split.
Qed.

Lemma repeat_on_free_slot (new_id : string) (u : User)
  (id date time : string) (db : Db) (r : Reservation) :
  reservation_by_id id db = Some r ->
  date <> "" -> time <> "" ->
  r_user_id r = u_id u ->
  slot_rows None (r_table_id r) date time db = [] ->
  exists n,
    repeatReservation new_id u id (Some date) (Some time) db
    = (ok 201 n, with_reservations db (db_reservations db ++ [n])%list)
    /\ r_id n = new_id /\ r_status n = "pending" /\ r_user_id n = u_id u
    /\ r_restaurant_id n = r_restaurant_id r
    /\ r_table_id n = r_table_id r /\ r_date n = date /\ r_time n = time
    /\ r_guest_count n = r_guest_count r /\ r_occasion n = r_occasion r
    /\ r_special_request n = r_special_request r.
Proof.
  intros Hr Hd Ht Hu Hfree. apply String.eqb_neq in Hd, Ht.
  unfold repeatReservation.
  cbn [Js.truthy_string Js.or_string]. rewrite Hd, Ht. cbn [negb orb].
  rewrite (owned_original u id db r Hr Hu), Hfree.
  cbn [Supabase.single]. eexists. split; [reflexivity|].
  cbn. repeat split.
Qed.

(** Repeating one's own reservation on a slot that no reservation blocks
    is answered 201 and adds to the store, as its last reservation and
    with nothing else changed, a pending reservation for the same
    restaurant and table with the party size, the occasion and the
    special request of the original; and a reservation of another user is
    answered 404 with the store as it was. *)
Theorem repeat_copies_original (new_id : string) (u : User)
  (id date time : string) (db : Db) (r : Reservation) :
  reservation_by_id id db = Some r ->
  date <> "" -> time <> "" ->
  (r_user_id r = u_id u ->
   slot_rows None (r_table_id r) date time db = [] ->
   exists n,
     repeatReservation new_id u id (Some date) (Some time) db
     = (ok 201 n, with_reservations db (db_reservations db ++ [n])%list)
     /\ r_id n = new_id /\ r_status n = "pending" /\ r_user_id n = u_id u
     /\ r_restaurant_id n = r_restaurant_id r
     /\ r_table_id n = r_table_id r /\ r_date n = date /\ r_time n = time
     /\ r_guest_count n = r_guest_count r /\ r_occasion n = r_occasion r
     /\ r_special_request n = r_special_request r)
  /\
  (r_user_id r <> u_id u ->
   repeatReservation new_id u id (Some date) (Some time) db
   = (reject 404, db)).
Proof.
  intros Hr Hd Ht. split.
  - intros Hu Hfree.
    exact (repeat_on_free_slot _ _ _ _ _ _ _ Hr Hd Ht Hu Hfree).
  - intros Hu. apply String.eqb_neq in Hd, Ht.
    unfold repeatReservation.
    cbn [Js.truthy_string Js.or_string]. rewrite Hd, Ht. cbn [negb orb].
    unfold reservation_by_id in Hr. apply single_Some in Hr.
    rewrite filter_and, Hr. cbn [filter].
    apply String.eqb_neq in Hu. rewrite Hu. reflexivity.
Qed.

Lemma repeat_copies_original_witness :
  (exists n,
     repeatReservation "r2" Sample.guest "r1" (Some "2024-06-08")
       (Some "19:00:00")
       (Sample.store
          [Sample.booking "r1" "19:00:00" None "completed"
             (Some "Window seat")])
     = (ok 201 n,
        Sample.store
          [Sample.booking "r1" "19:00:00" None "completed"
             (Some "Window seat"); n])
     /\ r_status n = "pending"
     /\ r_special_request n = Some "Window seat")
  /\
  repeatReservation "r2" (mkUser "u2" "customer" None) "r1"
    (Some "2024-06-08") (Some "19:00:00")
    (Sample.store
       [Sample.booking "r1" "19:00:00" None "completed"
          (Some "Window seat")]) =
  (reject 404,
   Sample.store
     [Sample.booking "r1" "19:00:00" None "completed" (Some "Window seat")]).
Proof.
  split.
  - destruct (proj1 (repeat_copies_original "r2" Sample.guest "r1"
                       "2024-06-08" "19:00:00"
                       (Sample.store
                          [Sample.booking "r1" "19:00:00" None "completed"
                             (Some "Window seat")])
                       (Sample.booking "r1" "19:00:00" None "completed"
                          (Some "Window seat"))
                       eq_refl ltac:(discriminate) ltac:(discriminate))
                eq_refl eq_refl)
      as (n & E & _ & S & _ & _ & _ & _ & _ & _ & _ & Q).
    exists n. split; [exact E|]. split; [exact S|exact Q].
  - apply (proj2 (repeat_copies_original "r2" (mkUser "u2" "customer" None)
                    "r1" "2024-06-08" "19:00:00"
                    (Sample.store
                       [Sample.booking "r1" "19:00:00" None "completed"
                          (Some "Window seat")])
                    (Sample.booking "r1" "19:00:00" None "completed"
                       (Some "Window seat"))
                    eq_refl ltac:(discriminate) ltac:(discriminate))).
    discriminate.
Defined.

(** The cancellation note travels: when a user cancels a reservation and
    then repeats it on a free slot, the special request of the new
    reservation is the one of the original with the cancellation note
    appended, not the one the guest wrote. *)
Theorem cancel_then_repeat_carries_note (new_id : string) (u : User)
  (id date time : string) (reason : option string) (db : Db)
  (r : Reservation) :
  reservation_by_id id db = Some r ->
  r_user_id r = u_id u ->
  (u_role u =? "restaurant_admin") = false ->
  terminal (r_status r) = false ->
  date <> "" -> time <> "" ->
  let db1 := snd (cancelReservation u id reason db) in
  slot_rows None (r_table_id r) date time db1 = [] ->
  exists n,
    fst (repeatReservation new_id u id (Some date) (Some time) db1)
    = ok 201 n
    /\ r_special_request n = r_special_request (cancel_update reason r)
    /\ r_special_request n <> r_special_request r.
Proof.
  intros Hr Hu Hrole Hterm Hd Ht.
  assert (Hm : may_cancel u r = true).
  { unfold may_cancel. rewrite Hu, String.eqb_refl, Hrole. reflexivity. }
  rewrite (cancel_accepted u id reason db r Hr Hm Hterm). cbn [snd].
  intros Hfree.
  pose proof (reservation_by_id_update id (cancel_update reason) db r
                (fun x => eq_refl) Hr) as Hr1.
  destruct (repeat_on_free_slot new_id u id date time
              (set_table_status (r_table_id r) "available"
                 (update_reservation id (cancel_update reason) db))
              (cancel_update reason r) Hr1 Hd Ht Hu Hfree)
    as (n & E & _ & _ & _ & _ & _ & _ & _ & _ & _ & Q).
  exists n. split; [rewrite E; reflexivity|]. split; [exact Q|].
  rewrite Q. apply cancel_update_rewrites_special_request.
Qed.

Lemma cancel_then_repeat_carries_note_witness :
  exists n,
    fst (repeatReservation "r2" Sample.guest "r1" (Some "2024-06-08")
           (Some "19:00:00")
           (snd (cancelReservation Sample.guest "r1" (Some "Plans changed")
                   (Sample.store
                      [Sample.booking "r1" "19:00:00" None "confirmed"
                         (Some "Window seat")])))) = ok 201 n
    /\ r_special_request n
       = Some ("Window seat" ++ newline ++ newline
               ++ "[Cancelled: Plans changed]").
Proof.
  destruct (cancel_then_repeat_carries_note "r2" Sample.guest "r1"
              "2024-06-08" "19:00:00" (Some "Plans changed")
              (Sample.store
                 [Sample.booking "r1" "19:00:00" None "confirmed"
                    (Some "Window seat")])
              (Sample.booking "r1" "19:00:00" None "confirmed"
                 (Some "Window seat"))
              eq_refl eq_refl eq_refl eq_refl
              ltac:(discriminate) ltac:(discriminate) eq_refl)
    as (n & E & Q & _).
  exists n. split; [exact E|exact Q].
Defined.

(** ** Arrive, complete and no-show *)

Lemma single_None_filter {A : Type} (p : A -> bool) (l : list A) :
  (forall x, In x l -> p x = false) -> Supabase.single (filter p l) = None.
Proof.
  intros H. rewrite (proj2 (filter_nil_iff p l) H). reflexivity.
Qed.

(** Who is not super_admin, has no active staff row at the restaurant and
    is not its owner is refused by the three routes with 403, the store
    unchanged; this includes the guest who owns the reservation. *)
Theorem outsider_cannot_arrive_complete_no_show (dir : Directory) (u : User)
  (id : string) (db : Db) (r : Reservation) :
  reservation_by_id id db = Some r ->
  u_role u <> "super_admin" ->
  (forall s, In s (dir_staff dir) -> s_user_id s = u_id u ->
             s_restaurant_id s = r_restaurant_id r ->
             s_is_active s = false) ->
  dir_owner_id dir (r_restaurant_id r) <> Some (u_id u) ->
  arriveReservation dir u id db = (reject 403, db)
  /\ completeReservationHandler dir u id db = (reject 403, db)
  /\ noShowReservationHandler dir u id db = (reject 403, db).
Proof.
  intros Hr Hrole Hstaff Howner.
  assert (Hm : may_manage dir u (r_restaurant_id r) db = false).
  { unfold may_manage. apply String.eqb_neq in Hrole. rewrite Hrole.
    unfold staffRecord. rewrite single_None_filter.
    - unfold owner_id.
      destruct (restaurant_by_id (r_restaurant_id r) db); [|reflexivity].
      destruct (dir_owner_id dir (r_restaurant_id r)) as [o|];
        [|reflexivity].
      destruct (String.eqb_spec o (u_id u)) as [->|]; [|reflexivity].
      contradiction.
    - intros s Hs.
      destruct (String.eqb_spec (s_user_id s) (u_id u)) as [E1|];
        [|reflexivity].
      destruct (String.eqb_spec (s_restaurant_id s) (r_restaurant_id r))
        as [E2|]; [|reflexivity].
      rewrite (Hstaff s Hs E1 E2). reflexivity. }
  unfold arriveReservation, completeReservationHandler,
    noShowReservationHandler.
  rewrite Hr, Hm. auto.
Qed.

Lemma outsider_cannot_arrive_complete_no_show_witness :
  completeReservationHandler
    (mkDirectory [mkStaffRecord "u7" "rx" true] (fun _ => Some "u8"))
    Sample.guest "r1"
    (Sample.store [Sample.booking "r1" "19:00:00" None "arrived" None]) =
  (reject 403,
   Sample.store [Sample.booking "r1" "19:00:00" None "arrived" None]).
Proof.
  refine (proj1 (proj2
            (outsider_cannot_arrive_complete_no_show
               (mkDirectory [mkStaffRecord "u7" "rx" true]
                  (fun _ => Some "u8"))
               Sample.guest "r1"
               (Sample.store
                  [Sample.booking "r1" "19:00:00" None "arrived" None])
               (Sample.booking "r1" "19:00:00" None "arrived" None)
               eq_refl _ _ _))).
  - discriminate.
  - intros s [<-|[]] E. discriminate.
  - discriminate.
Defined.

Lemma reservation_by_id_set_table_status (id tableId status : string)
  (db : Db) :
  reservation_by_id id (set_table_status tableId status db)
  = reservation_by_id id db.
Proof. reflexivity. Qed.

Lemma update_keeps_others (id : string) (f : Reservation -> Reservation)
  (db : Db) (x : Reservation) :
  In x (db_reservations db) -> r_id x <> id ->
  In x (db_reservations (update_reservation id f db)).
Proof.
  intros Hin Hne. unfold update_reservation, Supabase.update.
  cbn [db_reservations with_reservations].
  apply in_map_iff. exists x. split; [|exact Hin].
  apply String.eqb_neq in Hne. rewrite Hne. reflexivity.
Qed.

(** For a caller who may manage the restaurant, each of the three routes
    is answered 200 whatever the current status of the reservation, and
    reservation and table agree afterwards: arrived goes with an occupied
    table, completed and no_show with an available one; the other
    reservations stay as they are. *)
Theorem arrive_complete_no_show_effect (dir : Directory) (u : User)
  (id : string) (db : Db) (r : Reservation) :
  reservation_by_id id db = Some r ->
  may_manage dir u (r_restaurant_id r) db = true ->
  r_table_id r <> "" ->
  let outcome handler status tableStatus :=
    fst (handler dir u id db) = ok 200 (set_status status r)
    /\ reservation_by_id id (snd (handler dir u id db))
       = Some (set_status status r)
    /\ (forall t, In t (db_tables (snd (handler dir u id db))) ->
                  t_id t = r_table_id r -> t_status t = tableStatus)
    /\ (forall x, In x (db_reservations db) -> r_id x <> id ->
                  In x (db_reservations (snd (handler dir u id db)))) in
  outcome arriveReservation "arrived" "occupied"
  /\ outcome completeReservationHandler "completed" "available"
  /\ outcome noShowReservationHandler "no_show" "available".
Proof.
  intros Hr Hm Ht. cbv zeta. apply String.eqb_neq in Ht.
  unfold arriveReservation, completeReservationHandler,
    noShowReservationHandler.
  rewrite Hr, Hm, Ht. cbn [negb fst snd set_status r_table_id].
  repeat split;
    first
      [ reflexivity
      | rewrite reservation_by_id_set_table_status;
        apply reservation_by_id_update; [reflexivity|exact Hr]
      | intros t; apply set_table_status_sets
      | intros x; apply update_keeps_others ].
Qed.

Lemma arrive_complete_no_show_effect_witness :
  map r_status
    (db_reservations
       (snd (completeReservationHandler
               (mkDirectory [mkStaffRecord "u7" "rx" true] (fun _ => None))
               (mkUser "u7" "staff" None) "r1"
               (Sample.store
                  [Sample.booking "r1" "19:00:00" None "arrived" None]))))
  = ["completed"]
  /\ reservation_by_id "r1"
       (snd (completeReservationHandler
               (mkDirectory [mkStaffRecord "u7" "rx" true] (fun _ => None))
               (mkUser "u7" "staff" None) "r1"
               (Sample.store
                  [Sample.booking "r1" "19:00:00" None "arrived" None])))
     = Some (Sample.booking "r1" "19:00:00" None "completed" None).
Proof.
  split; [reflexivity|].
  refine (proj1 (proj2 (proj1 (proj2
            (arrive_complete_no_show_effect
               (mkDirectory [mkStaffRecord "u7" "rx" true] (fun _ => None))
               (mkUser "u7" "staff" None) "r1"
               (Sample.store
                  [Sample.booking "r1" "19:00:00" None "arrived" None])
               (Sample.booking "r1" "19:00:00" None "arrived" None)
               eq_refl eq_refl _))))).
  discriminate.
Defined.

(** ** Time slots *)

Lemma fits_filter (id : string) (n : Z) (db : Db) (t : Table) :
  In t (filter (fun t =>
                  (t_restaurant_id t =? id) && (n <=? t_capacity t)%Z
                  && t_is_active t) (db_tables db))
  <-> fits id n db t.
Proof.
  unfold fits. rewrite filter_In, !andb_true_iff, String.eqb_eq, Z.leb_le.
  tauto.
Qed.

(** For a request with a date and a party size that parseInt reads as a
    safe integer, the route answers 200 with the standard slots, in their
    order, for which some fitting table has no reservation of the
    restaurant on that date whose time text is the slot text and whose
    status is other than cancelled and no_show; with no fitting table the
    list is empty. *)
Theorem timeslots_offered (id date guests : string) (n : Z) (db : Db) :
  date <> "" -> guests <> "" ->
  parseInt guests = Js.Num n -> safe_integer n ->
  exists slots,
    timeslots id (Some date) (Some guests) db = (ok 200 slots, db)
    /\ forall slot,
         In slot slots <->
         (In slot allTimeSlots
          /\ exists t, fits id n db t
                       /\ ~ exists r, takes id date slot db t r).
Proof.
  intros Hd Hg Hn _. unfold timeslots.
  apply String.eqb_neq in Hd, Hg.
  cbn [Js.truthy_string Js.or_string]. rewrite Hd, Hg. cbn [negb orb].
  rewrite Hn.
  set (tables := filter _ (db_tables db)).
  assert (Hfit : forall t, In t tables <-> fits id n db t)
    by (intros t; apply fits_filter).
  destruct tables as [|t0 ts] eqn:Et.
  { exists []. split; [reflexivity|]. intros slot. split; [intros []|].
    intros (_ & t & Ht & _). apply Hfit in Ht. destruct Ht. }
  rewrite <- Et in *. clear Et t0 ts.
  eexists. split; [reflexivity|]. intros slot.
  rewrite filter_In, existsb_exists. split.
  - intros (Hs & tid & Htid & Hfree). split; [exact Hs|].
    apply in_map_iff in Htid as (t & <- & Ht).
    exists t. split; [apply Hfit; exact Ht|].
    intros (r & Hr & R1 & R2 & R3 & R4 & R5 & R6).
    apply negb_true_iff in Hfree.
    assert (Hinc : Js.includes
                     (map r_table_id
                        (filter (fun r => r_time r =? slot)
                           (filter (fun r =>
                                      (r_restaurant_id r =? id)
                                      && (r_date r =? date)
                                      && Supabase.not_in
                                           ["cancelled"; "no_show"]
                                           (r_status r))
                                   (db_reservations db))))
                     (t_id t) = true).
    { apply includes_true, in_map_iff. exists r. split; [exact R4|].
      apply filter_In. split; [|apply String.eqb_eq; exact R3].
      apply filter_In. split; [exact Hr|].
      unfold Supabase.not_in. cbn [Js.includes existsb].
      apply String.eqb_neq in R5, R6. rewrite R5, R6, R1, R2.
      rewrite !String.eqb_refl. reflexivity. }
    congruence.
  - intros (Hs & t & Ht & Hfree). split; [exact Hs|].
    exists (t_id t). split; [apply in_map, Hfit; exact Ht|].
    apply negb_true_iff.
    destruct (Js.includes _ (t_id t)) eqn:Hinc; [exfalso|reflexivity].
    apply includes_true, in_map_iff in Hinc as (r & R4 & Hf).
    apply filter_In in Hf as [Hf R3]. apply String.eqb_eq in R3.
    apply filter_In in Hf as [Hr Hp].
    unfold Supabase.not_in in Hp. cbn [Js.includes existsb] in Hp.
    rewrite !andb_true_iff, negb_true_iff, !orb_false_iff in Hp.
    rewrite !String.eqb_eq, !String.eqb_neq in Hp.
    apply Hfree. exists r. unfold takes. tauto.
Qed.

Lemma timeslots_offered_witness :
  exists slots,
    timeslots "rx" (Some "2024-06-01") (Some "2")
      (Sample.store [Sample.booking "r1" "19:00" None "confirmed" None]) =
    (ok 200 slots,
     Sample.store [Sample.booking "r1" "19:00" None "confirmed" None])
    /\ In "19:30" slots /\ ~ In "19:00" slots.
Proof.
  destruct (timeslots_offered "rx" "2024-06-01" "2" 2
              (Sample.store
                 [Sample.booking "r1" "19:00" None "confirmed" None]))
    as (slots & E & H);
    try (unfold safe_integer; lia); try discriminate; try reflexivity.
  exists slots. split; [exact E|]. split.
  - apply H. split; [cbn; tauto|].
    exists Sample.table4. split.
    + unfold fits. cbn. repeat split; try tauto; lia.
    + intros (r & [<-|[]] & _ & _ & T & _). discriminate.
  - intros Hin. apply H in Hin as (_ & t & (Ht & _) & Hfree).
    destruct Ht as [<-|[]]. apply Hfree.
    exists (Sample.booking "r1" "19:00" None "confirmed" None).
    unfold takes. cbn. repeat split; try tauto; discriminate.
Defined.

Lemma well_formed_time_length (s : string) :
  well_formed_time s = true -> String.length s = 8%nat.
Proof.
  intros H. apply well_formed_time_spec in H as [_ ->]. reflexivity.
Qed.

Lemma filter_all {A : Type} (p : A -> bool) (l : list A) :
  (forall x, In x l -> p x = true) -> filter p l = l.
Proof.
  induction l as [|x xs IH]; simpl; intros H; [reflexivity|].
  rewrite (H x (or_introl eq_refl)), IH; [reflexivity|].
  intros y Hy. apply H. right. exact Hy.
Qed.

(** The route compares the time text of a reservation with the slot text
    [HH:MM].  When the store keeps its times as [HH:MM:SS], as the status
    service reads them, no reservation ever matches a slot: as soon as one
    table fits the party, every standard slot is offered, whatever is
    booked. *)
Theorem timeslots_ignore_seconds_form (id date guests : string) (n : Z)
  (db : Db) (t : Table) :
  date <> "" -> guests <> "" ->
  parseInt guests = Js.Num n -> safe_integer n ->
  Forall timed (db_reservations db) ->
  fits id n db t ->
  timeslots id (Some date) (Some guests) db = (ok 200 allTimeSlots, db).
Proof.
  intros Hd Hg Hn _ Hwf Ht. unfold timeslots.
  apply String.eqb_neq in Hd, Hg.
  cbn [Js.truthy_string Js.or_string]. rewrite Hd, Hg. cbn [negb orb].
  rewrite Hn.
  set (tables := filter _ (db_tables db)).
  assert (Hin : In t tables) by (apply fits_filter; exact Ht).
  destruct tables as [|t0 ts] eqn:Et; [destruct Hin|].
  f_equal. f_equal. apply filter_all. intros slot Hs.
  set (reservations := filter _ (db_reservations db)).
  assert (E : filter (fun r => r_time r =? slot) reservations = []).
  { apply filter_nil_iff. intros r Hr. apply String.eqb_neq. intros Heq.
    apply filter_In in Hr as [Hr _].
    rewrite Forall_forall in Hwf.
    pose proof (well_formed_time_length _ (Hwf r Hr)) as Hlen.
    rewrite Heq in Hlen.
    assert (H5 : Forall (fun s => String.length s = 5%nat) allTimeSlots)
      by (repeat constructor).
    rewrite Forall_forall in H5. rewrite (H5 slot Hs) in Hlen.
    discriminate. }
  rewrite E. reflexivity.
Qed.

Lemma timeslots_ignore_seconds_form_witness :
  timeslots "rx" (Some "2024-06-01") (Some "2")
    (Sample.store [Sample.booking "r1" "19:00:00" None "confirmed" None]) =
  (ok 200 allTimeSlots,
   Sample.store [Sample.booking "r1" "19:00:00" None "confirmed" None]).
Proof.
  refine (timeslots_ignore_seconds_form "rx" "2024-06-01" "2" 2
            (Sample.store
               [Sample.booking "r1" "19:00:00" None "confirmed" None])
            Sample.table4 _ _ eq_refl _ _ _);
    try (unfold safe_integer; lia); try discriminate.
  - repeat constructor.
  - unfold fits. cbn. repeat split; try tauto; lia.
Defined.

(** ** The waitlist *)

Lemma join_accepted (default_status new_id : string) (user : option User)
  (b : JoinBody) (db : Db) :
  required_join_fields b = true ->
  restaurant_by_id (Js.or_string (j_restaurantId b) "") db <> None ->
  active_entries (Js.or_string (j_restaurantId b) "")
    (Js.or_string (j_phone b) "") db = [] ->
  exists e,
    joinWaitlist default_status new_id user b db =
    (ok 201 e, with_waitlist db (db_waitlist db ++ [e])%list)
    /\ w_id e = new_id
    /\ w_restaurant_id e = Js.or_string (j_restaurantId b) ""
    /\ w_phone e = Js.or_string (j_phone b) ""
    /\ w_status e = default_status
    /\ w_position e
       = Some (queue_length (Js.or_string (j_restaurantId b) "") db + 1)
    /\ w_estimated_wait e
       = (queue_length (Js.or_string (j_restaurantId b) "") db + 1) * 15.
Proof.
  intros Hreq Hrest Hnone.
  unfold required_join_fields in Hreq. rewrite !andb_true_iff in Hreq.
  destruct Hreq as [[[H1 H2] H3] H4].
  unfold joinWaitlist. rewrite H1, H2, H3, H4. cbn [negb orb].
  destruct (restaurant_by_id _ db); [|contradiction].
  fold (active_entries (Js.or_string (j_restaurantId b) "")
          (Js.or_string (j_phone b) "") db).
  rewrite Hnone. cbn [Supabase.single]. eexists. split; [reflexivity|].
  cbn. repeat split.
Qed.

Lemma length_filter_le {A : Type} (p q : A -> bool) (l : list A) :
  (forall x, p x = true -> q x = true) ->
  (List.length (filter p l) <= List.length (filter q l))%nat.
Proof.
  intros H. induction l as [|x xs IH]; simpl; [lia|].
  destruct (p x) eqn:E.
  - rewrite (H x E). simpl. lia.
  - destruct (q x); simpl; lia.
Qed.

(** Right after a join is accepted, the status route finds the new entry
    and recomputes a position that is at least 1 and never beyond the
    position the join returned, with an estimated wait of 15 minutes per
    position, never beyond the estimate of the join. *)
Theorem join_then_status (default_status new_id : string)
  (user : option User) (b : JoinBody) (db : Db) :
  required_join_fields b = true ->
  restaurant_by_id (Js.or_string (j_restaurantId b) "") db <> None ->
  active_entries (Js.or_string (j_restaurantId b) "")
    (Js.or_string (j_phone b) "") db = [] ->
  fresh_waitlist_id new_id db ->
  let '(res, db1) := joinWaitlist default_status new_id user b db in
  exists e s p,
    res = ok 201 e /\ w_position e = Some p
    /\ waitlistStatus new_id db1 = (ok 200 s, db1)
    /\ ws_entry s = e
    /\ 1 <= ws_currentPosition s <= p
    /\ ws_estimatedWait s = ws_currentPosition s * 15
    /\ ws_estimatedWait s <= w_estimated_wait e.
Proof.
  intros Hreq Hrest Hnone Hfresh.
  destruct (join_accepted default_status new_id user b db Hreq Hrest Hnone)
    as (e & E & Hid & Hr & _ & _ & Hp & Hw).
  rewrite E.
  set (rid := Js.or_string (j_restaurantId b) "") in *.
  exists e.
  set (P := fun w => (w_restaurant_id w =? w_restaurant_id e)
                     && Js.includes ["waiting"; "notified"] (w_status w)
                     && position_lt w (w_position e)).
  exists (mkWaitlistStatus e
            (Z.of_nat (List.length (filter P (db_waitlist db))) + 1)
            ((Z.of_nat (List.length (filter P (db_waitlist db))) + 1) * 15)).
  exists (queue_length rid db + 1).
  assert (Hlen : (List.length (filter P (db_waitlist db))
                  <= Z.to_nat (queue_length rid db))%nat).
  { unfold queue_length. rewrite Nat2Z.id.
    apply length_filter_le. intros w Hw'. unfold P in Hw'.
    rewrite !andb_true_iff in Hw'. destruct Hw' as [[H1 H2] _].
    rewrite Hr in H1. rewrite H1, H2. reflexivity. }
  assert (Hq : 0 <= queue_length rid db)
    by (unfold queue_length; lia).
  split; [reflexivity|]. split; [exact Hp|]. split.
  - unfold waitlistStatus. cbn [db_waitlist with_waitlist].
    rewrite filter_app.
    assert (E0 : filter (fun w => w_id w =? new_id) (db_waitlist db) = []).
    { apply filter_nil_iff. intros w Hw'. apply String.eqb_neq.
      exact (Hfresh w Hw'). }
    rewrite E0. cbn [filter app]. rewrite Hid, String.eqb_refl.
    fold P. rewrite filter_app. cbn [filter].
    assert (EP : P e = false).
    { unfold P, position_lt. rewrite Hp, Z.ltb_irrefl, andb_false_r.
      reflexivity. }
    rewrite EP, app_nil_r. reflexivity.
  - cbn [ws_entry ws_currentPosition ws_estimatedWait].
    rewrite Hw. repeat split; lia.
Qed.

Lemma join_then_status_witness :
  let '(res, db1) :=
    joinWaitlist "waiting" "w2" None (Sample.join_body "555-0199")
      (Sample.queue [Sample.waiting "w1" "555-0100" "seated"]) in
  exists e s p,
    res = ok 201 e /\ w_position e = Some p
    /\ waitlistStatus "w2" db1 = (ok 200 s, db1)
    /\ ws_entry s = e
    /\ 1 <= ws_currentPosition s <= p
    /\ ws_estimatedWait s = ws_currentPosition s * 15
    /\ ws_estimatedWait s <= w_estimated_wait e.
Proof.
  refine (join_then_status "waiting" "w2" None (Sample.join_body "555-0199")
            (Sample.queue [Sample.waiting "w1" "555-0100" "seated"])
            eq_refl _ eq_refl _).
  - discriminate.
  - intros w [<-|[]]. discriminate.
Defined.

Lemma leave_accepted (user : option User) (id : string)
  (phone : option string) (db : Db) (e : WaitlistEntry) :
  waitlist_by_id id db = Some e ->
  may_leave user phone e = true ->
  leaveWaitlist user id phone db = (ok 200 tt, update_waitlist id leave_update db).
Proof.
  intros He Hm. unfold leaveWaitlist. rewrite He. unfold may_leave in Hm.
  destruct user as [u|].
  - apply negb_true_iff in Hm. rewrite Hm. reflexivity.
  - apply andb_true_iff in Hm as [H1 H2]. rewrite H1, H2. reflexivity.
Qed.

Lemma waitlist_by_id_update (id : string)
  (f : WaitlistEntry -> WaitlistEntry) (db : Db) (e : WaitlistEntry) :
  (forall x, w_id (f x) = w_id x) ->
  waitlist_by_id id db = Some e ->
  waitlist_by_id id (update_waitlist id f db) = Some (f e).
Proof.
  unfold waitlist_by_id, update_waitlist. intros Hid H.
  apply single_Some in H. cbn [db_waitlist with_waitlist].
  rewrite filter_update_same
    by (intros x; cbv beta; rewrite Hid; reflexivity).
  rewrite H. reflexivity.
Qed.

Lemma update_idempotent {A : Type} (sel : A -> bool) (f : A -> A)
  (l : list A) :
  (forall x, sel (f x) = sel x) -> (forall x, f (f x) = f x) ->
  Supabase.update sel f (Supabase.update sel f l) = Supabase.update sel f l.
Proof.
  intros Hs Hf. unfold Supabase.update. rewrite map_map.
  apply map_ext. intros x. destruct (sel x) eqn:E.
  - rewrite Hs, E. apply Hf.
  - rewrite E. reflexivity.
Qed.

(** Leaving is a soft cancel and can be repeated: for a caller who owns
    the entry (by user id, or by phone when not signed in) the route
    answers 200, deletes no row and marks the entry cancelled; a second
    request is answered 200 again and changes nothing more. *)
Theorem leave_is_soft_and_repeatable (user : option User) (id : string)
  (phone : option string) (db : Db) (e : WaitlistEntry) :
  waitlist_by_id id db = Some e ->
  may_leave user phone e = true ->
  let '(res, db1) := leaveWaitlist user id phone db in
  res = ok 200 tt
  /\ List.length (db_waitlist db1) = List.length (db_waitlist db)
  /\ (exists e1, waitlist_by_id id db1 = Some e1
                 /\ w_status e1 = "cancelled"
                 /\ w_position e1 = w_position e
                 /\ w_phone e1 = w_phone e)
  /\ leaveWaitlist user id phone db1 = (ok 200 tt, db1).
Proof.
  intros He Hm. rewrite (leave_accepted user id phone db e He Hm).
  pose proof (waitlist_by_id_update id leave_update db e
                (fun x => eq_refl) He) as He1.
  repeat split.
  - unfold update_waitlist, Supabase.update.
    cbn [db_waitlist with_waitlist]. apply length_map.
  - exists (leave_update e). repeat split. exact He1.
  - rewrite (leave_accepted user id phone _ (leave_update e) He1)
      by exact Hm.
    f_equal. unfold update_waitlist. cbn [db_waitlist with_waitlist].
    rewrite update_idempotent by reflexivity. reflexivity.
Qed.

Lemma leave_is_soft_and_repeatable_witness :
  let '(res, db1) :=
    leaveWaitlist None "w1" (Some "555-0100")
      (Sample.queue [Sample.waiting "w1" "555-0100" "waiting"]) in
  res = ok 200 tt
  /\ map w_status (db_waitlist db1) = ["cancelled"]
  /\ leaveWaitlist None "w1" (Some "555-0100") db1 = (ok 200 tt, db1).
Proof.
  pose proof (leave_is_soft_and_repeatable None "w1" (Some "555-0100")
                (Sample.queue [Sample.waiting "w1" "555-0100" "waiting"])
                (Sample.waiting "w1" "555-0100" "waiting")
                eq_refl eq_refl) as H.
  destruct (leaveWaitlist None "w1" (Some "555-0100")
              (Sample.queue [Sample.waiting "w1" "555-0100" "waiting"]))
    as [res db1] eqn:E.
  destruct H as (H1 & _ & _ & H4).
  split; [exact H1|]. split; [|exact H4].
  injection E as _ <-. reflexivity.
Defined.

Lemma filter_update_gone {A : Type} (sel P : A -> bool) (f : A -> A)
  (l : list A) (e : A) :
  filter sel l = [e] -> filter P l = [e] ->
  (forall x, P (f x) = false) ->
  filter P (Supabase.update sel f l) = [].
Proof.
  intros Hsel HP Hf. apply filter_nil_iff. intros y Hy.
  unfold Supabase.update in Hy. apply in_map_iff in Hy as (x & <- & Hx).
  destruct (sel x) eqn:Es; [apply Hf|].
  destruct (P x) eqn:Ep; [exfalso|reflexivity].
  assert (Hin : In x (filter P l)) by (apply filter_In; auto).
  rewrite HP in Hin. destruct Hin as [<-|[]].
  assert (Hin : In e (filter sel l)) by (rewrite Hsel; left; reflexivity).
  apply filter_In in Hin as [_ Hin]. congruence.
Qed.

(** Leaving frees the phone: while the phone has its one waiting, notified
    or confirmed entry at the restaurant a join is answered 400; once that
    entry has left with its phone, the same join is accepted. *)
Theorem leave_then_join (default_status new_id : string) (b : JoinBody)
  (db : Db) (e : WaitlistEntry) :
  required_join_fields b = true ->
  restaurant_by_id (Js.or_string (j_restaurantId b) "") db <> None ->
  active_entries (Js.or_string (j_restaurantId b) "")
    (Js.or_string (j_phone b) "") db = [e] ->
  waitlist_by_id (w_id e) db = Some e ->
  joinWaitlist default_status new_id None b db = (reject 400, db)
  /\
  let '(res1, db1) := leaveWaitlist None (w_id e) (j_phone b) db in
  res1 = ok 200 tt
  /\ res_status (fst (joinWaitlist default_status new_id None b db1))
     = 201%nat.
Proof.
  intros Hreq Hrest Hact He.
  pose proof Hreq as Hreq'.
  unfold required_join_fields in Hreq'. rewrite !andb_true_iff in Hreq'.
  destruct Hreq' as [[[H1 H2] H3] H4].
  split.
  - unfold joinWaitlist. rewrite H1, H2, H3, H4. cbn [negb orb].
    destruct (restaurant_by_id _ db); [|contradiction].
    fold (active_entries (Js.or_string (j_restaurantId b) "")
            (Js.or_string (j_phone b) "") db).
    rewrite Hact. reflexivity.
  - assert (Hphone : w_phone e = Js.or_string (j_phone b) "").
    { assert (Hin : In e (active_entries
                            (Js.or_string (j_restaurantId b) "")
                            (Js.or_string (j_phone b) "") db))
        by (rewrite Hact; left; reflexivity).
      unfold active_entries in Hin. apply filter_In in Hin as [_ Hp].
      rewrite !andb_true_iff in Hp. destruct Hp as [[_ Hp] _].
      apply String.eqb_eq. exact Hp. }
    assert (Hm : may_leave None (j_phone b) e = true).
    { unfold may_leave. rewrite H3, Hphone, String.eqb_refl. reflexivity. }
    rewrite (leave_accepted None (w_id e) (j_phone b) db e He Hm).
    split; [reflexivity|].
    assert (Hnone : active_entries (Js.or_string (j_restaurantId b) "")
                      (Js.or_string (j_phone b) "")
                      (update_waitlist (w_id e) leave_update db) = []).
    { unfold active_entries, update_waitlist.
      cbn [db_waitlist with_waitlist].
      unfold waitlist_by_id in He. apply single_Some in He.
      apply (filter_update_gone _ _ _ _ e He Hact).
      intros x. cbn. rewrite andb_false_r. reflexivity. }
    destruct (join_accepted default_status new_id None b
                (update_waitlist (w_id e) leave_update db) Hreq Hrest Hnone)
      as (n & E & _).
    rewrite E. reflexivity.
Qed.

Lemma leave_then_join_witness :
  joinWaitlist "waiting" "w2" None (Sample.join_body "555-0100")
    (Sample.queue [Sample.waiting "w1" "555-0100" "notified"])
  = (reject 400, Sample.queue [Sample.waiting "w1" "555-0100" "notified"])
  /\
  res_status
    (fst (joinWaitlist "waiting" "w2" None (Sample.join_body "555-0100")
            (snd (leaveWaitlist None "w1" (Some "555-0100")
                    (Sample.queue
                       [Sample.waiting "w1" "555-0100" "notified"])))))
  = 201%nat.
Proof.
  pose proof (leave_then_join "waiting" "w2" (Sample.join_body "555-0100")
                (Sample.queue [Sample.waiting "w1" "555-0100" "notified"])
                (Sample.waiting "w1" "555-0100" "notified")
                eq_refl ltac:(discriminate) eq_refl eq_refl) as [H1 H2].
  split; [exact H1|].
  cbn [w_id Sample.waiting Sample.join_body j_phone] in H2.
  destruct (leaveWaitlist None "w1" (Some "555-0100")
              (Sample.queue [Sample.waiting "w1" "555-0100" "notified"]))
    as [res1 db1].
  exact (proj2 H2).
Defined.

(** ** Staff updates of the waitlist *)

(** For a caller who may manage the restaurant of the entry: a status
    outside notified, seated, cancelled, no_show and confirmed (waiting
    among them) is answered 400 and changes nothing; seating the entry
    with a table clears its position, keeps the rest of the entry and sets
    that table occupied. *)
Theorem staff_seats_waitlist_entry (dir : Directory) (u : User)
  (id tableId : string) (db : Db) (e : WaitlistEntry) :
  waitlist_by_id id db = Some e ->
  may_manage dir u (w_restaurant_id e) db = true ->
  tableId <> "" ->
  (forall status, ~ In status allowedAdminStatuses ->
     updateWaitlistStatus dir u id (Some status) (Some tableId) db
     = (reject 400, db))
  /\
  let '(res, db1) :=
    updateWaitlistStatus dir u id (Some "seated") (Some tableId) db in
  res = ok 200 (set_waitlist_status "seated" None e)
  /\ waitlist_by_id id db1 = Some (set_waitlist_status "seated" None e)
  /\ (forall t, In t (db_tables db1) -> t_id t = tableId ->
                t_status t = "occupied").
Proof.
  intros He Hm Ht. apply String.eqb_neq in Ht. split.
  - intros status Hs. unfold updateWaitlistStatus. rewrite He, Hm.
    cbn [negb].
    destruct (Js.includes allowedAdminStatuses status) eqn:E;
      [|reflexivity].
    apply includes_true in E. contradiction.
  - unfold updateWaitlistStatus. rewrite He, Hm.
    cbn [negb Js.includes existsb allowedAdminStatuses].
    change ("seated" =? "notified") with false.
    change ("seated" =? "seated") with true.
    cbn [orb negb andb Js.truthy_string Js.or_string]. rewrite Ht.
    cbn [negb]. repeat split.
    + apply (waitlist_by_id_update id
               (fun w => set_waitlist_status "seated" None w) db e
               (fun x => eq_refl) He).
    + intros t. apply set_table_status_sets.
Qed.

Lemma staff_seats_waitlist_entry_witness :
  updateWaitlistStatus (mkDirectory [] (fun _ => Some "u7"))
    (mkUser "u7" "restaurant_admin" None) "w1" (Some "waiting") (Some "t1")
    (Sample.queue [Sample.waiting "w1" "555-0100" "notified"])
  = (reject 400, Sample.queue [Sample.waiting "w1" "555-0100" "notified"])
  /\
  map t_status
    (db_tables
       (snd (updateWaitlistStatus (mkDirectory [] (fun _ => Some "u7"))
               (mkUser "u7" "restaurant_admin" None) "w1" (Some "seated")
               (Some "t1")
               (Sample.queue [Sample.waiting "w1" "555-0100" "notified"]))))
  = ["occupied"].
Proof.
  split; [|reflexivity].
  refine (proj1 (staff_seats_waitlist_entry
                   (mkDirectory [] (fun _ => Some "u7"))
                   (mkUser "u7" "restaurant_admin" None) "w1" "t1"
                   (Sample.queue [Sample.waiting "w1" "555-0100" "notified"])
                   (Sample.waiting "w1" "555-0100" "notified")
                   eq_refl eq_refl _) "waiting" _).
  - discriminate.
  - cbn. intuition discriminate.
Defined.

(** ** Positions drift down *)

Lemma length_filter_update_one {A : Type} (sel P : A -> bool) (f : A -> A)
  (l : list A) (e : A) :
  filter sel l = [e] -> P e = true -> P (f e) = false ->
  S (List.length (filter P (Supabase.update sel f l)))
  = List.length (filter P l).
Proof.
  unfold Supabase.update. induction l as [|x xs IH]; simpl;
    intros Hsel He Hf; [discriminate|].
  destruct (sel x) eqn:Es.
  - injection Hsel as -> Hxs. rewrite Hf, He. simpl. f_equal.
    f_equal. f_equal. fold (Supabase.update sel f xs).
    apply update_none. exact Hxs.
  - destruct (P x); simpl; rewrite <- (IH Hsel He Hf); reflexivity.
Qed.

Lemma filter_update_other {A : Type} (sel q : A -> bool) (f : A -> A)
  (l : list A) :
  (forall x, sel x = true -> q x = false) ->
  (forall x, q (f x) = q x) ->
  filter q (Supabase.update sel f l) = filter q l.
Proof.
  intros H1 H2. unfold Supabase.update.
  induction l as [|x xs IH]; simpl; [reflexivity|].
  destruct (sel x) eqn:Es.
  - rewrite H2, (H1 x Es). exact IH.
  - rewrite IH. reflexivity.
Qed.

Lemma position_after_update (id1 id2 : string)
  (f : WaitlistEntry -> WaitlistEntry) (db : Db) (e1 e2 : WaitlistEntry)
  (p1 p2 : Z) :
  waitlist_by_id id1 db = Some e1 ->
  waitlist_by_id id2 db = Some e2 ->
  id1 <> id2 ->
  w_restaurant_id e1 = w_restaurant_id e2 ->
  In (w_status e1) ["waiting"; "notified"] ->
  w_position e1 = Some p1 -> w_position e2 = Some p2 -> p1 < p2 ->
  (forall x, w_id (f x) = w_id x) ->
  Js.includes ["waiting"; "notified"] (w_status (f e1))
  && position_lt (f e1) (Some p2) = false ->
  exists c,
    current_position id2 db = Some (c + 1)
    /\ current_position id2 (update_waitlist id1 f db) = Some c.
Proof.
  intros H1 H2 Hne Hrest Hst Hp1 Hp2 Hlt Hid Hgone.
  unfold waitlist_by_id in H1, H2.
  apply single_Some in H1. apply single_Some in H2.
  set (P := fun w => (w_restaurant_id w =? w_restaurant_id e2)
                     && Js.includes ["waiting"; "notified"] (w_status w)
                     && position_lt w (w_position e2)).
  exists (Z.of_nat (List.length
                      (filter P (Supabase.update (fun w => w_id w =? id1) f
                                   (db_waitlist db)))) + 1).
  assert (E2 : filter (fun w => w_id w =? id2)
                 (Supabase.update (fun w => w_id w =? id1) f (db_waitlist db))
               = [e2]).
  { rewrite filter_update_other; [exact H2| |].
    - intros x Hx. cbv beta in *. apply String.eqb_eq in Hx.
      apply String.eqb_neq. intros Hx2. apply Hne. congruence.
    - intros x. cbv beta. rewrite Hid. reflexivity. }
  assert (Hcount : S (List.length
                        (filter P (Supabase.update (fun w => w_id w =? id1) f
                                     (db_waitlist db))))
                   = List.length (filter P (db_waitlist db))).
  { apply (length_filter_update_one _ P f _ e1 H1).
    - unfold P, position_lt. rewrite Hrest, String.eqb_refl, Hp1, Hp2.
      apply includes_true in Hst. rewrite Hst.
      destruct (Z.ltb_spec p1 p2); [reflexivity|lia].
    - unfold P. rewrite Hp2, <- andb_assoc, Hgone. apply andb_false_r. }
  unfold current_position, waitlistStatus, update_waitlist.
  cbn [db_waitlist with_waitlist]. rewrite H2, E2.
  cbn [fst res_data ok option_map ws_currentPosition]. fold P.
  rewrite <- Hcount. split; f_equal; lia.
Qed.

Lemma current_position_set_table_status (id tableId status : string)
  (db : Db) :
  current_position id (set_table_status tableId status db)
  = current_position id db.
Proof.
  unfold current_position, waitlistStatus.
  cbn [db_waitlist set_table_status with_tables].
  destruct (filter (fun w => w_id w =? id) (db_waitlist db)) as [|e [|e' l]];
    reflexivity.
Qed.

(** Positions drift down without renumbering: when an entry that is
    waiting or notified leaves the waitlist, or is seated by the staff,
    the current position the status route computes for every entry behind
    it at the same restaurant goes down by exactly one, the stored
    positions staying as they are. *)
Theorem entry_ahead_gone_moves_queue_up (dir : Directory) (u : User)
  (user : option User) (phone tableId : option string) (id1 id2 : string)
  (db : Db) (e1 e2 : WaitlistEntry) (p1 p2 : Z) :
  waitlist_by_id id1 db = Some e1 ->
  waitlist_by_id id2 db = Some e2 ->
  id1 <> id2 ->
  w_restaurant_id e1 = w_restaurant_id e2 ->
  In (w_status e1) ["waiting"; "notified"] ->
  w_position e1 = Some p1 -> w_position e2 = Some p2 -> p1 < p2 ->
  exists c,
    current_position id2 db = Some (c + 1)
    /\ (may_leave user phone e1 = true ->
        current_position id2 (snd (leaveWaitlist user id1 phone db))
        = Some c)
    /\ (may_manage dir u (w_restaurant_id e1) db = true ->
        current_position id2
          (snd (updateWaitlistStatus dir u id1 (Some "seated") tableId db))
        = Some c).
Proof.
  intros H1 H2 Hne Hrest Hst Hp1 Hp2 Hlt.
  destruct (position_after_update id1 id2 leave_update db e1 e2 p1 p2
              H1 H2 Hne Hrest Hst Hp1 Hp2 Hlt (fun x => eq_refl) eq_refl)
    as (c & Hc & Hleave).
  destruct (position_after_update id1 id2
              (fun w => set_waitlist_status "seated" None w) db e1 e2 p1 p2
              H1 H2 Hne Hrest Hst Hp1 Hp2 Hlt (fun x => eq_refl) eq_refl)
    as (c' & Hc' & Hseat).
  assert (c' = c) by (rewrite Hc in Hc'; injection Hc'; lia).
  subst c'.
  exists c. split; [exact Hc|]. split.
  - intros Hm. rewrite (leave_accepted user id1 phone db e1 H1 Hm).
    exact Hleave.
  - intros Hm. unfold updateWaitlistStatus. rewrite H1, Hm.
    cbn [negb Js.includes existsb allowedAdminStatuses].
    change ("seated" =? "notified") with false.
    change ("seated" =? "seated") with true.
    cbn [orb negb andb snd].
    destruct (Js.truthy_string tableId);
      rewrite ?current_position_set_table_status; exact Hseat.
Qed.

Lemma entry_ahead_gone_moves_queue_up_witness :
  current_position "w2"
    (Sample.queue
       [Sample.waiting "w1" "555-0100" "waiting";
        mkWaitlistEntry "w2" "rx" None "Luis" "555-0101" 4 "waiting"
          (Some 2) 30]) = Some 2
  /\ current_position "w2"
       (snd (leaveWaitlist None "w1" (Some "555-0100")
               (Sample.queue
                  [Sample.waiting "w1" "555-0100" "waiting";
                   mkWaitlistEntry "w2" "rx" None "Luis" "555-0101" 4
                     "waiting" (Some 2) 30]))) = Some 1.
Proof.
  destruct (entry_ahead_gone_moves_queue_up
              (mkDirectory [] (fun _ => None)) Sample.guest None
              (Some "555-0100") None "w1" "w2"
              (Sample.queue
                 [Sample.waiting "w1" "555-0100" "waiting";
                  mkWaitlistEntry "w2" "rx" None "Luis" "555-0101" 4
                    "waiting" (Some 2) 30])
              (Sample.waiting "w1" "555-0100" "waiting")
              (mkWaitlistEntry "w2" "rx" None "Luis" "555-0101" 4 "waiting"
                 (Some 2) 30)
              1 2 eq_refl eq_refl)
    as (c & Hc & Hleave & _);
    try reflexivity; try discriminate; try lia.
  - left. reflexivity.
  - assert (E : current_position "w2"
                  (Sample.queue
                     [Sample.waiting "w1" "555-0100" "waiting";
                      mkWaitlistEntry "w2" "rx" None "Luis" "555-0101" 4
                        "waiting" (Some 2) 30]) = Some 2) by reflexivity.
    assert (c = 1) by (rewrite E in Hc; injection Hc; lia). subst c.
    split; [exact E|]. apply Hleave. reflexivity.
Defined.

(** ** The status report and the walk-in *)

Lemma insert_by_time_In (x r : Reservation) (l : list Reservation) :
  In x (insert_by_time r l) <-> x = r \/ In x l.
Proof.
  induction l as [|y ys IH]; simpl; [intuition congruence|].
  destruct (String.compare (r_time r) (r_time y)); simpl;
    rewrite ?IH; intuition congruence.
Qed.

Lemma sort_by_time_In (x : Reservation) (l : list Reservation) :
  In x (sort_by_time l) <-> In x l.
Proof.
  induction l as [|y ys IH]; simpl; [tauto|].
  rewrite insert_by_time_In, IH. intuition congruence.
Qed.

Lemma find_exists {A : Type} (p : A -> bool) (l : list A) (x : A) :
  In x l -> p x = true -> exists y, find p l = Some y /\ p y = true.
Proof.
  intros Hin Hp. destruct (find p l) as [y|] eqn:E.
  - exists y. split; [reflexivity|]. apply (find_some _ _ E).
  - rewrite (find_none _ _ E x Hin) in Hp. discriminate.
Qed.

Lemma sitting_party_is_current (reservations : list Reservation)
  (time : string) (table : Table) (r : Reservation) :
  In r reservations ->
  r_table_id r = t_id table ->
  r_status r = "arrived" \/ r_status r = "seated" ->
  exists c,
    find (is_current time)
      (sort_by_time
         (filter (fun x => r_table_id x =? t_id table) reservations))
    = Some c.
Proof.
  intros Hin Ht Hs.
  destruct (find_exists (is_current time)
              (sort_by_time
                 (filter (fun x => r_table_id x =? t_id table) reservations))
              r) as (c & E & _).
  - apply sort_by_time_In, filter_In. split; [exact Hin|].
    apply String.eqb_eq. exact Ht.
  - unfold is_current.
    destruct Hs as [-> | ->]; reflexivity.
  - exists c. exact E.
Qed.

Lemma current_reservation_gives_occupied (reservations : list Reservation)
  (time : string) (table : Table) (c : Reservation) :
  t_status table <> "blocked" -> t_status table <> "disabled" ->
  find (is_current time)
    (sort_by_time
       (filter (fun x => r_table_id x =? t_id table) reservations))
  = Some c ->
  logicalStatus (tableReport reservations time table) = OCCUPIED
  /\ currentReservation (tableReport reservations time table) <> None.
Proof.
  intros Hb Hd E. unfold tableReport.
  apply String.eqb_neq in Hb, Hd. rewrite Hb, Hd. cbn [orb].
  rewrite E. cbn [logicalStatus currentReservation].
  split; [reflexivity|discriminate].
Qed.

(** A party that sits keeps its table: while a reservation of today for
    the table is arrived or seated, the report labels the table OCCUPIED
    at every time of the day, also after the end-time of the reservation,
    unless the table is blocked or disabled. *)
Theorem seated_party_keeps_table_occupied (reservations : list Reservation)
  (time : string) (table : Table) (r : Reservation) :
  In r reservations ->
  r_table_id r = t_id table ->
  r_status r = "arrived" \/ r_status r = "seated" ->
  t_status table <> "blocked" -> t_status table <> "disabled" ->
  logicalStatus (tableReport reservations time table) = OCCUPIED
  /\ currentReservation (tableReport reservations time table) <> None.
Proof.
  intros Hin Ht Hs Hb Hd.
  destruct (sitting_party_is_current reservations time table r Hin Ht Hs)
    as [c E].
  exact (current_reservation_gives_occupied _ _ _ c Hb Hd E).
Qed.

Lemma seated_party_keeps_table_occupied_witness :
  logicalStatus
    (tableReport
       [Sample.booking "r1" "13:00:00" (Some "14:30:00") "seated" None]
       "23:15:00" Sample.table4) = OCCUPIED.
Proof.
  refine (proj1 (seated_party_keeps_table_occupied
                   [Sample.booking "r1" "13:00:00" (Some "14:30:00") "seated"
                      None]
                   "23:15:00" Sample.table4
                   (Sample.booking "r1" "13:00:00" (Some "14:30:00") "seated"
                      None) _ eq_refl _ _ _)).
  - left. reflexivity.
  - right. reflexivity.
  - discriminate.
  - discriminate.
Defined.

Lemma find_map_report (id : string) (reservations : list Reservation)
  (time : string) (tables : list Table) :
  find (fun t => tableId t =? id) (map (tableReport reservations time) tables)
  = option_map (tableReport reservations time)
      (find (fun t => t_id t =? id) tables).
Proof.
  induction tables as [|t ts IH]; simpl; [reflexivity|].
  rewrite tableReport_tableId. destruct (t_id t =? id); [reflexivity|].
  exact IH.
Qed.

Lemma walk_in_without_report (new_id : string) (now : Date)
  (restaurantId userId id : string) (b : WalkInBody) (db : Db) :
  Js.truthy_number (wi_guestCount b) = true ->
  find (fun t => t_id t =? id) (active_tables restaurantId db) = None ->
  assignWalkIn new_id now restaurantId userId id b db = (reject 404, db).
Proof.
  intros Hg E. unfold assignWalkIn. rewrite Hg. cbn [negb].
  unfold getRestaurantStatusReport. rewrite find_map_report, E.
  reflexivity.
Qed.

Lemma no_active_table (restaurantId id : string) (db : Db) :
  (forall t, In t (db_tables db) -> t_id t = id ->
             t_restaurant_id t <> restaurantId \/ t_is_active t = false) ->
  find (fun t => t_id t =? id) (active_tables restaurantId db) = None.
Proof.
  intros Hno.
  destruct (find (fun t => t_id t =? id) (active_tables restaurantId db))
    as [t|] eqn:E; [exfalso|reflexivity].
  apply find_some in E as [Hin Hid]. apply String.eqb_eq in Hid.
  unfold active_tables in Hin. apply filter_In in Hin as [Hin Hp].
  apply andb_true_iff in Hp as [Hr Ha]. apply String.eqb_eq in Hr.
  destruct (Hno t Hin Hid); congruence.
Qed.

(** A walk-in on a table that is not an active table of the panel's
    restaurant (unknown, inactive, or of another restaurant) is answered
    404 and changes nothing. *)
Theorem walk_in_unknown_table (new_id : string) (now : Date)
  (restaurantId userId id : string) (b : WalkInBody) (db : Db) :
  Js.truthy_number (wi_guestCount b) = true ->
  (forall t, In t (db_tables db) -> t_id t = id ->
             t_restaurant_id t <> restaurantId \/ t_is_active t = false) ->
  assignWalkIn new_id now restaurantId userId id b db = (reject 404, db).
Proof.
  intros Hg Hno.
  exact (walk_in_without_report _ _ _ _ _ _ _ Hg
           (no_active_table restaurantId id db Hno)).
Qed.

Lemma walk_in_unknown_table_witness :
  assignWalkIn "w1" Sample.evening "ry" "u9" "t1"
    (mkWalkInBody (Some 2) None None) (Sample.store []) =
  (reject 404, Sample.store []).
Proof.
  apply (walk_in_unknown_table "w1" Sample.evening "ry" "u9" "t1"
           (mkWalkInBody (Some 2) None None) (Sample.store []) eq_refl).
  intros t [<-|[]] _. left. discriminate.
Defined.

Lemma filter_update_commute {A : Type} (sel q : A -> bool) (f : A -> A)
  (l : list A) :
  (forall x, q (f x) = q x) ->
  filter q (Supabase.update sel f l) = Supabase.update sel f (filter q l).
Proof.
  intros H. unfold Supabase.update.
  induction l as [|x xs IH]; simpl; [reflexivity|].
  assert (E : q (if sel x then f x else x) = q x)
    by (destruct (sel x); [apply H|reflexivity]).
  rewrite E. destruct (q x); simpl; rewrite IH; reflexivity.
Qed.

Lemma find_update_same {A : Type} (sel : A -> bool) (f : A -> A)
  (l : list A) :
  (forall x, sel (f x) = sel x) ->
  find sel (Supabase.update sel f l) = option_map f (find sel l).
Proof.
  intros H. unfold Supabase.update.
  induction l as [|x xs IH]; simpl; [reflexivity|].
  destruct (sel x) eqn:E.
  - rewrite H, E. reflexivity.
  - rewrite E. exact IH.
Qed.

(** Seating a walk-in takes the table: once a walk-in is accepted, the
    status report at that instant labels the table OCCUPIED, and a second
    walk-in on the same table is answered 409 and changes nothing. *)
Theorem walk_in_takes_the_table (new_id new_id2 : string) (now : Date)
  (restaurantId userId userId2 id : string) (b b2 : WalkInBody) (db : Db) :
  res_status (fst (assignWalkIn new_id now restaurantId userId id b db))
  = 201%nat ->
  Js.truthy_number (wi_guestCount b2) = true ->
  let db1 := snd (assignWalkIn new_id now restaurantId userId id b db) in
  (exists ts,
     find (fun t => tableId t =? id)
          (getRestaurantStatusReport now restaurantId db1) = Some ts
     /\ logicalStatus ts = OCCUPIED)
  /\ assignWalkIn new_id2 now restaurantId userId2 id b2 db1
     = (reject 409, db1).
Proof.
  intros Hok Hg2. cbv zeta.
  assert (Hfound : exists table,
             find (fun t => t_id t =? id) (active_tables restaurantId db)
             = Some table
             /\ snd (assignWalkIn new_id now restaurantId userId id b db)
                = set_table_status id "occupied"
                    (with_reservations db
                       (db_reservations db
                        ++ [mkReservation new_id restaurantId userId id
                              (iso_day now) (toTimeString now)
                              (Some (toTimeString (add_minutes now 90)))
                              (match wi_guestCount b with
                               | Some n => n
                               | None => 0
                               end)
                              None None "seated" false (Some "walk_in")
                              (Some (walk_in_notes b)) None])%list)).
  { revert Hok. unfold assignWalkIn.
    destruct (negb (Js.truthy_number (wi_guestCount b)));
      [discriminate|].
    unfold getRestaurantStatusReport. rewrite find_map_report.
    destruct (find (fun t => t_id t =? id) (active_tables restaurantId db))
      as [table|]; [|discriminate].
    cbn [option_map].
    destruct (match logicalStatus _ with FREE | NEXT_RESERVATION => false
              | _ => true end); [discriminate|].
    destruct (match nextReservation _ with Some _ => _ | None => false end);
      [discriminate|].
    intros _. exists table. split; reflexivity. }
  destruct Hfound as (table & Hfind & ->).
  set (r := mkReservation new_id restaurantId userId id (iso_day now)
              (toTimeString now) (Some (toTimeString (add_minutes now 90)))
              (match wi_guestCount b with Some n => n | None => 0 end)
              None None "seated" false (Some "walk_in")
              (Some (walk_in_notes b)) None).
  set (db1 := set_table_status id "occupied"
                (with_reservations db (db_reservations db ++ [r])%list)).
  set (occupy := fun t => mkTable (t_id t) (t_restaurant_id t) (t_number t)
                            (t_capacity t) (t_is_active t) "occupied").
  assert (Hid : t_id table = id).
  { apply find_some in Hfind as [_ H]. apply String.eqb_eq. exact H. }
  assert (Hrep : find (fun t => tableId t =? id)
                   (getRestaurantStatusReport now restaurantId db1)
                 = Some (tableReport
                           (todays_reservations restaurantId (iso_day now)
                              db1)
                           (toTimeString now) (occupy table))).
  { unfold getRestaurantStatusReport. rewrite find_map_report.
    unfold active_tables, db1, set_table_status.
    cbn [db_tables with_tables with_reservations].
    rewrite filter_update_commute by reflexivity.
    fold (active_tables restaurantId db).
    rewrite find_update_same by reflexivity.
    rewrite Hfind. reflexivity. }
  assert (Hocc : logicalStatus
                   (tableReport
                      (todays_reservations restaurantId (iso_day now) db1)
                      (toTimeString now) (occupy table)) = OCCUPIED).
  { destruct (sitting_party_is_current
                (todays_reservations restaurantId (iso_day now) db1)
                (toTimeString now) (occupy table) r) as [c E].
    - unfold todays_reservations, db1.
      cbn [db_reservations set_table_status with_tables with_reservations].
      apply filter_In. split; [apply in_or_app; right; left; reflexivity|].
      cbn [r r_restaurant_id r_date r_status]. rewrite !String.eqb_refl.
      reflexivity.
    - cbn [r r_table_id occupy t_id]. symmetry. exact Hid.
    - right. reflexivity.
    - apply (current_reservation_gives_occupied _ _ _ c); [| |exact E];
        discriminate. }
  split.
  - eexists. split; [exact Hrep|exact Hocc].
  - unfold assignWalkIn. rewrite Hg2, Hrep, Hocc. reflexivity.
Qed.

Lemma walk_in_takes_the_table_witness :
  assignWalkIn "w2" Sample.evening "rx" "u9" "t1"
    (mkWalkInBody (Some 3) None None)
    (snd (assignWalkIn "w1" Sample.evening "rx" "u9" "t1"
            (mkWalkInBody (Some 2) None None) (Sample.store []))) =
  (reject 409,
   snd (assignWalkIn "w1" Sample.evening "rx" "u9" "t1"
          (mkWalkInBody (Some 2) None None) (Sample.store []))).
Proof.
  exact (proj2 (walk_in_takes_the_table "w1" "w2" Sample.evening "rx" "u9"
                  "u9" "t1" (mkWalkInBody (Some 2) None None)
                  (mkWalkInBody (Some 3) None None) (Sample.store [])
                  eq_refl eq_refl)).
Defined.

(** ** Tables of the panel *)

(** A table the panel creates is bookable at once: for every date and time
    and every party size that parseInt reads as a safe integer within its
    capacity, the available-tables route lists it, as long as no
    reservation already names its id. *)
Theorem created_table_is_available (new_id restaurantId : string)
  (number capacity n : Z) (date time guests : string) (db : Db) :
  date <> "" -> time <> "" -> guests <> "" ->
  parseInt guests = Js.Num n -> safe_integer n -> n <= capacity ->
  (forall r, In r (db_reservations db) -> r_table_id r <> new_id) ->
  let '(res, db1) :=
    createTable new_id restaurantId number capacity db in
  exists table tables,
    res = ok 201 table
    /\ availableTables restaurantId (Some date) (Some time) (Some guests) db1
       = (ok 200 tables, db1)
    /\ In table tables.
Proof.
  intros Hd Ht Hg Hn _ Hcap Hfresh. unfold createTable.
  eexists. eexists. split; [reflexivity|].
  unfold availableTables. apply String.eqb_neq in Hd, Ht, Hg.
  cbn [Js.truthy_string Js.or_string]. rewrite Hd, Ht, Hg. cbn [negb orb].
  rewrite Hn. split; [reflexivity|].
  apply filter_In. split.
  - apply filter_In. cbn [db_tables with_tables Supabase.insert].
    split; [apply in_or_app; right; left; reflexivity|].
    cbn [t_restaurant_id t_capacity t_is_active].
    rewrite String.eqb_refl.
    destruct (Z.leb_spec n capacity); [reflexivity|lia].
  - apply negb_true_iff. cbn [t_id db_reservations with_tables].
    destruct (Js.includes _ new_id) eqn:E; [exfalso|reflexivity].
    apply includes_true, in_map_iff in E as (r & Hr & Hin).
    apply filter_In in Hin as [Hin _]. exact (Hfresh r Hin Hr).
Qed.

Lemma created_table_is_available_witness :
  let '(res, db1) := createTable "t2" "rx" 2 6 (Sample.store []) in
  exists table tables,
    res = ok 201 table
    /\ availableTables "rx" (Some "2024-06-01") (Some "19:00:00") (Some "5")
         db1 = (ok 200 tables, db1)
    /\ In table tables.
Proof.
  refine (created_table_is_available "t2" "rx" 2 6 5 "2024-06-01" "19:00:00"
            "5" (Sample.store []) _ _ _ eq_refl _ _ _);
    try (unfold safe_integer; lia); try discriminate.
  intros r [].
Defined.

(** ** Staff frees a table *)



(** ** Minutes between two times *)

(** For two clock readings of the day, the minutes the service counts from
    the text of one to the text of the other are those between their
    hour:minute readings, taken modulo a day: never negative, always below
    1440, and the plain difference when the second is not earlier. *)
Theorem calculateRemainingMinutes_range (a b : Z) :
  0 <= a < 86400 -> 0 <= b < 86400 ->
  exists m,
    calculateRemainingMinutes (time_of_seconds a) (time_of_seconds b)
    = Js.Num m
    /\ 0 <= m < 1440
    /\ m = (b / 60 - a / 60) mod 1440
    /\ (a <= b -> m = b / 60 - a / 60).
Proof.
  intros Ha Hb. unfold calculateRemainingMinutes.
  rewrite !minutes_of_time_of_seconds by assumption.
  eexists. split; [reflexivity|].
  assert (Ra : 0 <= a / 60 < 1440) by (Z.div_mod_to_equations; lia).
  assert (Rb : 0 <= b / 60 < 1440) by (Z.div_mod_to_equations; lia).
  destruct (Z.ltb_spec (b / 60 - a / 60) 0) as [Hneg|Hpos].
  - split; [lia|]. split.
    + apply (Z.mod_unique _ _ (-1)); lia.
    + intros Hab. exfalso.
      assert (a / 60 <= b / 60) by (apply Z.div_le_mono; lia). lia.
  - split; [lia|]. split.
    + symmetry. apply Z.mod_small. lia.
    + reflexivity.
Qed.

Lemma calculateRemainingMinutes_range_witness :
  exists m,
    calculateRemainingMinutes "23:30:00" "00:15:00" = Js.Num m
    /\ 0 <= m < 1440 /\ m = 45.
Proof.
  destruct (calculateRemainingMinutes_range 84600 900) as (m & E & R & M & _);
    try lia.
  exists m. split; [exact E|]. split; [exact R|].
  rewrite M. reflexivity.
Defined.

(** ** The panel routes *)

Lemma panel_update_keeps (restaurantId id : string)
  (f : Reservation -> Reservation) (rows : list Reservation)
  (x : Reservation) :
  In x rows -> r_restaurant_id x <> restaurantId ->
  In x (Supabase.update
          (fun y => (r_id y =? id) && (r_restaurant_id y =? restaurantId))
          f rows).
Proof.
  intros Hin Hne. unfold Supabase.update. apply in_map_iff.
  exists x. split; [|exact Hin].
  apply String.eqb_neq in Hne. rewrite Hne, andb_false_r. reflexivity.
Qed.

(** The panel acts on its own restaurant only: whatever the id, the four
    panel routes (accept, cancel, check-in, seat) leave every reservation
    of another restaurant as it is, and answer 500 without any change when
    the id is not a reservation of the panel's restaurant. *)
Theorem panel_routes_stay_in_their_restaurant (restaurantId id : string)
  (reason : option string) (db : Db) :
  let routes :=
    [acceptReservation restaurantId id;
     panelCancelReservation restaurantId id reason;
     checkinReservation restaurantId id;
     seatReservation restaurantId id] in
  Forall
    (fun route =>
       (forall x, In x (db_reservations db) ->
                  r_restaurant_id x <> restaurantId ->
                  In x (db_reservations (snd (route db))))
       /\ (panel_row restaurantId id db = None ->
           route db = (reject 500, db)))
    routes.
Proof.
  cbv zeta.
  repeat constructor;
    unfold acceptReservation, panelCancelReservation, checkinReservation,
      seatReservation, panel_transition;
    try (intros H; rewrite H; reflexivity);
    intros x Hin Hne;
    destruct (panel_row restaurantId id db) as [r|]; cbn [snd];
    try exact Hin;
    match goal with
    | |- context [if ?c then _ else _] => destruct c
    end;
    cbn [db_reservations set_table_status with_tables with_reservations];
    apply panel_update_keeps; assumption.
Qed.

Lemma panel_routes_stay_in_their_restaurant_witness :
  checkinReservation "ry" "r1"
    (Sample.store [Sample.booking "r1" "19:00:00" None "confirmed" None]) =
  (reject 500,
   Sample.store [Sample.booking "r1" "19:00:00" None "confirmed" None]).
Proof.
  pose proof (panel_routes_stay_in_their_restaurant "ry" "r1" None
                (Sample.store
                   [Sample.booking "r1" "19:00:00" None "confirmed" None]))
    as H.
  cbv zeta in H.
  apply Forall_inv_tail, Forall_inv_tail, Forall_inv in H.
  exact (proj2 H eq_refl).
Defined.

Lemma panel_row_update (restaurantId id : string)
  (f : Reservation -> Reservation) (db : Db) (r : Reservation) :
  (forall x, r_id (f x) = r_id x) ->
  (forall x, r_restaurant_id (f x) = r_restaurant_id x) ->
  panel_row restaurantId id db = Some r ->
  Supabase.single
    (filter (fun y => (r_id y =? id) && (r_restaurant_id y =? restaurantId))
       (Supabase.update
          (fun y => (r_id y =? id) && (r_restaurant_id y =? restaurantId))
          f (db_reservations db))) = Some (f r).
Proof.
  intros H1 H2 Hr. unfold panel_row in Hr. apply single_Some in Hr.
  rewrite filter_update_same
    by (intros x; cbv beta; rewrite H1, H2; reflexivity).
  rewrite Hr. reflexivity.
Qed.

(** What each panel route does to a reservation of its restaurant that
    has a table: accept makes it confirmed and the table reserved;
    check-in makes it arrived and seat makes it seated, the table
    occupied; cancel makes it cancelled and the table available, records
    the reason in cancellation_reason and keeps the special request. *)
Theorem panel_routes_effect (restaurantId id : string)
  (reason : option string) (db : Db) (r : Reservation) :
  panel_row restaurantId id db = Some r ->
  r_table_id r <> "" ->
  let outcome route status tableStatus :=
    exists r1,
      fst (route db) = ok 200 r1
      /\ panel_row restaurantId id (snd (route db)) = Some r1
      /\ r_status r1 = status
      /\ r_special_request r1 = r_special_request r
      /\ (forall t, In t (db_tables (snd (route db))) ->
                    t_id t = r_table_id r -> t_status t = tableStatus) in
  outcome (acceptReservation restaurantId id) "confirmed" "reserved"
  /\ outcome (checkinReservation restaurantId id) "arrived" "occupied"
  /\ outcome (seatReservation restaurantId id) "seated" "occupied"
  /\ outcome (panelCancelReservation restaurantId id reason) "cancelled"
       "available"
  /\ (exists r1,
        fst (panelCancelReservation restaurantId id reason db) = ok 200 r1
        /\ r_cancellation_reason r1
           = Some (Js.or_string reason "Cancelada por el restaurante")).
Proof.
  intros Hr Ht. cbv zeta. apply String.eqb_neq in Ht.
  unfold acceptReservation, panelCancelReservation, checkinReservation,
    seatReservation, panel_transition.
  rewrite Hr.
  cbn [fst snd set_status panel_cancel_update r_table_id]. rewrite Ht.
  repeat split;
    try (eexists; split; [reflexivity|]; repeat split;
         [ unfold panel_row;
           cbn [db_reservations set_table_status with_tables
                with_reservations];
           apply panel_row_update; [reflexivity|reflexivity|exact Hr]
         | intros t; apply set_table_status_sets ]).
  eexists. split; reflexivity.
Qed.

Lemma panel_routes_effect_witness :
  map r_status
    (db_reservations
       (snd (seatReservation "rx" "r1"
               (Sample.store
                  [Sample.booking "r1" "19:00:00" None "arrived" None]))))
  = ["seated"]
  /\ exists r1,
       fst (seatReservation "rx" "r1"
              (Sample.store
                 [Sample.booking "r1" "19:00:00" None "arrived" None]))
       = ok 200 r1 /\ r_status r1 = "seated".
Proof.
  split; [reflexivity|].
  destruct (panel_routes_effect "rx" "r1" None
              (Sample.store
                 [Sample.booking "r1" "19:00:00" None "arrived" None])
              (Sample.booking "r1" "19:00:00" None "arrived" None)
              eq_refl ltac:(discriminate))
    as (_ & _ & (r1 & E & _ & S & _) & _).
  exists r1. split; assumption.
Defined.

(** ** Who may use the status route *)

Lemma status_route_overwrites_witness :
  let '(res, db') :=
    updateReservationStatus (mkUser "u2" "customer" None) "r1"
      (Some "no_show")
      (Sample.store [Sample.booking "r1" "19:00:00" None "confirmed" None]) in
  res = ok 200 (Sample.booking "r1" "19:00:00" None "no_show" None)
  /\ reservation_by_id "r1" db'
     = Some (Sample.booking "r1" "19:00:00" None "no_show" None).
Proof.
  exact (status_route_overwrites (mkUser "u2" "customer" None) "r1"
           "no_show"
           (Sample.store
              [Sample.booking "r1" "19:00:00" None "confirmed" None])
           (Sample.booking "r1" "19:00:00" None "confirmed" None)
           eq_refl eq_refl eq_refl).
Defined.
